(** * mcphub: semantic tool search and the dual-backend adapters

    A shallow embedding of the vector-search service
    ([services/vectorSearchService.ts]), the vector record store
    ([db/repositories/VectorEmbeddingRepository.ts]), the vector set-up of
    [db/connection.ts], the search controller and the user / server-config
    adapters, together with the properties the specification states about
    them.

    Conventions.
    - A JavaScript [number] that holds a measurement (an embedding
      component, a similarity, a threshold) is a real number; rounding is
      not modelled.  Counts accumulated by the offline vectorizer are exact
      rationals so that they can be evaluated.
    - A number read from text by [parseFloat] is an exact rational within
      the range of a double: a magnitude that underflows reads as zero, one
      that overflows as infinity.
    - A JavaScript string is a [string] of 8-bit code units.
    - Asynchronous code is sequential here: every [await] is a bind of the
      effect monad [Eff], a rejected promise is a thrown exception. *)

From Stdlib Require Import ZArith QArith Qminmax Reals Lra Lia String Ascii List Sorted.
From stdpp Require Import base strings list pretty.
Import ListNotations.

Local Open Scope string_scope.

(** ** JavaScript strings *)

Module JsString.

(** Code units matched by [\s] (and removed by [trim]) below U+0100. *)
Definition is_whitespace (c : ascii) : bool :=
  let n := N_of_ascii c in
  ((9 <=? n) && (n <=? 13) || (n =? 32) || (n =? 160))%N.

(** [String.prototype.toLowerCase] on one code unit: A-Z and the Latin-1
    capitals (U+00C0..U+00DE without the multiplication sign). *)
Definition lower_char (c : ascii) : ascii :=
  let n := N_of_ascii c in
  if ((65 <=? n) && (n <=? 90)
      || (192 <=? n) && (n <=? 222) && negb (n =? 215))%N
  then ascii_of_N (n + 32) else c.

Fixpoint toLowerCase (s : string) : string :=
  match s with
  | EmptyString => EmptyString
  | String c rest => String (lower_char c) (toLowerCase rest)
  end.

(** [s.split(/\s+/)].  [cur] is the word being read, [in_ws] tells that
    the previous code unit belonged to a separator. *)
Fixpoint split_ws_from (cur : string) (in_ws : bool) (s : string) : list string :=
  match s with
  | EmptyString => [cur]
  | String c rest =>
      if is_whitespace c then
        if in_ws then split_ws_from cur true rest
        else cur :: split_ws_from EmptyString true rest
      else split_ws_from (cur ++ String c EmptyString) false rest
  end.

Definition split_whitespace (s : string) : list string :=
  split_ws_from EmptyString false s.

(** [word.split('').reduce((a, b) => a + b.charCodeAt(0), 0)] *)
Fixpoint char_code_sum (a : N) (word : string) : N :=
  match word with
  | EmptyString => a
  | String b rest => char_code_sum (a + N_of_ascii b) rest
  end.

(** Longest prefix of code units satisfying [p], and what follows it. *)
Fixpoint span (p : ascii -> bool) (s : string) : string * string :=
  match s with
  | EmptyString => (EmptyString, EmptyString)
  | String c rest =>
      if p c then let (a, b) := span p rest in (String c a, b)
      else (EmptyString, s)
  end.

Definition trim_start (s : string) : string := snd (span is_whitespace s).

Fixpoint rev_string (acc s : string) : string :=
  match s with
  | EmptyString => acc
  | String c rest => rev_string (String c acc) rest
  end.

Definition trim_end (s : string) : string :=
  rev_string EmptyString (trim_start (rev_string EmptyString s)).

Definition trim (s : string) : string := trim_end (trim_start s).

(** [array.indexOf(x)]: [None] stands for -1. *)
Fixpoint indexOf (x : string) (l : list string) : option nat :=
  match l with
  | [] => None
  | y :: rest => if String.eqb x y then Some 0 else S <$> indexOf x rest
  end.

(** [array.includes(x)] on an array of strings. *)
Definition includes (l : list string) (x : string) : bool :=
  existsb (String.eqb x) l.

End JsString.

(** ** Embedding provider: the offline vectorizer *)

Definition EMBEDDING_DIMENSIONS : nat := 1536.
Definition BGE_DIMENSIONS : nat := 1024.
Definition FALLBACK_DIMENSIONS : nat := 100.

Definition vocabulary : list string :=
  [ "search"; "find"; "get"; "fetch"; "retrieve"; "query"; "map"; "location";
    "weather"; "file"; "directory"; "email"; "message"; "send"; "create";
    "update"; "delete"; "browser"; "web"; "page"; "click"; "navigate";
    "screenshot"; "automation"; "database"; "table"; "record"; "insert";
    "select"; "schema"; "data"; "image"; "photo"; "video"; "media"; "upload";
    "download"; "convert"; "text"; "document"; "pdf"; "excel"; "word";
    "format"; "parse"; "api"; "rest"; "http"; "request"; "response"; "json";
    "xml"; "time"; "date"; "calendar"; "schedule"; "reminder"; "clock";
    "math"; "calculate"; "number"; "sum"; "average"; "statistics"; "user";
    "account"; "login"; "auth"; "permission"; "role" ].

(** [vector[i] += d].  An index past the end would grow a JavaScript array;
    [hash_slot_in_range] and the guard on the vocabulary index show that the
    vectorizer never writes there, so nothing is written in that case. *)
Definition add_at (i : nat) (d : Q) (vector : list Q) : list Q :=
  alter (fun val => (val + d)%Q) i vector.

(** The slot a word's hash lands in: [hash % vector.length]. *)
Definition hash_slot (word : string) (len : nat) : nat :=
  N.to_nat (JsString.char_code_sum 0 word mod N.of_nat len).

(** The body of [words.forEach((word) => ...)]. *)
Definition count_word (vector : list Q) (word : string) : list Q :=
  let counted :=
    match JsString.indexOf word vocabulary with
    | Some index =>
        if (index <? length vector)%nat then add_at index 1 vector else vector
    | None => vector
    end in
  add_at (hash_slot word (length counted)) (1 # 10) counted.

(** The vector before normalisation. *)
Definition bag_of_words (text : string) : list Q :=
  let words := JsString.split_whitespace (JsString.toLowerCase text) in
  fold_left count_word words (replicate FALLBACK_DIMENSIONS 0%Q).

Definition sum_of_squares (vector : list R) : R :=
  fold_left (fun sum val => (sum + val * val)%R) vector 0%R.

Definition normalize (vector : list R) : list R :=
  let magnitude := sqrt (sum_of_squares vector) in
  if Rlt_dec 0 magnitude then map (fun val => (val / magnitude)%R) vector
  else vector.

(** [generateFallbackEmbedding] (and [generateEmbedding] of the first
    revision of the service, which is the same algorithm). *)
Definition generateFallbackEmbedding (text : string) : list R :=
  normalize (map Q2R (bag_of_words text)).

(** ** JavaScript values *)

Local Set Warnings "-register-all".

Inductive jsval : Type :=
| JUndefined
| JNull
| JBool (b : bool)
| JNum (n : Q)
| JStr (s : string)
| JArr (items : list jsval)
| JObj (fields : list (string * jsval)).

Module Js.

(** Truthiness, as tested by [if], [&&] and [||]. *)
Definition truthy (v : jsval) : bool :=
  match v with
  | JUndefined | JNull => false
  | JBool b => b
  | JNum n => negb (Qeq_bool n 0)
  | JStr s => negb (String.eqb s "")
  | JArr _ | JObj _ => true
  end.

(** [a || b] *)
Definition or (a b : jsval) : jsval := if truthy a then a else b.

(** [v.name]; [None] is the TypeError raised on [null] and [undefined]. *)
Definition get (name : string) (v : jsval) : option jsval :=
  match v with
  | JUndefined | JNull => None
  | JObj fields =>
      Some (match find (fun p => String.eqb (fst p) name) fields with
            | Some p => snd p
            | None => JUndefined
            end)
  | JBool _ | JNum _ | JStr _ | JArr _ => Some JUndefined
  end.

(** [names.includes(v)] for an array of strings: only a string can be found. *)
Definition includes (names : list string) (v : jsval) : bool :=
  match v with
  | JStr s => JsString.includes names s
  | _ => false
  end.

End Js.

(** ** Entities and records *)

(** A row of [vector_embeddings].  The generated [id] and the two
    timestamps are maintained by the ORM and play no part below. *)
Record VectorEmbedding : Type := {
  content_type : string;
  content_id : string;
  text_content : string;
  embedding : list R;
  dimensions : nat;
  metadata : jsval;
  model : string;
}.

Module Entities.
Record User : Type := {
  username : string;
  password : string;
  isAdmin : bool;
}.

Record ServerConfig : Type := {
  name : string;
  enabled : bool;
  createdAt : option Z;
}.
End Entities.

Record IUser : Type := {
  username : string;
  password : string;
  isAdmin : bool;
}.

Record ToolInfo : Type := {
  tool_name : string;
  tool_description : option string;
  tool_inputSchema : jsval;
}.

Record ServerInfo : Type := {
  name : string;
  status : string;
  error : option string;
  tools : list ToolInfo;
  createTime : Z;
  enabled : bool;
}.

Record DatabaseConfig : Type := {
  db_enabled : bool;
  migrationCompleted : bool;
}.

(** ** The database and the process state *)

Inductive IndexMethod : Type := ivfflat | hnsw | gin.

(** The statements the modelled code sends to the database. *)
Inductive Stmt : Type :=
| SelectTypmod
| DropIndex
| AlterWidth (width : Z)
| CreateIndex (method : IndexMethod)
| SelectDimensions
| FindOne (contentType contentId : string)
| Save (row : VectorEmbedding)
| SelectSimilar (query : list R) (limit : nat) (threshold : R)
    (contentTypes : option (list string))
| FindUser (username : string)
| FindServerConfigs.

(** [DROP INDEX], [ALTER TABLE] and [CREATE INDEX] change the schema. *)
Definition schema_changing (s : Stmt) : bool :=
  match s with
  | DropIndex | AlterWidth _ | CreateIndex _ => true
  | _ => false
  end.

Inductive exn : Type := Error (message : string).

(** What lies outside the repository: the database engine, the JSON parser
    and the embedding service. *)
Record Env : Type := {
  (** [atttypmod] the catalog reports for a column of type [vector(n)] *)
  typmod_of : Z -> Z;
  (** statements the engine refuses (a query that throws) *)
  rejects : Stmt -> bool;
  (** how a [metadata] document comes back in a raw row *)
  raw_metadata : jsval -> jsval;
  (** [JSON.parse]; [None] is a SyntaxError *)
  JSON_parse : string -> option jsval;
  (** the configured model name *)
  EMBEDDING_MODEL : string;
  (** [openai.apiKey] is set *)
  apiKey : bool;
  (** [openai.embeddings.create] followed by [response.data[0].embedding];
      [None] when either throws *)
  embeddings_create : string -> option (list R);
}.

Record World : Type := {
  (** [settings.systemConfig.databaseConfig] *)
  databaseConfig : option DatabaseConfig;
  (** [AppDataSource.isInitialized] *)
  isInitialized : bool;
  (** [pg_attribute.atttypmod] of [vector_embeddings.embedding] *)
  atttypmod : option Z;
  (** [idx_vector_embeddings_embedding] *)
  vector_index : option IndexMethod;
  (** the rows of the table [vector_embeddings] *)
  vector_embeddings : list VectorEmbedding;
  (** the rows of the table [users] *)
  users : list Entities.User;
  server_configs : list Entities.ServerConfig;
  (** [Date.now()] *)
  now : Z;
  (** every statement sent so far, oldest first *)
  issued : list Stmt;
}.

(** ** The effect monad *)

Inductive outcome (A : Type) : Type :=
| Returned (a : A)
| Thrown (e : exn).
Arguments Returned {A} a.
Arguments Thrown {A} e.

Definition Eff (A : Type) : Type := World -> outcome A * World.

Definition ret {A} (a : A) : Eff A := fun w => (Returned a, w).

Definition throw {A} (e : exn) : Eff A := fun w => (Thrown e, w).

Definition bind {A B} (c : Eff A) (k : A -> Eff B) : Eff B :=
  fun w =>
    match c w with
    | (Returned a, w') => k a w'
    | (Thrown e, w') => (Thrown e, w')
    end.

(** [try { c } catch (error) { handler(error) }] *)
Definition try_catch {A} (c : Eff A) (handler : exn -> Eff A) : Eff A :=
  fun w =>
    match c w with
    | (Returned a, w') => (Returned a, w')
    | (Thrown e, w') => handler e w'
    end.

Notation "x <- c1 ;; c2" := (bind c1 (fun x => c2))
  (at level 20, c1 at level 99, c2 at level 200, only parsing).
Notation "c1 ;;; c2" := (bind c1 (fun _ => c2))
  (at level 100, c2 at level 200, right associativity, only parsing).

Definition gets {A} (f : World -> A) : Eff A := fun w => (Returned (f w), w).

Definition set_databaseConfig (c : option DatabaseConfig) (w : World) : World :=
  {| databaseConfig := c; isInitialized := isInitialized w;
     atttypmod := atttypmod w; vector_index := vector_index w;
     vector_embeddings := vector_embeddings w; users := users w;
     server_configs := server_configs w; now := now w; issued := issued w |}.

Definition set_atttypmod (t : option Z) (w : World) : World :=
  {| databaseConfig := databaseConfig w; isInitialized := isInitialized w;
     atttypmod := t; vector_index := vector_index w;
     vector_embeddings := vector_embeddings w; users := users w;
     server_configs := server_configs w; now := now w; issued := issued w |}.

Definition set_vector_index (i : option IndexMethod) (w : World) : World :=
  {| databaseConfig := databaseConfig w; isInitialized := isInitialized w;
     atttypmod := atttypmod w; vector_index := i;
     vector_embeddings := vector_embeddings w; users := users w;
     server_configs := server_configs w; now := now w; issued := issued w |}.

Definition set_vector_embeddings (rows : list VectorEmbedding) (w : World) : World :=
  {| databaseConfig := databaseConfig w; isInitialized := isInitialized w;
     atttypmod := atttypmod w; vector_index := vector_index w;
     vector_embeddings := rows; users := users w;
     server_configs := server_configs w; now := now w; issued := issued w |}.

Definition set_issued (l : list Stmt) (w : World) : World :=
  {| databaseConfig := databaseConfig w; isInitialized := isInitialized w;
     atttypmod := atttypmod w; vector_index := vector_index w;
     vector_embeddings := vector_embeddings w; users := users w;
     server_configs := server_configs w; now := now w; issued := l |}.

(** ** Vector arithmetic *)

Fixpoint dot (a b : list R) : R :=
  match a, b with
  | x :: a', y :: b' => (x * y + dot a' b')%R
  | _, _ => 0%R
  end.

Definition norm (a : list R) : R := sqrt (dot a a).

(** The operator [<=>] of the vector extension, on real vectors.  (For a
    vector of norm 0 the quotient is 0 here, by the convention of the
    reals; the engine's answer in that case is not a number.) *)
Definition cosine_distance (a b : list R) : R :=
  (1 - dot a b / (norm a * norm b))%R.

(** A row of a similarity query: the raw columns and the computed
    [similarity] column. *)
Record SearchResult : Type := {
  result_embedding : VectorEmbedding;
  similarity : R;
}.

(** [ORDER BY similarity DESC], by insertion; rows of equal similarity
    keep their order, which the engine leaves open. *)
Fixpoint insert_desc (x : SearchResult) (l : list SearchResult) : list SearchResult :=
  match l with
  | [] => [x]
  | y :: rest =>
      if Rlt_dec (similarity y) (similarity x) then x :: y :: rest
      else y :: insert_desc x rest
  end.

Definition order_by_similarity_desc (l : list SearchResult) : list SearchResult :=
  foldr insert_desc [] l.

(** Rows with the same (content_type, content_id). *)
Definition same_identity (contentType contentId : string) (row : VectorEmbedding) : bool :=
  String.eqb (content_type row) contentType && String.eqb (content_id row) contentId.

(** The effect of a statement the engine accepted. *)
Definition apply_stmt (env : Env) (s : Stmt) (w : World) : World :=
  match s with
  | DropIndex => set_vector_index None w
  | AlterWidth width => set_atttypmod (Some (typmod_of env width)) w
  | CreateIndex method =>
      match vector_index w with
      | Some _ => w
      | None => set_vector_index (Some method) w
      end
  | Save row =>
      set_vector_embeddings
        (row :: List.filter (fun r => negb (same_identity (content_type row) (content_id row) r))
                  (vector_embeddings w)) w
  | _ => w
  end.

Section Service.

Variable env : Env.

(** [AppDataSource.query(...)] and the query builders: the statement is
    sent, and either refused or carried out. *)
Definition query (s : Stmt) : Eff unit :=
  fun w =>
    let sent := set_issued (issued w ++ [s]) w in
    if rejects env s then (Thrown (Error "query failed"), sent)
    else (Returned tt, apply_stmt env s sent).

(** *** DbConfig

    [loadSettings] and [saveSettings] are outside the modelled code: the
    settings are the field [databaseConfig] of the state. *)

Definition default_databaseConfig : DatabaseConfig :=
  {| db_enabled := false; migrationCompleted := false |}.

Definition getConfig : Eff DatabaseConfig :=
  fun w =>
    match databaseConfig w with
    | Some c => (Returned c, w)
    | None => (Returned default_databaseConfig,
               set_databaseConfig (Some default_databaseConfig) w)
    end.

Inductive EntityType : Type :=
| EUsers | EGroups | EServerConfigs | EMarketServers | EVectorEmbeddings.

(** [DbConfig.isEnabledFor]: the global flag [enabled]. *)
Definition isEnabledFor : Eff bool :=
  c <- getConfig ;; ret (db_enabled c).

(** Only the global flag is consulted, whatever the entity type. *)
Definition shouldUseDatabase (entityType : EntityType) : Eff bool := isEnabledFor.

(** *** VectorEmbeddingRepository *)

Definition findByContentIdentity (contentType contentId : string)
  : Eff (option VectorEmbedding) :=
  query (FindOne contentType contentId) ;;;
  gets (fun w => find (same_identity contentType contentId) (vector_embeddings w)).

(** Modelled from the spec: [BaseRepository.save] is not among the sources;
    it persists the entity, which "inserts or replaces the record for that
    key" (the [Save] statement), and resolves to it. *)
Definition save (entity : VectorEmbedding) : Eff VectorEmbedding :=
  query (Save entity) ;;; ret entity.

Definition saveEmbedding (contentType contentId textContent : string)
    (embedding_ : list R) (metadata_ : jsval) (model_ : string)
  : Eff VectorEmbedding :=
  found <- findByContentIdentity contentType contentId ;;
  let identity :=
    match found with
    | Some existing => (content_type existing, content_id existing)
    | None => (contentType, contentId)
    end in
  save {| content_type := fst identity;
          content_id := snd identity;
          text_content := textContent;
          embedding := embedding_;
          dimensions := length embedding_;
          metadata := metadata_;
          model := model_ |}.

(** [contentTypes && contentTypes.length > 0]: the [IN] condition. *)
Definition content_type_selected (contentTypes : option (list string))
    (row : VectorEmbedding) : bool :=
  match contentTypes with
  | Some ((_ :: _) as types) => JsString.includes types (content_type row)
  | _ => true
  end.

(** The [WHERE] clause of [searchSimilar]. *)
Definition where_clause (threshold : R) (contentTypes : option (list string))
    (row : SearchResult) : bool :=
  (if Rgt_dec (similarity row) threshold then true else false)
  && content_type_selected contentTypes (result_embedding row).

(** A row with its computed [similarity] column. *)
Definition score (query_ : list R) (row : VectorEmbedding) : SearchResult :=
  {| result_embedding := row;
     similarity := (1 - cosine_distance (embedding row) query_)%R |}.

Definition mapRawToEntity (raw : VectorEmbedding) : VectorEmbedding :=
  {| content_type := content_type raw;
     content_id := content_id raw;
     text_content := text_content raw;
     embedding := embedding raw;
     dimensions := dimensions raw;
     metadata := raw_metadata env (metadata raw);
     model := model raw |}.

(** The rows the similarity query returns from a table. *)
Definition similar_rows (query_ : list R) (limit : nat) (threshold : R)
    (contentTypes : option (list string)) (table : list VectorEmbedding)
  : list SearchResult :=
  firstn limit
    (order_by_similarity_desc
       (List.filter (where_clause threshold contentTypes) (map (score query_) table))).

(** [results.map((row) => ({ embedding: this.mapRawToEntity(row), ... }))] *)
Definition search_results (raw : list SearchResult) : list SearchResult :=
  map (fun row => {| result_embedding := mapRawToEntity (result_embedding row);
                     similarity := similarity row |}) raw.

Definition searchSimilar (embedding_ : list R) (limit : nat) (threshold : R)
    (contentTypes : option (list string)) : Eff (list SearchResult) :=
  query (SelectSimilar embedding_ limit threshold contentTypes) ;;;
  results <- gets (fun w =>
    similar_rows embedding_ limit threshold contentTypes (vector_embeddings w)) ;;
  ret (search_results results).

(** The [try] covers the call of [getEmbeddingFunc], which is awaited;
    the promise of [searchSimilar] is returned without [await], so its
    rejection passes the [catch] and reaches the caller. *)
Definition searchByText (text : string)
    (getEmbeddingFunc : string -> Eff (list R)) (limit : nat) (threshold : R)
    (contentTypes : option (list string)) : Eff (list SearchResult) :=
  fun w =>
    match getEmbeddingFunc text w with
    | (Returned embedding_, w') =>
        searchSimilar embedding_ limit threshold contentTypes w'
    | (Thrown error, w') => (Returned [], w')
    end.

End Service.

(** ** The search service *)

(** One entry of the list [searchToolsByVector] returns. *)
Record ToolMatch : Type := {
  serverName : jsval;
  toolName : jsval;
  description : jsval;
  inputSchema : jsval;
  match_similarity : R;
  searchableText : string;
}.

(** [typeof v === 'object'] for a truthy [v]. *)
Definition is_object (v : jsval) : bool :=
  match v with
  | JObj _ | JArr _ => true
  | _ => false
  end.

(** [Object.keys(v)], in the order the fields are listed. *)
Definition object_keys (v : jsval) : list string :=
  match v with
  | JObj fields => map fst fields
  | JArr items => map (fun i : nat => pretty i) (seq 0 (length items))
  | _ => []
  end.

(** The text that is embedded for a tool. *)
Definition searchable_text (tool : ToolInfo) : string :=
  let schema := tool_inputSchema tool in
  let properties :=
    match Js.get "properties" schema with
    | Some v => v
    | None => JUndefined
    end in
  String.concat " "
    (List.filter (fun part => negb (String.eqb part ""))
       ([tool_name tool]
        ++ option_list (tool_description tool)
        ++ (if Js.truthy schema && is_object schema
            then List.filter (fun key => negb (String.eqb key "type")
                                    && negb (String.eqb key "properties"))
                   (object_keys schema)
            else [])
        ++ (if Js.truthy schema && Js.truthy properties && is_object properties
            then object_keys properties
            else []))%list).

(** The metadata document stored with a tool. *)
Definition tool_metadata (serverName_ : string) (tool : ToolInfo) : jsval :=
  JObj [ ("serverName", JStr serverName_);
         ("toolName", JStr (tool_name tool));
         ("description", match tool_description tool with
                         | Some d => JStr d
                         | None => JUndefined
                         end);
         ("inputSchema", tool_inputSchema tool) ].

(** The heuristic reading of a tool out of its embedded text. *)
Definition parse_text_content (textContent : string) : jsval * jsval * jsval :=
  let not_space := fun c => negb (JsString.is_whitespace c) in
  let (toolName_, after_name) := JsString.span not_space textContent in
  let (prefix, after_prefix) :=
    JsString.span (fun c => negb (Ascii.eqb c "_"%char)) toolName_ in
  let serverName_ :=
    match prefix, after_prefix with
    | String _ _, String _ _ => prefix
    | _, _ => "unknown"
    end in
  let description_ :=
    JsString.trim
      (match toolName_ with
       | EmptyString => textContent
       | String _ _ => JsString.trim_start after_name
       end) in
  (JStr serverName_, JStr toolName_, JStr description_).

Section Orchestrator.

Variable env : Env.

(** *** Embedding provider *)

Definition generateEmbedding (text : string) : Eff (list R) :=
  try_catch
    (if negb (apiKey env) then ret (generateFallbackEmbedding text)
     else
       let truncatedText :=
         if (8000 <? N.of_nat (String.length text))%N
         then substring 0 (N.to_nat 8000) text else text in
       match embeddings_create env truncatedText with
       | Some embedding_ => ret embedding_
       | None => throw (Error "embedding request failed")
       end)
    (fun error => ret (generateFallbackEmbedding text)).

(** *** Schema reconciler *)

(** The catalog query: the rows with the [dimensions] column. *)
Definition select_typmod : Eff (list Z) :=
  query env SelectTypmod ;;; gets (fun w => option_list (atttypmod w)).

(** [currentDimensions]: 0 unless the first row has a truthy [dimensions],
    which is then read as the width plus 4 when positive. *)
Definition current_dimensions (result : list Z) : Z :=
  match result with
  | dims :: _ =>
      if (dims =? 0)%Z then 0%Z
      else if (0 <? dims)%Z then (dims - 4)%Z else 0%Z
  | [] => 0%Z
  end.

Definition checkDatabaseVectorDimensions (dimensionsNeeded : Z) : Eff unit :=
  try_catch
    (initialized <- gets isInitialized ;;
     if negb initialized then ret tt
     else
       result <- select_typmod ;;
       let currentDimensions := current_dimensions result in
       if (currentDimensions =? 0)%Z || negb (currentDimensions =? dimensionsNeeded)%Z
       then
         query env DropIndex ;;;
         query env (AlterWidth dimensionsNeeded) ;;;
         query env (CreateIndex ivfflat)
       else ret tt)
    (fun error =>
       throw (Error ("Vector dimension check failed: "
                     ++ match error with Error message => message end))).

(** *** Ingestion *)

(** The body of the loop over the tools, inside its own [try]. *)
Definition ingest_tool (serverName_ : string) (tool : ToolInfo) : Eff unit :=
  let searchableText_ := searchable_text tool in
  embedding_ <- generateEmbedding searchableText_ ;;
  use <- shouldUseDatabase EVectorEmbeddings ;;
  (if use then checkDatabaseVectorDimensions (Z.of_nat (length embedding_))
   else ret tt) ;;;
  saveEmbedding env "tool" (serverName_ ++ ":" ++ tool_name tool)
    searchableText_ embedding_ (tool_metadata serverName_ tool)
    (EMBEDDING_MODEL env) ;;;
  ret tt.

(** [for (const tool of tools) { try { ... } catch (toolError) { } }] *)
Fixpoint ingest_each (serverName_ : string) (tools_ : list ToolInfo) : Eff unit :=
  match tools_ with
  | [] => ret tt
  | tool :: rest =>
      try_catch (ingest_tool serverName_ tool) (fun toolError => ret tt) ;;;
      ingest_each serverName_ rest
  end.

Definition saveToolsAsVectorEmbeddings (serverName_ : string)
    (tools_ : list ToolInfo) : Eff unit :=
  use <- shouldUseDatabase EVectorEmbeddings ;;
  if negb use then ret tt
  else try_catch (ingest_each serverName_ tools_) (fun error => ret tt).

(** *** Search *)

(** The filter applied when server names are given. *)
Definition allowed_server (serverNames : list string) (result : SearchResult) : bool :=
  match metadata (result_embedding result) with
  | JStr text =>
      match JSON_parse env text with
      | Some parsedMetadata =>
          match Js.get "serverName" parsedMetadata with
          | Some name_ => Js.includes serverNames name_
          | None => false
          end
      | None => false
      end
  | _ => false
  end.

(** The structured reading of a result, when its metadata is a string
    that parses to a document naming the server and the tool. *)
Definition structured_match (result : SearchResult) : option ToolMatch :=
  match metadata (result_embedding result) with
  | JStr text =>
      if Js.truthy (JStr text) then
        match JSON_parse env text with
        | Some parsedMetadata =>
            match Js.get "serverName" parsedMetadata,
                  Js.get "toolName" parsedMetadata,
                  Js.get "description" parsedMetadata,
                  Js.get "inputSchema" parsedMetadata with
            | Some serverName_, Some toolName_, Some description_, Some inputSchema_ =>
                if Js.truthy serverName_ && Js.truthy toolName_ then
                  Some {| serverName := serverName_;
                          toolName := toolName_;
                          description := Js.or description_ (JStr "");
                          inputSchema := Js.or inputSchema_ (JObj []);
                          match_similarity := similarity result;
                          searchableText := text_content (result_embedding result) |}
                else None
            | _, _, _, _ => None
            end
        | None => None
        end
      else None
  | _ => None
  end.

Definition to_tool_match (result : SearchResult) : ToolMatch :=
  match structured_match result with
  | Some found => found
  | None =>
      let textContent := text_content (result_embedding result) in
      let '(serverName_, toolName_, description_) := parse_text_content textContent in
      {| serverName := serverName_;
         toolName := toolName_;
         description := description_;
         inputSchema := JObj [];
         match_similarity := similarity result;
         searchableText := textContent |}
  end.

(** [serverNames && serverNames.length > 0 ? results.filter(...) : results] *)
Definition filter_by_servers (serverNames : option (list string))
    (results : list SearchResult) : list SearchResult :=
  match serverNames with
  | Some ((_ :: _) as names) => List.filter (allowed_server names) results
  | _ => results
  end.

Definition searchToolsByVector (query_ : string) (limit : nat) (threshold : R)
    (serverNames : option (list string)) : Eff (list ToolMatch) :=
  use <- shouldUseDatabase EVectorEmbeddings ;;
  if negb use then ret []
  else
    try_catch
      (results <- searchByText env query_ generateEmbedding limit threshold
                    (Some ["tool"]) ;;
       let filteredResults := filter_by_servers serverNames results in
       ret (map to_tool_match filteredResults))
      (fun error => ret []).

End Orchestrator.

(** ** Vector set-up at start-up ([initializeDatabase], step 3) *)

Section Startup.

Variable env : Env.




End Startup.

(** ** The first revision of the ingestion loop

    [services/vectorSearchService.ts] as first committed: the offline
    vectorizer is the only provider and the loop has no [try] of its own. *)

Module FirstRevision.
Section FirstRevision.

Variable env : Env.

Definition ingest_tool (serverName_ : string) (tool : ToolInfo) : Eff unit :=
  let searchableText_ := searchable_text tool in
  let embedding_ := generateFallbackEmbedding searchableText_ in
  saveEmbedding env "tool" (serverName_ ++ ":" ++ tool_name tool)
    searchableText_ embedding_ (tool_metadata serverName_ tool) "simple-hash" ;;;
  ret tt.

Fixpoint ingest_each (serverName_ : string) (tools_ : list ToolInfo) : Eff unit :=
  match tools_ with
  | [] => ret tt
  | tool :: rest => ingest_tool serverName_ tool ;;; ingest_each serverName_ rest
  end.

Definition saveToolsAsVectorEmbeddings (serverName_ : string)
    (tools_ : list ToolInfo) : Eff unit :=
  use <- shouldUseDatabase EVectorEmbeddings ;;
  if negb use then ret tt
  else try_catch (ingest_each serverName_ tools_) (fun error => ret tt).

End FirstRevision.
End FirstRevision.

(** ** Dual-backend adapters *)

Section Adapters.

Variable env : Env.

(** The file-backed implementations ([models/User.js],
    [services/mcpService.js]) are outside the modelled code. *)
Variable findUserByUsernameFile : string -> Eff (option IUser).
Variable getServersInfoFile : Eff (list ServerInfo).

(** [UserRepository.findByUsername] *)
Definition findByUsername (username_ : string) : Eff (option Entities.User) :=
  query env (FindUser username_) ;;;
  gets (fun w => find (fun u => String.eqb (Entities.username u) username_) (users w)).

(** [ServerConfigRepository.findAll] *)
Definition findAll : Eff (list Entities.ServerConfig) :=
  query env FindServerConfigs ;;; gets server_configs.

Definition to_IUser (user : Entities.User) : IUser :=
  {| username := Entities.username user;
     password := Entities.password user;
     isAdmin := Entities.isAdmin user |}.

Definition findUserByUsername (username_ : string) : Eff (option IUser) :=
  use <- shouldUseDatabase EUsers ;;
  if use then
    try_catch
      (user <- findByUsername username_ ;;
       match user with
       | Some found => ret (Some (to_IUser found))
       | None => ret None
       end)
      (fun error => findUserByUsernameFile username_)
  else findUserByUsernameFile username_.

Definition to_ServerInfo (time : Z) (config : Entities.ServerConfig) : ServerInfo :=
  {| name := Entities.name config;
     status := "disconnected";
     error := None;
     tools := [];
     createTime := match Entities.createdAt config with
                   | Some created => created
                   | None => time
                   end;
     enabled := Entities.enabled config |}.

Definition getServersInfo : Eff (list ServerInfo) :=
  use <- shouldUseDatabase EServerConfigs ;;
  if use then
    try_catch
      (dbServerConfigs <- findAll ;;
       time <- gets now ;;
       ret (map (to_ServerInfo time) dbServerConfigs))
      (fun error => getServersInfoFile)
  else getServersInfoFile.

End Adapters.

(** ** JavaScript numbers read from text *)

Module JsNumber.

Inductive number : Type :=
| NaN
| Infinity (negative : bool)
| Finite (q : Q).

Definition is_digit (c : ascii) : bool :=
  let n := N_of_ascii c in ((48 <=? n) && (n <=? 57))%N.

Definition is_hex_digit (c : ascii) : bool :=
  let n := N_of_ascii c in
  (is_digit c || (65 <=? n) && (n <=? 70) || (97 <=? n) && (n <=? 102))%N.

Definition digit_value (c : ascii) : Z :=
  let n := Z.of_N (N_of_ascii c) in
  if is_digit c then n - 48
  else if (97 <=? n)%Z then n - 87 else n - 55.

Fixpoint digits_value (radix acc : Z) (digits : string) : Z :=
  match digits with
  | EmptyString => acc
  | String c rest => digits_value radix (acc * radix + digit_value c) rest
  end.

Definition strip_sign (s : string) : bool * string :=
  match s with
  | String "-" rest => (true, rest)
  | String "+" rest => (false, rest)
  | _ => (false, s)
  end.

Definition signed (negative : bool) (z : Z) : Z := if negative then (- z)%Z else z.

(** [parseInt(s)] without a radix; [None] is NaN. *)
Definition parseInt (s : string) : option Z :=
  let (negative, body) := strip_sign (JsString.trim_start s) in
  let (hex, digits_src) :=
    match body with
    | String "0" (String "x" rest) | String "0" (String "X" rest) => (true, rest)
    | _ => (false, body)
    end in
  let digits := fst (JsString.span (if hex then is_hex_digit else is_digit) digits_src) in
  match digits with
  | EmptyString => None
  | String _ _ => Some (signed negative (digits_value (if hex then 16 else 10) 0 digits))
  end.

(** The exponent part [e], [e+] or [e-] followed by digits, if present. *)
Definition exponent (s : string) : Z :=
  match s with
  | String c rest =>
      if Ascii.eqb c "e" || Ascii.eqb c "E" then
        let (negative, body) := strip_sign rest in
        let digits := fst (JsString.span is_digit body) in
        signed negative (digits_value 10 0 digits)
      else 0%Z
  | EmptyString => 0%Z
  end.

(** The range of a double.  A magnitude of at most 2^-1075 rounds to zero
    and one of at least 2^1024 - 2^970 to infinity; in between the value is
    kept as it is (rounding to 53 bits is not modelled). *)
Definition to_double_range (negative : bool) (magnitude : Q) : number :=
  if Qle_bool magnitude (Qpower 2 (-1075)) then Finite 0
  else if Qle_bool (inject_Z (2 ^ 1024 - 2 ^ 970)) magnitude then Infinity negative
  else Finite (Qred (if negative then - magnitude else magnitude)).

(** [parseFloat(s)]: the longest prefix that is a decimal literal. *)
Definition parseFloat (s : string) : number :=
  let (negative, body) := strip_sign (JsString.trim_start s) in
  if String.prefix "Infinity" body then Infinity negative
  else
    let (int_digits, after_int) := JsString.span is_digit body in
    let (frac_digits, after_frac) :=
      match after_int with
      | String "." rest => JsString.span is_digit rest
      | _ => (EmptyString, after_int)
      end in
    match (int_digits ++ frac_digits)%string with
    | EmptyString => NaN
    | String _ _ =>
        let mantissa :=
          (inject_Z (digits_value 10 0 (int_digits ++ frac_digits))
           * Qpower 10 (- Z.of_nat (String.length frac_digits)))%Q in
        let magnitude := (mantissa * Qpower 10 (exponent after_frac))%Q in
        to_double_range negative magnitude
    end.

(** [x || d] for a numeric default [d]: NaN and zero are falsy. *)
Definition or_default (x : number) (d : Q) : number :=
  match x with
  | NaN => Finite d
  | Infinity _ => x
  | Finite q => if Qeq_bool q 0 then Finite d else x
  end.

(** [Math.max(x, bound)] and [Math.min(x, bound)] for a finite bound. *)
Definition max_with (x : number) (bound : Q) : number :=
  match x with
  | NaN => NaN
  | Infinity false => Infinity false
  | Infinity true => Finite bound
  | Finite q => Finite (Qmax q bound)
  end.

Definition min_with (x : number) (bound : Q) : number :=
  match x with
  | NaN => NaN
  | Infinity false => Finite bound
  | Infinity true => Infinity true
  | Finite q => Finite (Qmin q bound)
  end.

(** The real a finite number stands for (0 for the others, which the
    callers below never pass). *)
Definition to_R (x : number) : R :=
  match x with
  | Finite q => Q2R q
  | _ => 0%R
  end.

End JsNumber.

(** ** The search controller *)

(** A value of [req.query]. *)
Inductive qsval : Type :=
| QAbsent
| QString (s : string)
| QArray (items : list string)
| QObject.

Record SearchRequest : Type := {
  q_query : qsval;
  q_limit : qsval;
  q_threshold : qsval;
  q_servers : qsval;
}.

Inductive Response : Type :=
| Failure (status_code : nat) (message : string)
| Success (query_ : string) (results : list ToolMatch) (total : nat)
    (limit : Z) (threshold : JsNumber.number) (servers : option (list string)).

(** The text [parseInt] and [parseFloat] see for a parameter; [default]
    is the destructuring default, already a number. *)
Definition param_text (default : string) (v : qsval) : string :=
  match v with
  | QAbsent => default
  | QString s => s
  | QArray items => String.concat "," items
  | QObject => "[object Object]"
  end.

(** [s.split(',')] *)
Fixpoint split_on_from (sep : ascii) (cur : string) (s : string) : list string :=
  match s with
  | EmptyString => [cur]
  | String c rest =>
      if Ascii.eqb c sep then cur :: split_on_from sep EmptyString rest
      else split_on_from sep (cur ++ String c EmptyString) rest
  end.

Definition limitNum (limit : qsval) : Z :=
  let parsed :=
    match JsNumber.parseInt (param_text "10" limit) with
    | Some n => if (n =? 0)%Z then 10%Z else n
    | None => 10%Z
    end in
  Z.min (Z.max parsed 1) 100.

Definition thresholdNum (threshold : qsval) : JsNumber.number :=
  JsNumber.min_with
    (JsNumber.max_with
       (JsNumber.or_default (JsNumber.parseFloat (param_text "0.7" threshold)) (7 # 10))
       0)
    1.

Definition serverNames_of (servers : qsval) : option (list string) :=
  let non_empty := fun s => negb (String.eqb s "") in
  match servers with
  | QString s =>
      if String.eqb s "" then None
      else Some (List.filter non_empty (map JsString.trim (split_on_from "," EmptyString s)))
  | QArray items => Some (List.filter non_empty (map JsString.trim items))
  | QAbsent | QObject => None
  end.

Section Controller.

Variable env : Env.

Definition searchTools (req : SearchRequest) : Eff Response :=
  try_catch
    (match q_query req with
     | QString query_ =>
         if String.eqb query_ "" then
           ret (Failure 400 "Query parameter is required and must be a string")
         else
           let limit := limitNum (q_limit req) in
           let threshold := thresholdNum (q_threshold req) in
           let serverNames := serverNames_of (q_servers req) in
           results <- searchToolsByVector env query_ (Z.to_nat limit)
                        (JsNumber.to_R threshold) serverNames ;;
           ret (Success query_ results (length results) limit threshold serverNames)
     | _ => ret (Failure 400 "Query parameter is required and must be a string")
     end)
    (fun error => ret (Failure 500 "Internal server error")).

End Controller.

(** ** Vocabulary of the properties *)

(** Descending order of similarity. *)
Definition by_similarity_desc (a b : SearchResult) : Prop :=
  (similarity a >= similarity b)%R.

(** Every stored row records the length of its own vector. *)
Definition dimensions_consistent (rows : list VectorEmbedding) : Prop :=
  Forall (fun row => dimensions row = length (embedding row)) rows.

(** Database routing is switched on in the settings. *)
Definition database_enabled (w : World) : Prop :=
  exists c, databaseConfig w = Some c /\ db_enabled c = true.

(** The state after a statement was sent. *)
Definition after_sending (s : Stmt) (w : World) : World :=
  set_issued (issued w ++ [s]) w.

(** The table holds a row with this identity. *)
Definition has_row (contentType contentId : string) (w : World) : Prop :=
  exists row, In row (vector_embeddings w)
    /\ same_identity contentType contentId row = true.

(** The table holds a row for the tool [tool] of the server. *)
Definition tool_stored (serverName_ : string) (tool : ToolInfo) (w : World) : Prop :=
  has_row "tool" (serverName_ ++ ":" ++ tool_name tool) w.

(** A computation under which a stored identity stays stored. *)
Definition keeps_rows {A} (c : Eff A) : Prop :=
  forall contentType contentId w,
    has_row contentType contentId w -> has_row contentType contentId (snd (c w)).

(** The vector [generateEmbedding] resolves to. *)
Definition provided_embedding (env : Env) (text : string) : list R :=
  if apiKey env then
    match embeddings_create env
            (if (8000 <? N.of_nat (String.length text))%N
             then substring 0 (N.to_nat 8000) text else text) with
    | Some embedding_ => embedding_
    | None => generateFallbackEmbedding text
    end
  else generateFallbackEmbedding text.

(** What [ingest_tool] does when only the offline vectorizer is available
    and database routing is on. *)
Definition ingest_tool_offline_steps (env : Env) (serverName_ : string)
    (tool : ToolInfo) : Eff unit :=
  checkDatabaseVectorDimensions env 100 ;;;
  saveEmbedding env "tool" (serverName_ ++ ":" ++ tool_name tool)
    (searchable_text tool) (generateFallbackEmbedding (searchable_text tool))
    (tool_metadata serverName_ tool) (EMBEDDING_MODEL env) ;;;
  ret tt.

(** The metadata of a result is a string that parses to a document whose
    [serverName] is one of [names]. *)
Definition names_allowed_server (env : Env) (names : list string)
    (result : SearchResult) : Prop :=
  exists text document name_,
    metadata (result_embedding result) = JStr text
    /\ JSON_parse env text = Some document
    /\ Js.get "serverName" document = Some (JStr name_)
    /\ In name_ names.



(** The tools of a batch whose own ingestion returns when the loop
    reaches them, each run in the state the previous ones left. *)
Fixpoint ingested (env : Env) (serverName_ : string) (tools_ : list ToolInfo)
    (w : World) : list ToolInfo :=
  match tools_ with
  | [] => []
  | tool :: rest =>
      match ingest_tool env serverName_ tool w with
      | (Returned _, w') => tool :: ingested env serverName_ rest w'
      | (Thrown _, w') => ingested env serverName_ rest w'
      end
  end.

(** The statements a computation sent: those [issued] after the ones that
    were there before. *)
Definition sent_by {A} (c : Eff A) (w : World) : list Stmt :=
  drop (length (issued w)) (issued (snd (c w))).

(** ** Sample environments and states *)

Module Sample.

Definition quoted (s : string) : string :=
  let quote := String (ascii_of_nat 34) EmptyString in quote ++ s ++ quote.

(** *** How the engine writes a document

    [JSON.stringify], for the text a [metadata] document has in a raw row.
    Fields are written in the order they are listed.  A number that is
    not whole, or of 22 digits or more, has no text here ([None]): the
    samples hold none. *)

Definition hex_digit (n : N) : ascii :=
  ascii_of_N (if (n <? 10)%N then 48 + n else 87 + n).

(** The escape of one code unit inside a JSON string. *)
Definition escape_char (c : ascii) : string :=
  let n := N_of_ascii c in
  let backslash := String (ascii_of_nat 92) EmptyString in
  if (n =? 34)%N || (n =? 92)%N then backslash ++ String c EmptyString
  else if (n =? 8)%N then backslash ++ "b"
  else if (n =? 9)%N then backslash ++ "t"
  else if (n =? 10)%N then backslash ++ "n"
  else if (n =? 12)%N then backslash ++ "f"
  else if (n =? 13)%N then backslash ++ "r"
  else if (n <? 32)%N
       then backslash ++ "u00"
            ++ String (hex_digit (n / 16)) (String (hex_digit (n mod 16)) EmptyString)
       else String c EmptyString.

Fixpoint escape (s : string) : string :=
  match s with
  | EmptyString => EmptyString
  | String c rest => escape_char c ++ escape rest
  end.

Fixpoint all_written {A} (l : list (option A)) : option (list A) :=
  match l with
  | [] => Some []
  | None :: _ => None
  | Some x :: rest =>
      match all_written rest with
      | Some xs => Some (x :: xs)
      | None => None
      end
  end.

Fixpoint stringify (v : jsval) : option string :=
  match v with
  | JUndefined | JNull => Some "null"
  | JBool b => Some (if b then "true" else "false")
  | JNum n =>
      let r := Qred n in
      if (Qden r =? 1)%positive && (Z.abs (Qnum r) <? 10 ^ 21)%Z
      then Some (pretty (Qnum r)) else None
  | JStr s => Some (quoted (escape s))
  | JArr items =>
      match all_written (map stringify items) with
      | Some parts => Some ("[" ++ String.concat "," parts ++ "]")
      | None => None
      end
  | JObj fields =>
      match all_written
              (flat_map
                 (fun field : string * jsval =>
                    match snd field with
                    | JUndefined => []
                    | _ => [match stringify (snd field) with
                            | Some text =>
                                Some (quoted (escape (fst field)) ++ ":" ++ text)
                            | None => None
                            end]
                    end) fields) with
      | Some parts => Some ("{" ++ String.concat "," parts ++ "}")
      | None => None
      end
  end.

(** The [metadata] column of a raw row: [null] where nothing was stored,
    the JSON text of the stored document otherwise. *)
Definition metadata_text (v : jsval) : jsval :=
  match v with
  | JUndefined | JNull => JNull
  | _ => match stringify v with
         | Some text => JStr text
         | None => JNull
         end
  end.

(** *** Engines *)

Definition weather_json : string :=
  "{" ++ quoted "serverName" ++ ":" ++ quoted "weather" ++ ","
  ++ quoted "toolName" ++ ":" ++ quoted "getForecast" ++ "}".

Definition weather_document : jsval :=
  JObj [("serverName", JStr "weather"); ("toolName", JStr "getForecast")].

(** An engine that accepts every statement.  Its catalog reports the
    width [n] of a column [vector(n)] as the type modifier [n] itself, and
    its raw rows carry the metadata as JSON text.  No embedding service; a
    JSON parser that knows one document. *)
Definition env : Env :=
  {| typmod_of := fun n => n;
     rejects := fun _ => false;
     raw_metadata := metadata_text;
     JSON_parse := fun s => if String.eqb s weather_json then Some weather_document
                            else None;
     EMBEDDING_MODEL := "fallback";
     apiKey := false;
     embeddings_create := fun _ => None |}.

(** The same engine without the IVFFlat access method. *)
Definition env_without_ivfflat : Env :=
  {| typmod_of := typmod_of env;
     rejects := fun s => match s with CreateIndex ivfflat => true | _ => false end;
     raw_metadata := raw_metadata env;
     JSON_parse := JSON_parse env;
     EMBEDDING_MODEL := EMBEDDING_MODEL env;
     apiKey := apiKey env;
     embeddings_create := embeddings_create env |}.

(** An engine as the comment in [checkDatabaseVectorDimensions] describes
    it: the catalog reports the width [n] as [n + 4]. *)
Definition env_offset_typmod : Env :=
  {| typmod_of := fun n => (n + 4)%Z;
     rejects := rejects env;
     raw_metadata := raw_metadata env;
     JSON_parse := JSON_parse env;
     EMBEDDING_MODEL := EMBEDDING_MODEL env;
     apiKey := apiKey env;
     embeddings_create := embeddings_create env |}.

(** The engine [env] once more, named for its catalog: the width of
    [vector(n)] is reported as [n] itself. *)
Definition env_plain_typmod : Env :=
  {| typmod_of := fun n => n;
     rejects := rejects env;
     raw_metadata := raw_metadata env;
     JSON_parse := JSON_parse env;
     EMBEDDING_MODEL := EMBEDDING_MODEL env;
     apiKey := apiKey env;
     embeddings_create := embeddings_create env |}.

(** An engine that refuses every statement. *)
Definition env_down : Env :=
  {| typmod_of := typmod_of env;
     rejects := fun _ => true;
     raw_metadata := raw_metadata env;
     JSON_parse := JSON_parse env;
     EMBEDDING_MODEL := EMBEDDING_MODEL env;
     apiKey := apiKey env;
     embeddings_create := embeddings_create env |}.

(** The same engine refusing to save the row of one tool. *)
Definition env_refusing (contentId : string) : Env :=
  {| typmod_of := typmod_of env;
     rejects := fun s => match s with
                         | Save row => String.eqb (content_id row) contentId
                         | _ => false
                         end;
     raw_metadata := raw_metadata env;
     JSON_parse := JSON_parse env;
     EMBEDDING_MODEL := EMBEDDING_MODEL env;
     apiKey := apiKey env;
     embeddings_create := embeddings_create env |}.

Definition tool (name_ description_ : string) : ToolInfo :=
  {| tool_name := name_; tool_description := Some description_;
     tool_inputSchema := JObj [("type", JStr "object")] |}.

(** A batch of three tools, the second of which the engine refuses to save. *)
Definition batch_env : Env := env_refusing "weather:getAlerts".
Definition forecast : ToolInfo := tool "getForecast" "Get weather forecast".
Definition alerts : ToolInfo := tool "getAlerts" "Get weather alerts".
Definition radar : ToolInfo := tool "getRadar" "Get radar image".

(** A connected, empty database with database routing enabled. *)
Definition world : World :=
  {| databaseConfig := Some {| db_enabled := true; migrationCompleted := true |};
     isInitialized := true;
     atttypmod := None;
     vector_index := None;
     vector_embeddings := [];
     users := [];
     server_configs := [];
     now := 0%Z;
     issued := [] |}.

Definition row (contentId : string) (embedding_ : list R) (metadata_ : jsval)
  : VectorEmbedding :=
  {| content_type := "tool"; content_id := contentId;
     text_content := "weather_getForecast Get weather forecast";
     embedding := embedding_; dimensions := length embedding_;
     metadata := metadata_; model := "fallback" |}.

Definition world_with (rows : list VectorEmbedding) : World :=
  set_vector_embeddings rows world.

End Sample.

(** * The rest of the search service and of its controller *)

(** ** Model dimensions *)

(** [haystack.includes(needle)] on strings. *)
Fixpoint string_includes (needle haystack : string) : bool :=
  String.prefix needle haystack
  || match haystack with
     | EmptyString => false
     | String _ rest => string_includes needle rest
     end.

Definition getDimensionsForModel (model_ : string) : nat :=
  if string_includes "bge-m3" model_ then BGE_DIMENSIONS
  else if string_includes "text-embedding-3" model_ then EMBEDDING_DIMENSIONS
  else if String.eqb model_ "fallback" || String.eqb model_ "simple-hash"
       then FALLBACK_DIMENSIONS
       else EMBEDDING_DIMENSIONS.

Definition DEFAULT_DIMENSIONS (env : Env) : nat :=
  getDimensionsForModel (EMBEDDING_MODEL env).

(** ** Listing the vectorized tools *)

Module Listed.
(** One entry of the list [getAllVectorizedTools] returns. *)
Record tool : Type := {
  serverName : jsval;
  toolName : jsval;
  description : jsval;
  inputSchema : jsval;
}.
End Listed.

Definition unknown_tool : Listed.tool :=
  {| Listed.serverName := JStr "unknown";
     Listed.toolName := JStr "unknown";
     Listed.description := JStr "";
     Listed.inputSchema := JObj [] |}.

Section Listing.

Variable env : Env.

(** The callback of [filteredResults.map] in [getAllVectorizedTools]: the
    parsed fields as they are, or the unknown tool when the metadata is
    not a string, does not parse, or parses to [null]. *)
Definition to_listed_tool (result : SearchResult) : Listed.tool :=
  match metadata (result_embedding result) with
  | JStr text =>
      match JSON_parse env text with
      | Some parsedMetadata =>
          match Js.get "serverName" parsedMetadata,
                Js.get "toolName" parsedMetadata,
                Js.get "description" parsedMetadata,
                Js.get "inputSchema" parsedMetadata with
          | Some serverName_, Some toolName_, Some description_, Some inputSchema_ =>
              {| Listed.serverName := serverName_;
                 Listed.toolName := toolName_;
                 Listed.description := description_;
                 Listed.inputSchema := inputSchema_ |}
          | _, _, _, _ => unknown_tool
          end
      | None => unknown_tool
      end
  | _ => unknown_tool
  end.

(** [dimensionsToUse]: the width read from the catalog when the query
    succeeds and gives a positive one, the default of the model otherwise. *)
Definition dimensionsToUse : Eff nat :=
  try_catch
    (result <- select_typmod env ;;
     let dbDimensions := current_dimensions result in
     ret (if (0 <? dbDimensions)%Z then Z.to_nat dbDimensions
          else DEFAULT_DIMENSIONS env))
    (fun error => ret (DEFAULT_DIMENSIONS env)).

Definition getAllVectorizedTools (serverNames : option (list string))
  : Eff (list Listed.tool) :=
  use <- shouldUseDatabase EVectorEmbeddings ;;
  if negb use then ret []
  else
    try_catch
      (dimensions_ <- dimensionsToUse ;;
       results <- searchSimilar env (replicate dimensions_ 0%R) 1000 (-1)%R
                    (Some ["tool"]) ;;
       let filteredResults := filter_by_servers env serverNames results in
       ret (map to_listed_tool filteredResults))
      (fun error => ret []).

End Listing.

(** [removeServerToolEmbeddings]: the repository has no delete method yet;
    the body of the [try] only logs. *)
Definition removeServerToolEmbeddings (serverName_ : string) : Eff unit :=
  use <- shouldUseDatabase EVectorEmbeddings ;;
  if negb use then ret tt
  else try_catch (ret tt) (fun error => ret tt).

(** ** Rebuilding the embeddings of every server *)

(** [status === 'connected' && enabled !== false && tools && tools.length > 0] *)
Definition is_active_with_tools (server : ServerInfo) : bool :=
  String.eqb (status server) "connected"
  && enabled server
  && negb (length (tools server) =? 0)%nat.

Section Rebuild.

Variable env : Env.

(** The file-backed server list ([services/mcpService.js]), outside the
    modelled code. *)
Variable getServersInfoFile : Eff (list ServerInfo).

(** [for (const server of activeServers) await saveToolsAsVectorEmbeddings(...)] *)
Fixpoint save_each_server (servers : list ServerInfo) : Eff unit :=
  match servers with
  | [] => ret tt
  | server :: rest =>
      saveToolsAsVectorEmbeddings env (name server) (tools server) ;;;
      save_each_server rest
  end.

Definition saveAllServerToolsAsVectorEmbeddings : Eff unit :=
  use <- shouldUseDatabase EVectorEmbeddings ;;
  if negb use then ret tt
  else
    try_catch
      (servers <- getServersInfo env getServersInfoFile ;;
       let activeServers := List.filter is_active_with_tools servers in
       save_each_server activeServers)
      (fun error => ret tt).

(** *** The controller *)

Inductive ApiResponse : Type :=
| Refused (status_code : nat) (message : string)
| ToolsListed (tools_ : list Listed.tool) (total : nat) (servers : option (list string))
| Rebuilt (message : string)
| ServerRebuilt (message : string) (serverName_ : string) (toolsCount : nat).

Definition getAllTools (servers : qsval) : Eff ApiResponse :=
  try_catch
    (let serverNames := serverNames_of servers in
     results <- getAllVectorizedTools env serverNames ;;
     ret (ToolsListed results (length results) serverNames))
    (fun error => ret (Refused 500 "Internal server error")).

Definition rebuildEmbeddings : Eff ApiResponse :=
  try_catch
    (saveAllServerToolsAsVectorEmbeddings ;;;
     ret (Rebuilt "Vector embeddings rebuilt successfully"))
    (fun error => ret (Refused 500 "Failed to rebuild vector embeddings")).

(** [serverName_] is [req.params.serverName]; [None] when it is missing. *)
Definition rebuildServerEmbeddings (serverName_ : option string) : Eff ApiResponse :=
  try_catch
    (match serverName_ with
     | None => ret (Refused 400 "Server name is required")
     | Some requested =>
         if String.eqb requested "" then ret (Refused 400 "Server name is required")
         else
           servers <- getServersInfo env getServersInfoFile ;;
           match find (fun s => String.eqb (name s) requested) servers with
           | None => ret (Refused 404 ("Server '" ++ requested ++ "' not found"))
           | Some server =>
               if negb (String.eqb (status server) "connected") || negb (enabled server)
               then ret (Refused 400 ("Server '" ++ requested
                                      ++ "' is not active or enabled"))
               else if (length (tools server) =? 0)%nat
               then ret (Refused 400 ("Server '" ++ requested
                                      ++ "' has no tools to vectorize"))
               else
                 saveToolsAsVectorEmbeddings env requested (tools server) ;;;
                 ret (ServerRebuilt ("Vector embeddings rebuilt for server '"
                                     ++ requested ++ "'")
                        requested (length (tools server)))
           end
     end)
    (fun error => ret (Refused 500 "Failed to rebuild server vector embeddings")).

End Rebuild.

(** ** Initialising the database module ([db/index.ts]) *)

(** The answer of [migrateToDatabase]: [success] with the four counts, or
    not, with the error. *)
Inductive MigrationResult : Type :=
| MigrationFailed (error_ : string)
| Migrated (users_ groups_ serverConfigs_ marketServers_ : nat).

Section DbModule.

(** [initializeDatabase] of [db/connection.ts] and [migrateToDatabase] of
    [db/migration/migrate.ts], as the module imports them. *)
Variable initializeDatabase : Eff unit.
Variable migrateToDatabase : Eff MigrationResult.

Definition initializeDbModule : Eff bool :=
  dbConfig <- getConfig ;;
  if negb (db_enabled dbConfig) then ret false
  else
    try_catch
      (initializeDatabase ;;;
       if db_enabled dbConfig && negb (migrationCompleted dbConfig) then
         migrationResult <- migrateToDatabase ;;
         match migrationResult with
         | Migrated _ _ _ _ => ret true
         | MigrationFailed _ => ret false
         end
       else ret true)
      (fun error => ret false).

End DbModule.

(** ** The first revision of the search

    [searchToolsByVector] of [services/vectorSearchService.ts] as first
    committed: the metadata is read as a document, without a [try] around
    each result. *)

(** [array.filter(callback)] and [array.map(callback)] for a callback that
    may throw ([None]): the first throw ends the traversal. *)
Fixpoint filter_throwing {A} (callback : A -> option bool) (l : list A)
  : option (list A) :=
  match l with
  | [] => Some []
  | x :: rest =>
      match callback x with
      | None => None
      | Some keep =>
          match filter_throwing callback rest with
          | None => None
          | Some kept => Some (if keep then x :: kept else kept)
          end
      end
  end.

Fixpoint map_throwing {A B} (callback : A -> option B) (l : list A)
  : option (list B) :=
  match l with
  | [] => Some []
  | x :: rest =>
      match callback x with
      | None => None
      | Some y =>
          match map_throwing callback rest with
          | None => None
          | Some ys => Some (y :: ys)
          end
      end
  end.

(** A pure step that may throw a TypeError. *)
Definition or_type_error {A} (o : option A) : Eff A :=
  match o with
  | Some a => ret a
  | None => throw (Error "TypeError")
  end.

Module FirstRevisionSearch.
Section FirstRevisionSearch.

Variable env : Env.

(** [result.embedding.metadata.serverName] in the names. *)
Definition names_server (serverNames : list string) (result : SearchResult)
  : option bool :=
  match Js.get "serverName" (metadata (result_embedding result)) with
  | Some name_ => Some (Js.includes serverNames name_)
  | None => None
  end.

Definition to_tool_match (result : SearchResult) : option ToolMatch :=
  let document := metadata (result_embedding result) in
  match Js.get "serverName" document, Js.get "toolName" document,
        Js.get "description" document, Js.get "inputSchema" document with
  | Some serverName_, Some toolName_, Some description_, Some inputSchema_ =>
      Some {| serverName := serverName_;
              toolName := toolName_;
              description := description_;
              inputSchema := inputSchema_;
              match_similarity := similarity result;
              searchableText := text_content (result_embedding result) |}
  | _, _, _, _ => None
  end.

(** The provider of the first revision is the offline vectorizer. *)
Definition generateEmbedding (text : string) : Eff (list R) :=
  ret (generateFallbackEmbedding text).

Definition searchToolsByVector (query_ : string) (limit : nat) (threshold : R)
    (serverNames : option (list string)) : Eff (list ToolMatch) :=
  use <- shouldUseDatabase EVectorEmbeddings ;;
  if negb use then ret []
  else
    try_catch
      (results <- searchByText env query_ generateEmbedding limit threshold
                    (Some ["tool"]) ;;
       filteredResults <-
         match serverNames with
         | Some ((_ :: _) as names) =>
             or_type_error (filter_throwing (names_server names) results)
         | _ => ret results
         end ;;
       or_type_error (map_throwing to_tool_match filteredResults))
      (fun error => ret []).

End FirstRevisionSearch.
End FirstRevisionSearch.

(** ** Vocabulary of the further properties *)

(** Every code unit of the string satisfies [p]. *)
Fixpoint all_chars (p : ascii -> bool) (s : string) : bool :=
  match s with
  | EmptyString => true
  | String c rest => p c && all_chars p rest
  end.

Definition no_whitespace (s : string) : bool :=
  all_chars (fun c => negb (JsString.is_whitespace c)) s.

Definition no_underscore (s : string) : bool :=
  all_chars (fun c => negb (Ascii.eqb c "_"%char)) s.

(** The string is its own trimming: no whitespace at either end. *)
Definition trimmed (s : string) : Prop := JsString.trim s = s.

(** Descending order of similarity, on matches. *)
Definition by_match_similarity_desc (a b : ToolMatch) : Prop :=
  (match_similarity a >= match_similarity b)%R.

(** The state in which the routing flag was read: the settings with the
    default database section written when there was none. *)
Definition settings_read (w : World) : World :=
  match databaseConfig w with
  | Some _ => w
  | None => set_databaseConfig (Some default_databaseConfig) w
  end.

(** Database routing is off: the flag is false or the section is missing. *)
Definition database_disabled (w : World) : Prop :=
  match databaseConfig w with
  | Some c => db_enabled c = false
  | None => True
  end.

(** ** Further sample data *)

Module Scenario.

(** The server [weather] as the file-backed listing reports it: connected,
    with the three sample tools. *)
Definition connected_weather : ServerInfo :=
  {| name := "weather"; status := "connected"; error := None;
     tools := [Sample.forecast; Sample.alerts; Sample.radar];
     createTime := 0%Z; enabled := true |}.

(** Its stored configuration. *)
Definition stored_weather : Entities.ServerConfig :=
  {| Entities.name := "weather"; Entities.enabled := true;
     Entities.createdAt := None |}.

(** The sample database with that configuration stored. *)
Definition world_with_configs : World :=
  {| databaseConfig := Some {| db_enabled := true; migrationCompleted := true |};
     isInitialized := true;
     atttypmod := None;
     vector_index := None;
     vector_embeddings := [];
     users := [];
     server_configs := [stored_weather];
     now := 0%Z;
     issued := [] |}.

(** A tool row stored without metadata, embedded from [text]. *)
Definition bare_row (text : string) : VectorEmbedding :=
  {| content_type := "tool"; content_id := "legacy:" ++ text;
     text_content := text;
     embedding := generateFallbackEmbedding text;
     dimensions := FALLBACK_DIMENSIONS;
     metadata := JNull; model := "simple-hash" |}.

End Scenario.
(** * Properties *)

(** ** The offline vectorizer *)

Lemma hash_slot_in_range (word : string) (len : nat) :
  (0 < len)%nat -> (hash_slot word len < len)%nat.
Proof.
  intros Hlen. unfold hash_slot.
  assert (H : (JsString.char_code_sum 0 word mod N.of_nat len < N.of_nat len)%N)
    by (apply N.mod_lt; lia).
  lia.
Qed.

Lemma length_add_at (i : nat) (d : Q) (vector : list Q) :
  length (add_at i d vector) = length vector.
Proof. apply length_alter. Qed.

Lemma length_count_word (vector : list Q) (word : string) :
  length (count_word vector word) = length vector.
Proof.
  unfold count_word. rewrite length_add_at.
  destruct (JsString.indexOf word vocabulary) as [index|]; [|reflexivity].
  destruct (index <? length vector)%nat; [apply length_add_at | reflexivity].
Qed.

Lemma length_fold_count_word (words : list string) (vector : list Q) :
  length (fold_left count_word words vector) = length vector.
Proof.
  revert vector. induction words as [|word words IH]; intros vector; simpl.
  - reflexivity.
  - rewrite IH. apply length_count_word.
Qed.

Lemma length_bag_of_words (text : string) :
  length (bag_of_words text) = FALLBACK_DIMENSIONS.
Proof.
  unfold bag_of_words. rewrite length_fold_count_word. apply length_replicate.
Qed.

Lemma length_normalize (vector : list R) :
  length (normalize vector) = length vector.
Proof.
  unfold normalize. destruct (Rlt_dec _ _); [apply length_map | reflexivity].
Qed.

(** C3. The offline vectorizer returns, for every text, a vector of the
    fixed width [FALLBACK_DIMENSIONS] (no step of it can throw: the two
    writes of each word land inside the vector), and two invocations on
    the same text give vectors that agree at every position. *)
Theorem fallback_embedding_total_deterministic (text1 text2 : string) :
  text1 = text2 ->
  length (generateFallbackEmbedding text1) = FALLBACK_DIMENSIONS
  /\ (forall (word : string) (vector : list Q), length vector = FALLBACK_DIMENSIONS ->
        (hash_slot word (length vector) < length vector)%nat)
  /\ forall i : nat,
       generateFallbackEmbedding text1 !! i = generateFallbackEmbedding text2 !! i.
Proof.
  intros ->. split; [|split].
  - unfold generateFallbackEmbedding.
    rewrite length_normalize, length_map. apply length_bag_of_words.
  - intros word vector Hlen. apply hash_slot_in_range.
    rewrite Hlen. unfold FALLBACK_DIMENSIONS. lia.
  - reflexivity.
Qed.

Lemma fallback_embedding_witness :
  length (generateFallbackEmbedding "weather forecast") = FALLBACK_DIMENSIONS
  /\ (forall (word : string) (vector : list Q), length vector = FALLBACK_DIMENSIONS ->
        (hash_slot word (length vector) < length vector)%nat)
  /\ forall i : nat,
       generateFallbackEmbedding "weather forecast" !! i
       = generateFallbackEmbedding "weather forecast" !! i.
Proof.
  exact (fallback_embedding_total_deterministic
           "weather forecast" "weather forecast" eq_refl).
Defined.

(** ** The vector record store *)

Lemma find_same_identity (contentType contentId : string) (rows : list VectorEmbedding)
    (row : VectorEmbedding) :
  find (same_identity contentType contentId) rows = Some row ->
  content_type row = contentType /\ content_id row = contentId.
Proof.
  intros H. apply find_some in H as [_ H]. unfold same_identity in H.
  apply andb_true_iff in H as [H1 H2].
  apply String.eqb_eq in H1, H2. auto.
Qed.

(** The record [saveEmbedding] hands to [save]. *)
Lemma saveEmbedding_inv (env : Env) (contentType contentId textContent : string)
    (embedding_ : list R) (metadata_ : jsval) (model_ : string)
    (w w' : World) (saved : VectorEmbedding) :
  saveEmbedding env contentType contentId textContent embedding_ metadata_ model_ w
    = (Returned saved, w') ->
  saved = {| content_type := contentType; content_id := contentId;
             text_content := textContent; embedding := embedding_;
             dimensions := length embedding_; metadata := metadata_;
             model := model_ |}
  /\ vector_embeddings w'
     = saved :: List.filter (fun r => negb (same_identity contentType contentId r))
                  (vector_embeddings w).
Proof.
  unfold saveEmbedding, findByContentIdentity, save, bind, gets, ret, query.
  destruct (rejects env (FindOne contentType contentId)); [discriminate|].
  cbn [apply_stmt set_issued vector_embeddings issued].
  destruct (find (same_identity contentType contentId) (vector_embeddings w))
    as [existing|] eqn:Hfind.
  - apply find_same_identity in Hfind as [-> ->]. cbn [fst snd].
    match goal with |- context [rejects env ?s] => destruct (rejects env s) end;
      [discriminate|].
    intros [= <- <-]. split; reflexivity.
  - cbn [fst snd].
    match goal with |- context [rejects env ?s] => destruct (rejects env s) end;
      [discriminate|].
    intros [= <- <-]. split; reflexivity.
Qed.

(** C2. After a successful [saveEmbedding], the row stored for
    (contentType, contentId) is the returned one, it carries the embedding
    that was passed and [dimensions] equal to its length; and if every row
    satisfied [dimensions = length embedding] before, every row does
    afterwards, whether the call inserted or replaced. *)
Theorem saveEmbedding_dimensions (env : Env)
    (contentType contentId textContent : string)
    (embedding_ : list R) (metadata_ : jsval) (model_ : string)
    (w w' : World) (saved : VectorEmbedding) :
  saveEmbedding env contentType contentId textContent embedding_ metadata_ model_ w
    = (Returned saved, w') ->
  find (same_identity contentType contentId) (vector_embeddings w') = Some saved
  /\ embedding saved = embedding_
  /\ dimensions saved = length embedding_
  /\ (dimensions_consistent (vector_embeddings w) ->
      dimensions_consistent (vector_embeddings w')).
Proof.
  intros H. apply saveEmbedding_inv in H as [Hsaved Hrows].
  rewrite Hrows. split; [|split; [|split]].
  - cbn [find]. subst saved. cbn.
    unfold same_identity. cbn. rewrite !String.eqb_refl. reflexivity.
  - subst saved. reflexivity.
  - subst saved. reflexivity.
  - intros Hall. constructor.
    + subst saved. reflexivity.
    + unfold dimensions_consistent in *. rewrite Forall_forall in *.
      intros row Hin. apply Hall. apply list_elem_of_In.
      apply list_elem_of_In, filter_In in Hin as [Hin _]. exact Hin.
Qed.

Lemma saveEmbedding_dimensions_witness :
  exists saved w',
    saveEmbedding Sample.env "tool" "weather:getForecast" "getForecast Get weather"
      [1%R; 0%R] (JObj []) "fallback" Sample.world = (Returned saved, w')
    /\ find (same_identity "tool" "weather:getForecast") (vector_embeddings w') = Some saved
    /\ dimensions saved = 2%nat.
Proof.
  eexists. eexists. split; [lazy -[IZR]; reflexivity|].
  destruct (saveEmbedding_dimensions Sample.env "tool" "weather:getForecast"
              "getForecast Get weather" [1%R; 0%R] (JObj []) "fallback"
              Sample.world _ _ eq_refl) as (Hfind & _ & Hdims & _).
  split; [exact Hfind | exact Hdims].
Defined.

(** *** Similarity search *)

Lemma in_firstn {A} (x : A) (n : nat) (l : list A) :
  In x (firstn n l) -> In x l.
Proof.
  revert n. induction l as [|y l IH]; intros [|n]; simpl; try tauto.
  intros [->|H]; [now left | right; eauto].
Qed.

Lemma length_filter_le {A} (f : A -> bool) (l : list A) :
  (length (List.filter f l) <= length l)%nat.
Proof.
  induction l as [|y l IH]; simpl; [lia|].
  destruct (f y); simpl; lia.
Qed.

Lemma in_insert_desc (x y : SearchResult) (l : list SearchResult) :
  In y (insert_desc x l) <-> y = x \/ In y l.
Proof.
  induction l as [|z l IH]; simpl.
  - intuition.
  - destruct (Rlt_dec (similarity z) (similarity x)); simpl.
    + intuition.
    + rewrite IH. intuition.
Qed.

Lemma length_insert_desc (x : SearchResult) (l : list SearchResult) :
  length (insert_desc x l) = S (length l).
Proof.
  induction l as [|z l IH]; simpl; [reflexivity|].
  destruct (Rlt_dec _ _); simpl; [reflexivity | now rewrite IH].
Qed.

Lemma insert_desc_sorted (x : SearchResult) (l : list SearchResult) :
  StronglySorted by_similarity_desc l ->
  StronglySorted by_similarity_desc (insert_desc x l).
Proof.
  induction 1 as [|z l Hsorted IH Hz]; simpl.
  - repeat constructor.
  - destruct (Rlt_dec (similarity z) (similarity x)) as [Hlt|Hge].
    + constructor; [constructor; assumption|].
      constructor; [unfold by_similarity_desc; lra|].
      rewrite List.Forall_forall in *. intros y Hy. specialize (Hz y Hy).
      unfold by_similarity_desc in *. lra.
    + constructor; [exact IH|].
      rewrite List.Forall_forall in *. intros y Hy.
      apply in_insert_desc in Hy as [->|Hy]; [|auto].
      unfold by_similarity_desc. lra.
Qed.

Lemma in_order_by_similarity_desc (y : SearchResult) (l : list SearchResult) :
  In y (order_by_similarity_desc l) <-> In y l.
Proof.
  induction l as [|x l IH]; simpl; [reflexivity|].
  rewrite in_insert_desc, IH. intuition.
Qed.

Lemma length_order_by_similarity_desc (l : list SearchResult) :
  length (order_by_similarity_desc l) = length l.
Proof.
  induction l as [|x l IH]; simpl; [reflexivity|].
  now rewrite length_insert_desc, IH.
Qed.

Lemma order_by_similarity_desc_sorted (l : list SearchResult) :
  StronglySorted by_similarity_desc (order_by_similarity_desc l).
Proof.
  induction l as [|x l IH]; simpl; [constructor | now apply insert_desc_sorted].
Qed.

Lemma firstn_strongly_sorted {A} (P : A -> A -> Prop) (n : nat) (l : list A) :
  StronglySorted P l -> StronglySorted P (firstn n l).
Proof.
  intros H. revert n. induction H as [|x l Hsorted IH Hx]; intros [|n]; simpl;
    try constructor.
  - apply IH.
  - rewrite List.Forall_forall in *. intros y Hy. apply Hx.
    eapply in_firstn; eauto.
Qed.

Lemma in_similar_rows_inv (query_ : list R) (limit : nat) (threshold : R)
    (contentTypes : option (list string)) (table : list VectorEmbedding)
    (result : SearchResult) :
  In result (similar_rows query_ limit threshold contentTypes table) ->
  In (result_embedding result) table
  /\ result = score query_ (result_embedding result)
  /\ (similarity result > threshold)%R
  /\ content_type_selected contentTypes (result_embedding result) = true.
Proof.
  unfold similar_rows. intros H.
  apply in_firstn, in_order_by_similarity_desc, filter_In in H as [Hin Hwhere].
  apply in_map_iff in Hin as [row [<- Hrow]].
  unfold where_clause in Hwhere. apply andb_true_iff in Hwhere as [Hth Htypes].
  cbn in *. destruct (Rgt_dec _ _) as [Hgt|]; [|discriminate].
  repeat split; assumption.
Qed.

Lemma similar_rows_complete (query_ : list R) (limit : nat) (threshold : R)
    (contentTypes : option (list string)) (table : list VectorEmbedding)
    (row : VectorEmbedding) :
  In row table ->
  (length table <= limit)%nat ->
  (similarity (score query_ row) > threshold)%R ->
  content_type_selected contentTypes row = true ->
  In (score query_ row) (similar_rows query_ limit threshold contentTypes table).
Proof.
  intros Hin Hlimit Hgt Htypes. unfold similar_rows.
  rewrite firstn_all2.
  - apply in_order_by_similarity_desc, filter_In. split.
    + apply in_map_iff. exists row. split; [reflexivity | assumption].
    + unfold where_clause. apply andb_true_iff. split.
      * fold (score query_ row). destruct (Rgt_dec _ _); [reflexivity | contradiction].
      * exact Htypes.
  - rewrite length_order_by_similarity_desc.
    etransitivity; [apply length_filter_le|]. now rewrite length_map.
Qed.






(** ** The schema reconciler *)

Lemma query_accepted (env : Env) (s : Stmt) (w : World) :
  rejects env s = false ->
  query env s w = (Returned tt, apply_stmt env s (after_sending s w)).
Proof. intros H. unfold query. rewrite H. reflexivity. Qed.

Lemma query_rejected (env : Env) (s : Stmt) (w : World) :
  rejects env s = true ->
  query env s w = (Thrown (Error "query failed"), after_sending s w).
Proof. intros H. unfold query. rewrite H. reflexivity. Qed.

(** A call that finds the catalog in agreement sends the catalog query
    and nothing else. *)
Lemma reconciler_in_agreement (env : Env) (dimensionsNeeded : Z) (w : World) :
  isInitialized w = true ->
  rejects env SelectTypmod = false ->
  current_dimensions (option_list (atttypmod w)) = dimensionsNeeded ->
  dimensionsNeeded <> 0%Z ->
  checkDatabaseVectorDimensions env dimensionsNeeded w
    = (Returned tt, after_sending SelectTypmod w).
Proof.
  intros Hinit Hselect Hcurrent Hnonzero.
  unfold checkDatabaseVectorDimensions, select_typmod, try_catch, bind, gets, ret.
  rewrite Hinit. cbn [negb]. rewrite (query_accepted _ _ _ Hselect).
  cbn [apply_stmt after_sending set_issued atttypmod]. rewrite Hcurrent.
  destruct (Z.eqb_spec dimensionsNeeded 0) as [|_]; [contradiction|].
  rewrite Z.eqb_refl. reflexivity.
Qed.

(** What a successful call establishes. *)
Lemma reconciler_postcondition (env : Env) (dimensionsNeeded : Z) (w w1 : World) :
  checkDatabaseVectorDimensions env dimensionsNeeded w = (Returned tt, w1) ->
  (isInitialized w1 = false /\ w1 = w)
  \/ (isInitialized w1 = true /\ rejects env SelectTypmod = false
      /\ ((current_dimensions (option_list (atttypmod w1)) = dimensionsNeeded
           /\ dimensionsNeeded <> 0%Z)
          \/ atttypmod w1 = Some (typmod_of env dimensionsNeeded))).
Proof.
  unfold checkDatabaseVectorDimensions, select_typmod, try_catch, bind, gets, ret, throw.
  destruct (isInitialized w) eqn:Hinit; cbn [negb].
  2:{ intros [= <-]. left. auto. }
  destruct (rejects env SelectTypmod) eqn:Hselect.
  { rewrite (query_rejected _ _ _ Hselect). discriminate. }
  rewrite (query_accepted _ _ _ Hselect).
  cbn [apply_stmt after_sending set_issued atttypmod].
  set (current := current_dimensions (option_list (atttypmod w))).
  destruct (Z.eqb_spec current 0) as [Hzero|Hnonzero]; cbn [orb].
  - destruct (rejects env DropIndex) eqn:Hdrop;
      [rewrite (query_rejected _ _ _ Hdrop); discriminate|].
    rewrite (query_accepted _ _ _ Hdrop).
    destruct (rejects env (AlterWidth dimensionsNeeded)) eqn:Halter;
      [rewrite (query_rejected _ _ _ Halter); discriminate|].
    rewrite (query_accepted _ _ _ Halter).
    destruct (rejects env (CreateIndex ivfflat)) eqn:Hcreate;
      [rewrite (query_rejected _ _ _ Hcreate); discriminate|].
    rewrite (query_accepted _ _ _ Hcreate).
    intros [= <-]. right. cbn. rewrite Hinit. auto.
  - destruct (Z.eqb_spec current dimensionsNeeded) as [Hsame|Hdiff]; cbn [negb].
    + intros [= <-]. right. cbn. rewrite Hinit. subst current. rewrite <- Hsame. auto.
    + destruct (rejects env DropIndex) eqn:Hdrop;
        [rewrite (query_rejected _ _ _ Hdrop); discriminate|].
      rewrite (query_accepted _ _ _ Hdrop).
      destruct (rejects env (AlterWidth dimensionsNeeded)) eqn:Halter;
        [rewrite (query_rejected _ _ _ Halter); discriminate|].
      rewrite (query_accepted _ _ _ Halter).
      destruct (rejects env (CreateIndex ivfflat)) eqn:Hcreate;
        [rewrite (query_rejected _ _ _ Hcreate); discriminate|].
      rewrite (query_accepted _ _ _ Hcreate).
      intros [= <-]. right. cbn. rewrite Hinit. auto.
Qed.

Lemma drop_length_app {A} (l k : list A) : drop (length l) (l ++ k) = k.
Proof. induction l as [|x l IH]; simpl; [reflexivity | exact IH]. Qed.

(** What the reconciler is written for.  On an engine whose catalog
    reported the width of [vector(n)] as [n + 4], as the comment in the
    code has it, and for a positive target width: after a call of
    [checkDatabaseVectorDimensions] for that width has returned, a second
    call for the same width returns as well, sends no schema-changing
    statement and leaves the column width and the index as they are. *)
Lemma reconciler_idempotent (env : Env) (dimensionsNeeded : Z) (w w1 : World) :
  (forall n, typmod_of env n = (n + 4)%Z) ->
  (0 < dimensionsNeeded)%Z ->
  checkDatabaseVectorDimensions env dimensionsNeeded w = (Returned tt, w1) ->
  let second := checkDatabaseVectorDimensions env dimensionsNeeded in
  fst (second w1) = Returned tt
  /\ Forall (fun s => schema_changing s = false) (sent_by second w1)
  /\ atttypmod (snd (second w1)) = atttypmod w1
  /\ vector_index (snd (second w1)) = vector_index w1
  /\ vector_embeddings (snd (second w1)) = vector_embeddings w1.
Proof.
  intros Hencoding Hpositive Hfirst second.
  apply reconciler_postcondition in Hfirst as [[Hinit _]|(Hinit & Hselect & Hwidth)].
  - assert (Hsecond : second w1 = (Returned tt, w1)).
    { unfold second, checkDatabaseVectorDimensions, try_catch, bind, gets, ret.
      rewrite Hinit. reflexivity. }
    unfold sent_by. rewrite Hsecond. cbn [fst snd].
    rewrite drop_all. repeat split. constructor.
  - assert (Hsecond : second w1 = (Returned tt, after_sending SelectTypmod w1)).
    { apply reconciler_in_agreement; try assumption; [|lia].
      destruct Hwidth as [[Hcurrent _]|Htypmod]; [exact Hcurrent|].
      rewrite Htypmod, Hencoding. unfold current_dimensions. cbn.
      destruct (Z.eqb_spec (dimensionsNeeded + 4) 0) as [|_]; [lia|].
      destruct (Z.ltb_spec 0 (dimensionsNeeded + 4)); lia. }
    unfold sent_by. rewrite Hsecond. cbn [fst snd after_sending set_issued issued].
    rewrite drop_length_app. repeat split. repeat constructor.
Qed.

Lemma reconciler_idempotent_witness :
  fst (checkDatabaseVectorDimensions Sample.env_offset_typmod 100
         (snd (checkDatabaseVectorDimensions Sample.env_offset_typmod 100 Sample.world)))
    = Returned tt
  /\ sent_by (checkDatabaseVectorDimensions Sample.env_offset_typmod 100) Sample.world
     = [SelectTypmod; DropIndex; AlterWidth 100; CreateIndex ivfflat]
  /\ sent_by (checkDatabaseVectorDimensions Sample.env_offset_typmod 100)
       (snd (checkDatabaseVectorDimensions Sample.env_offset_typmod 100 Sample.world))
     = [SelectTypmod].
Proof.
  split; [|split; reflexivity].
  refine (proj1 (reconciler_idempotent Sample.env_offset_typmod 100 Sample.world
                   _ _ _ eq_refl)).
  - intros n. reflexivity.
  - lia.
Defined.

(** C5, at the input where the code departs from it.  The catalog of the
    engine reports the width of [vector(n)] as [n] itself; the reconciler
    subtracts 4 from what it reads.  A first call for width 100 on a
    connected database returns and leaves the column declared as
    [vector(100)] with its index.  The second call, immediately after and
    for the same width, reads 100, decodes 96, takes it for a mismatch and
    sends the index drop, the column change and the index creation again:
    it returns, but it is not a no-op. *)
Theorem reconciler_second_call_migrates_again :
  let reconcile := checkDatabaseVectorDimensions Sample.env 100 in
  let first := reconcile Sample.world in
  let second := reconcile (snd first) in
  fst first = Returned tt
  /\ atttypmod (snd first) = Some 100%Z
  /\ vector_index (snd first) = Some ivfflat
  /\ current_dimensions (option_list (atttypmod (snd first))) = 96%Z
  /\ fst second = Returned tt
  /\ sent_by reconcile (snd first)
     = [SelectTypmod; DropIndex; AlterWidth 100; CreateIndex ivfflat]
  /\ ~ Forall (fun s => schema_changing s = false) (sent_by reconcile (snd first)).
Proof.
  cbv zeta.
  assert (Hsent : sent_by (checkDatabaseVectorDimensions Sample.env 100)
                    (snd (checkDatabaseVectorDimensions Sample.env 100 Sample.world))
                  = [SelectTypmod; DropIndex; AlterWidth 100; CreateIndex ivfflat])
    by (vm_compute; reflexivity).
  repeat split; try (vm_compute; reflexivity).
  rewrite Hsent. intros Hnone.
  apply Forall_inv_tail, Forall_inv in Hnone. discriminate Hnone.
Qed.

(** ** Start-up: the ordered index strategies *)


(** ** Batch ingestion *)

Lemma shouldUseDatabase_enabled (entityType : EntityType) (w : World) :
  database_enabled w -> shouldUseDatabase entityType w = (Returned true, w).
Proof.
  intros (c & Hc & Henabled).
  unfold shouldUseDatabase, isEnabledFor, bind, getConfig, ret.
  rewrite Hc, Henabled. reflexivity.
Qed.

Lemma bind_returned {A B} (c : Eff A) (k : A -> Eff B) (w w' : World) (b : B) :
  bind c k w = (Returned b, w') ->
  exists a w1, c w = (Returned a, w1) /\ k a w1 = (Returned b, w').
Proof.
  unfold bind. destruct (c w) as [[a|e] w1]; [eauto | discriminate].
Qed.

Lemma keeps_rows_ret {A} (a : A) : keeps_rows (ret a).
Proof. intros ct cid w H. exact H. Qed.

Lemma keeps_rows_throw {A} (e : exn) : keeps_rows (@throw A e).
Proof. intros ct cid w H. exact H. Qed.

Lemma keeps_rows_gets {A} (f : World -> A) : keeps_rows (gets f).
Proof. intros ct cid w H. exact H. Qed.

Lemma keeps_rows_bind {A B} (c : Eff A) (k : A -> Eff B) :
  keeps_rows c -> (forall a, keeps_rows (k a)) -> keeps_rows (bind c k).
Proof.
  intros Hc Hk ct cid w H. unfold bind.
  specialize (Hc ct cid w H). destruct (c w) as [[a|e] w1]; cbn in *.
  - apply Hk, Hc.
  - exact Hc.
Qed.

Lemma keeps_rows_try_catch {A} (c : Eff A) (handler : exn -> Eff A) :
  keeps_rows c -> (forall e, keeps_rows (handler e)) -> keeps_rows (try_catch c handler).
Proof.
  intros Hc Hh ct cid w H. unfold try_catch.
  specialize (Hc ct cid w H). destruct (c w) as [[a|e] w1]; cbn in *.
  - exact Hc.
  - apply Hh, Hc.
Qed.

Lemma keeps_rows_if {A} (b : bool) (c1 c2 : Eff A) :
  keeps_rows c1 -> keeps_rows c2 -> keeps_rows (if b then c1 else c2).
Proof. destruct b; auto. Qed.

Lemma same_identity_trans (contentType contentId : string) (r1 r2 : VectorEmbedding) :
  same_identity contentType contentId r1 = true ->
  same_identity (content_type r2) (content_id r2) r1 = true ->
  same_identity contentType contentId r2 = true.
Proof.
  unfold same_identity. rewrite !andb_true_iff, !String.eqb_eq.
  intros [<- <-] [-> ->]. auto.
Qed.

Lemma keeps_rows_query (env : Env) (s : Stmt) : keeps_rows (query env s).
Proof.
  intros ct cid w (row & Hin & Hid). unfold query, has_row.
  destruct (rejects env s); cbn [snd].
  - exists row. auto.
  - destruct s; cbn [apply_stmt]; try solve [exists row; cbn; auto].
    + match goal with
      | |- context [match vector_index ?x with _ => _ end] => destruct (vector_index x)
      end; exists row; cbn; auto.
    + cbn [set_vector_embeddings vector_embeddings set_issued].
      destruct (same_identity (content_type row0) (content_id row0) row) eqn:Hsame.
      * exists row0. split; [now left|].
        eapply same_identity_trans; eauto.
      * exists row. split; [|exact Hid]. right.
        apply filter_In. split; [exact Hin|]. now rewrite Hsame.
Qed.

Lemma keeps_rows_getConfig : keeps_rows getConfig.
Proof.
  intros ct cid w H. unfold getConfig. destruct (databaseConfig w); exact H.
Qed.

Lemma keeps_rows_shouldUseDatabase (entityType : EntityType) :
  keeps_rows (shouldUseDatabase entityType).
Proof.
  unfold shouldUseDatabase, isEnabledFor. apply keeps_rows_bind; [apply keeps_rows_getConfig | intros; apply keeps_rows_ret].
Qed.

Lemma keeps_rows_generateEmbedding (env : Env) (text : string) :
  keeps_rows (generateEmbedding env text).
Proof.
  unfold generateEmbedding. apply keeps_rows_try_catch.
  - destruct (negb (apiKey env)); [apply keeps_rows_ret|].
    destruct (embeddings_create env _);
      [apply keeps_rows_ret | apply keeps_rows_throw].
  - intros. apply keeps_rows_ret.
Qed.

Lemma keeps_rows_checkDatabaseVectorDimensions (env : Env) (dimensionsNeeded : Z) :
  keeps_rows (checkDatabaseVectorDimensions env dimensionsNeeded).
Proof.
  unfold checkDatabaseVectorDimensions, select_typmod.
  apply keeps_rows_try_catch; [|intros; apply keeps_rows_throw].
  apply keeps_rows_bind; [apply keeps_rows_gets|]. intros initialized.
  apply keeps_rows_if; [apply keeps_rows_ret|].
  apply keeps_rows_bind.
  - apply keeps_rows_bind; [apply keeps_rows_query | intros; apply keeps_rows_gets].
  - intros result. apply keeps_rows_if; [|apply keeps_rows_ret].
    repeat (apply keeps_rows_bind; [apply keeps_rows_query | intros]).
    apply keeps_rows_query.
Qed.

Lemma keeps_rows_saveEmbedding (env : Env) (contentType contentId textContent : string)
    (embedding_ : list R) (metadata_ : jsval) (model_ : string) :
  keeps_rows (saveEmbedding env contentType contentId textContent embedding_
                metadata_ model_).
Proof.
  unfold saveEmbedding, findByContentIdentity, save.
  apply keeps_rows_bind.
  - apply keeps_rows_bind; [apply keeps_rows_query | intros; apply keeps_rows_gets].
  - intros found. apply keeps_rows_bind; [apply keeps_rows_query|].
    intros. apply keeps_rows_ret.
Qed.

Lemma keeps_rows_ingest_tool (env : Env) (serverName_ : string) (tool : ToolInfo) :
  keeps_rows (ingest_tool env serverName_ tool).
Proof.
  unfold ingest_tool.
  apply keeps_rows_bind; [apply keeps_rows_generateEmbedding|]. intros embedding_.
  apply keeps_rows_bind; [apply keeps_rows_shouldUseDatabase|]. intros use.
  apply keeps_rows_bind.
  - apply keeps_rows_if;
      [apply keeps_rows_checkDatabaseVectorDimensions | apply keeps_rows_ret].
  - intros _. apply keeps_rows_bind; [apply keeps_rows_saveEmbedding|].
    intros. apply keeps_rows_ret.
Qed.

Lemma keeps_rows_ingest_each (env : Env) (serverName_ : string) (tools_ : list ToolInfo) :
  keeps_rows (ingest_each env serverName_ tools_).
Proof.
  induction tools_ as [|tool rest IH]; cbn [ingest_each].
  - apply keeps_rows_ret.
  - apply keeps_rows_bind; [|intros; exact IH].
    apply keeps_rows_try_catch; [apply keeps_rows_ingest_tool|].
    intros. apply keeps_rows_ret.
Qed.

(** A tool whose ingestion returned is stored. *)
Lemma ingest_tool_stores (env : Env) (serverName_ : string) (tool : ToolInfo)
    (w w' : World) :
  ingest_tool env serverName_ tool w = (Returned tt, w') ->
  tool_stored serverName_ tool w'.
Proof.
  unfold ingest_tool. intros H.
  apply bind_returned in H as (embedding_ & w1 & _ & H).
  apply bind_returned in H as (use & w2 & _ & H).
  apply bind_returned in H as (? & w3 & _ & H).
  apply bind_returned in H as (saved & w4 & Hsave & H).
  unfold ret in H. injection H as <-.
  apply saveEmbedding_inv in Hsave as [Hsaved Hrows].
  exists saved. rewrite Hrows. split; [now left|].
  subst saved. unfold same_identity. cbn. now rewrite !String.eqb_refl.
Qed.

(** The loop reaches every tool: each iteration returns, whatever its
    body did. *)
Lemma ingest_each_cons (env : Env) (serverName_ : string) (tool : ToolInfo)
    (rest : list ToolInfo) (w : World) :
  ingest_each env serverName_ (tool :: rest) w
  = ingest_each env serverName_ rest (snd (ingest_tool env serverName_ tool w)).
Proof.
  cbn [ingest_each]. unfold bind, try_catch, ret.
  destruct (ingest_tool env serverName_ tool w) as [[[]|e] w1]; reflexivity.
Qed.

Lemma ingest_each_returns (env : Env) (serverName_ : string) (tools_ : list ToolInfo)
    (w : World) :
  fst (ingest_each env serverName_ tools_ w) = Returned tt.
Proof.
  revert w. induction tools_ as [|tool rest IH]; intros w.
  - reflexivity.
  - rewrite ingest_each_cons. apply IH.
Qed.

Lemma ingest_each_app (env : Env) (serverName_ : string) (before after : list ToolInfo)
    (w : World) :
  snd (ingest_each env serverName_ (before ++ after) w)
  = snd (ingest_each env serverName_ after (snd (ingest_each env serverName_ before w))).
Proof.
  revert w. induction before as [|tool rest IH]; intros w.
  - reflexivity.
  - cbn [app]. rewrite !ingest_each_cons. apply IH.
Qed.

Lemma ingested_stored (env : Env) (serverName_ : string) (tools_ : list ToolInfo)
    (w : World) :
  Forall (fun tool => tool_stored serverName_ tool
                        (snd (ingest_each env serverName_ tools_ w)))
         (ingested env serverName_ tools_ w).
Proof.
  revert w. induction tools_ as [|tool rest IH]; intros w; cbn [ingested].
  - constructor.
  - rewrite ingest_each_cons.
    destruct (ingest_tool env serverName_ tool w) as [[[]|e] w1] eqn:Htool;
      cbn [snd]; [|apply IH].
    constructor; [|apply IH].
    apply ingest_tool_stores in Htool.
    apply (keeps_rows_ingest_each env serverName_ rest _ _ w1 Htool).
Qed.

Lemma saveTools_enabled (env : Env) (serverName_ : string) (tools_ : list ToolInfo)
    (w : World) :
  database_enabled w ->
  saveToolsAsVectorEmbeddings env serverName_ tools_ w
  = (Returned tt, snd (ingest_each env serverName_ tools_ w)).
Proof.
  intros Henabled. unfold saveToolsAsVectorEmbeddings, bind.
  rewrite (shouldUseDatabase_enabled _ _ Henabled). cbn [negb]. unfold try_catch.
  pose proof (ingest_each_returns env serverName_ tools_ w) as Hret.
  destruct (ingest_each env serverName_ tools_ w) as [[[]|e] w']; cbn in *;
    [reflexivity | discriminate].
Qed.

(** C7. With database routing on, let the ingestion of one tool of the
    batch throw when the loop reaches it.  The batch call still returns;
    the tools after the failing one are processed, starting from the state
    the failure left; and every tool before or after it whose own
    ingestion returns has a row in the table when the batch ends. *)
Theorem batch_ingestion_isolates_failures (env : Env) (serverName_ : string)
    (before after : list ToolInfo) (tool : ToolInfo) (w : World) (e : exn) :
  let reached := snd (ingest_each env serverName_ before w) in
  let failed := ingest_tool env serverName_ tool reached in
  let batch := saveToolsAsVectorEmbeddings env serverName_ (before ++ tool :: after) w in
  database_enabled w ->
  fst failed = Thrown e ->
  fst batch = Returned tt
  /\ snd batch = snd (ingest_each env serverName_ after (snd failed))
  /\ Forall (fun stored => tool_stored serverName_ stored (snd batch))
       (ingested env serverName_ before w
        ++ ingested env serverName_ after (snd failed))%list.
Proof.
  intros reached failed batch Henabled Hfailed.
  assert (Hbatch : batch = (Returned tt,
            snd (ingest_each env serverName_ after (snd failed)))).
  { unfold batch. rewrite (saveTools_enabled _ _ _ _ Henabled).
    rewrite ingest_each_app, ingest_each_cons. reflexivity. }
  rewrite Hbatch. cbn [fst snd]. split; [reflexivity|]. split; [reflexivity|].
  apply Forall_app. split.
  - pose proof (ingested_stored env serverName_ before w) as Hbefore.
    fold reached in Hbefore. rewrite List.Forall_forall in *.
    intros stored Hin. specialize (Hbefore stored Hin).
    apply (keeps_rows_ingest_each env serverName_ after).
    apply (keeps_rows_ingest_tool env serverName_ tool). exact Hbefore.
  - apply ingested_stored.
Qed.

(** ** The embedding provider never throws *)

Lemma generateEmbedding_total (env : Env) (text : string) (w : World) :
  generateEmbedding env text w = (Returned (provided_embedding env text), w).
Proof.
  unfold generateEmbedding, provided_embedding, try_catch, ret, throw.
  destruct (apiKey env); cbn [negb]; [|reflexivity].
  destruct (embeddings_create env _); reflexivity.
Qed.

Lemma length_generateFallbackEmbedding (text : string) :
  length (generateFallbackEmbedding text) = FALLBACK_DIMENSIONS.
Proof.
  unfold generateFallbackEmbedding.
  rewrite length_normalize, length_map. apply length_bag_of_words.
Qed.

(** Ingestion of a tool when only the offline vectorizer is available. *)
Lemma ingest_tool_offline (env : Env) (serverName_ : string) (tool : ToolInfo)
    (w : World) :
  apiKey env = false ->
  database_enabled w ->
  ingest_tool env serverName_ tool w = ingest_tool_offline_steps env serverName_ tool w.
Proof.
  intros Hkey Henabled. unfold ingest_tool, ingest_tool_offline_steps.
  unfold bind at 1. rewrite generateEmbedding_total.
  unfold bind at 1. rewrite (shouldUseDatabase_enabled _ _ Henabled).
  unfold provided_embedding. rewrite Hkey.
  rewrite length_generateFallbackEmbedding. reflexivity.
Qed.

Lemma sample_batch_steps :
  let step := ingest_tool_offline_steps Sample.batch_env "weather" in
  let after_forecast := snd (step Sample.forecast Sample.world) in
  let after_alerts := snd (step Sample.alerts after_forecast) in
  (database_enabled Sample.world /\ database_enabled after_forecast
   /\ database_enabled after_alerts)
  /\ fst (step Sample.alerts after_forecast) = Thrown (Error "query failed")
  /\ map content_id (vector_embeddings (snd (step Sample.radar after_alerts)))
     = ["weather:getRadar"; "weather:getForecast"].
Proof.
  cbv zeta. split; [|split]; [| vm_compute; reflexivity | vm_compute; reflexivity].
  split; [|split]; exists {| db_enabled := true; migrationCompleted := true |};
    (split; [vm_compute; reflexivity | reflexivity]).
Qed.

Lemma ingest_each_single (env : Env) (serverName_ : string) (tool : ToolInfo)
    (w : World) :
  snd (ingest_each env serverName_ [tool] w) = snd (ingest_tool env serverName_ tool w).
Proof. rewrite ingest_each_cons. reflexivity. Qed.

Lemma batch_ingestion_witness :
  let batch :=
    saveToolsAsVectorEmbeddings Sample.batch_env "weather"
      ([Sample.forecast] ++ Sample.alerts :: [Sample.radar]) Sample.world in
  fst batch = Returned tt
  /\ map content_id (vector_embeddings (snd batch))
     = ["weather:getRadar"; "weather:getForecast"].
Proof.
  destruct sample_batch_steps as ((H0 & H1 & H2) & Hfail & Hrows).
  pose proof (ingest_tool_offline Sample.batch_env "weather" Sample.forecast _
                eq_refl H0) as E1.
  pose proof (ingest_tool_offline Sample.batch_env "weather" Sample.alerts _
                eq_refl H1) as E2.
  pose proof (ingest_tool_offline Sample.batch_env "weather" Sample.radar _
                eq_refl H2) as E3.
  destruct (batch_ingestion_isolates_failures Sample.batch_env "weather"
              [Sample.forecast] [Sample.radar] Sample.alerts Sample.world
              (Error "query failed") H0)
    as (Hret & Hstate & _).
  { rewrite ingest_each_single, E1, E2. exact Hfail. }
  split; [exact Hret|].
  rewrite Hstate, !ingest_each_single, E1, E2, E3. exact Hrows.
Defined.

(** ** The reconciler without IVFFlat *)

(** C6, at the input where the code departs from it.  The reconciler
    tries IVFFlat only: where the engine lacks it, the call throws after
    the column was altered, the fall-backs of the start-up path (HNSW, GIN,
    no index) are not attempted, and no index is left.  The ingestion
    that triggered the reconciliation does not complete: the batch
    returns, but the tool is not stored. *)
Theorem reconciler_fails_without_ivfflat :
  let outcome_ := checkDatabaseVectorDimensions Sample.env_without_ivfflat 100 Sample.world in
  let batch :=
    saveToolsAsVectorEmbeddings Sample.env_without_ivfflat "weather" [Sample.forecast]
      Sample.world in
  fst outcome_ = Thrown (Error "Vector dimension check failed: query failed")
  /\ sent_by (checkDatabaseVectorDimensions Sample.env_without_ivfflat 100) Sample.world
     = [SelectTypmod; DropIndex; AlterWidth 100; CreateIndex ivfflat]
  /\ atttypmod (snd outcome_) = Some 100%Z
  /\ vector_index (snd outcome_) = None
  /\ fst batch = Returned tt
  /\ vector_embeddings (snd batch) = []
  /\ issued (snd batch) = [SelectTypmod; DropIndex; AlterWidth 100; CreateIndex ivfflat].
Proof.
  assert (Henabled : database_enabled Sample.world).
  { exists {| db_enabled := true; migrationCompleted := true |}. split; reflexivity. }
  cbv zeta. rewrite (saveTools_enabled _ _ _ _ Henabled), ingest_each_single.
  rewrite (ingest_tool_offline Sample.env_without_ivfflat "weather" Sample.forecast
             Sample.world eq_refl Henabled).
  repeat split; vm_compute; reflexivity.
Qed.

(** ** The search service *)

Lemma searchSimilar_outcome (env : Env) (query_ : list R) (limit : nat)
    (threshold : R) (contentTypes : option (list string)) (w : World) :
  searchSimilar env query_ limit threshold contentTypes w
  = (if rejects env (SelectSimilar query_ limit threshold contentTypes)
     then Thrown (Error "query failed")
     else Returned (search_results env
                      (similar_rows query_ limit threshold contentTypes
                         (vector_embeddings w))),
     after_sending (SelectSimilar query_ limit threshold contentTypes) w).
Proof.
  unfold searchSimilar, bind, query, gets, ret, after_sending.
  destruct (rejects env _); reflexivity.
Qed.

(** A failure of the embedding function is caught inside [searchByText]. *)
Lemma searchByText_embedding_failure (env : Env) (text : string)
    (getEmbeddingFunc : string -> Eff (list R)) (limit : nat) (threshold : R)
    (contentTypes : option (list string)) (w w1 : World) (e : exn) :
  getEmbeddingFunc text w = (Thrown e, w1) ->
  searchByText env text getEmbeddingFunc limit threshold contentTypes w
  = (Returned [], w1).
Proof. intros H. unfold searchByText. rewrite H. reflexivity. Qed.

(** A failure of the similarity query is not: it leaves [searchByText]. *)
Lemma searchByText_with_provider (env : Env) (text : string) (limit : nat)
    (threshold : R) (contentTypes : option (list string)) (w : World) :
  searchByText env text (generateEmbedding env) limit threshold contentTypes w
  = searchSimilar env (provided_embedding env text) limit threshold contentTypes w.
Proof. unfold searchByText. rewrite generateEmbedding_total. reflexivity. Qed.

Lemma searchToolsByVector_disabled (env : Env) (query_ : string) (limit : nat)
    (threshold : R) (serverNames : option (list string)) (w : World) :
  fst (shouldUseDatabase EVectorEmbeddings w) = Returned false ->
  fst (searchToolsByVector env query_ limit threshold serverNames w) = Returned [].
Proof.
  unfold searchToolsByVector, bind.
  destruct (shouldUseDatabase EVectorEmbeddings w) as [[use|e] w1]; cbn [fst];
    [|discriminate].
  intros [= ->]. reflexivity.
Qed.

Lemma shouldUseDatabase_returns (entityType : EntityType) (w : World) :
  exists use, fst (shouldUseDatabase entityType w) = Returned use.
Proof.
  unfold shouldUseDatabase, isEnabledFor, bind, getConfig, ret.
  destruct (databaseConfig w); eexists; reflexivity.
Qed.

(** What [searchToolsByVector] does once the routing flag was read as on. *)
Lemma searchToolsByVector_enabled (env : Env) (query_ : string) (limit : nat)
    (threshold : R) (serverNames : option (list string)) (w w0 : World) :
  shouldUseDatabase EVectorEmbeddings w = (Returned true, w0) ->
  let statement :=
    SelectSimilar (provided_embedding env query_) limit threshold (Some ["tool"]) in
  searchToolsByVector env query_ limit threshold serverNames w
  = (Returned
       (if rejects env statement then []
        else map (to_tool_match env)
               (filter_by_servers env serverNames
                  (search_results env
                     (similar_rows (provided_embedding env query_) limit threshold
                        (Some ["tool"]) (vector_embeddings w0))))),
     after_sending statement w0).
Proof.
  intros Huse statement. unfold searchToolsByVector.
  unfold bind at 1. rewrite Huse. cbn [negb].
  unfold try_catch, bind. rewrite searchByText_with_provider, searchSimilar_outcome.
  fold statement. destruct (rejects env statement); reflexivity.
Qed.

(** Whatever the routing flag says, the outcome is a list. *)
Lemma searchToolsByVector_outcome (env : Env) (query_ : string) (limit : nat)
    (threshold : R) (serverNames : option (list string)) (w : World) :
  exists use w0,
    shouldUseDatabase EVectorEmbeddings w = (Returned use, w0)
    /\ fst (searchToolsByVector env query_ limit threshold serverNames w)
       = Returned
           (if use then
              if rejects env (SelectSimilar (provided_embedding env query_) limit
                                threshold (Some ["tool"]))
              then []
              else map (to_tool_match env)
                     (filter_by_servers env serverNames
                        (search_results env
                           (similar_rows (provided_embedding env query_) limit
                              threshold (Some ["tool"]) (vector_embeddings w0))))
            else []).
Proof.
  destruct (shouldUseDatabase EVectorEmbeddings w) as [[use|e] w0] eqn:Huse.
  2:{ destruct (shouldUseDatabase_returns EVectorEmbeddings w) as [use Hret].
      rewrite Huse in Hret. discriminate. }
  exists use, w0. split; [reflexivity|]. destruct use.
  - rewrite (searchToolsByVector_enabled _ _ _ _ _ _ _ Huse). reflexivity.
  - apply searchToolsByVector_disabled. now rewrite Huse.
Qed.

(** C8. [searchToolsByVector] always returns a list, in every state and
    for every engine, parser and provider.  When the similarity query is
    refused, the exception leaves the repository and is caught by the
    service, which returns the empty list; a throwing embedding function
    is caught in [searchByText], which returns the empty list; the
    provider itself never throws, and the transformation of the results
    cannot throw. *)
Theorem searchToolsByVector_never_throws (env : Env) (query_ : string) (limit : nat)
    (threshold : R) (serverNames : option (list string)) (w : World) :
  let run := searchToolsByVector env query_ limit threshold serverNames w in
  let statement :=
    SelectSimilar (provided_embedding env query_) limit threshold (Some ["tool"]) in
  (exists matches, fst run = Returned matches)
  /\ (rejects env statement = true ->
      fst (searchByText env query_ (generateEmbedding env) limit threshold
             (Some ["tool"]) w) = Thrown (Error "query failed")
      /\ fst run = Returned [])
  /\ (forall getEmbeddingFunc e w1,
        getEmbeddingFunc query_ w = (Thrown e, w1) ->
        searchByText env query_ getEmbeddingFunc limit threshold (Some ["tool"]) w
        = (Returned [], w1))
  /\ fst (generateEmbedding env query_ w) = Returned (provided_embedding env query_).
Proof.
  intros run statement.
  destruct (searchToolsByVector_outcome env query_ limit threshold serverNames w)
    as (use & w0 & Huse & Hrun).
  fold run statement in Hrun.
  split; [|split; [|split]].
  - eexists. exact Hrun.
  - intros Hrejects. split.
    + rewrite searchByText_with_provider, searchSimilar_outcome.
      fold statement. rewrite Hrejects. reflexivity.
    + rewrite Hrun, Hrejects. destruct use; reflexivity.
  - intros getEmbeddingFunc e w1. apply searchByText_embedding_failure.
  - rewrite generateEmbedding_total. reflexivity.
Qed.

Lemma searchToolsByVector_never_throws_witness :
  fst (searchToolsByVector Sample.env_down "weather forecast" 5 (1 / 10)%R None
         Sample.world) = Returned [].
Proof.
  exact (proj2 (proj1 (proj2 (searchToolsByVector_never_throws Sample.env_down
                                "weather forecast" 5 (1 / 10)%R None Sample.world))
                  eq_refl)).
Defined.

(** *** The server-name filter *)

Lemma includes_In (names : list string) (name_ : string) :
  JsString.includes names name_ = true <-> In name_ names.
Proof.
  unfold JsString.includes. rewrite existsb_exists. split.
  - intros (x & Hin & Heq). apply String.eqb_eq in Heq. now subst.
  - intros Hin. exists name_. split; [exact Hin | apply String.eqb_refl].
Qed.

Lemma allowed_server_spec (env : Env) (names : list string) (result : SearchResult) :
  allowed_server env names result = true <-> names_allowed_server env names result.
Proof.
  unfold allowed_server, names_allowed_server. split.
  - destruct (metadata (result_embedding result)) as [| | | |text| |]; try discriminate.
    destruct (JSON_parse env text) as [document|] eqn:Hparse; [|discriminate].
    destruct (Js.get "serverName" document) as [[| | | |name_| |]|] eqn:Hget;
      try discriminate.
    cbn [Js.includes]. intros Hin. apply includes_In in Hin.
    exists text, document, name_. auto.
  - intros (text & document & name_ & -> & -> & -> & Hin).
    cbn [Js.includes]. now apply includes_In.
Qed.

(** C10. With database routing on and the similarity query accepted,
    a non-empty list of server names makes [searchToolsByVector] keep
    exactly the results whose metadata is a string that parses as JSON to
    a document whose [serverName] is in the list; a result whose metadata
    is not a string, or is a string that does not parse, is dropped
    whatever its similarity.  Without the list every result is returned,
    read from its text by [parse_text_content] where the metadata gives no
    structured reading. *)
Theorem server_filter_needs_parsable_metadata (env : Env) (query_ : string)
    (limit : nat) (threshold : R) (first_name : string) (other_names : list string)
    (w : World) :
  let names := first_name :: other_names in
  let results :=
    search_results env
      (similar_rows (provided_embedding env query_) limit threshold (Some ["tool"])
         (vector_embeddings w)) in
  database_enabled w ->
  rejects env (SelectSimilar (provided_embedding env query_) limit threshold
                 (Some ["tool"])) = false ->
  fst (searchToolsByVector env query_ limit threshold (Some names) w)
    = Returned (map (to_tool_match env) (List.filter (allowed_server env names) results))
  /\ fst (searchToolsByVector env query_ limit threshold None w)
     = Returned (map (to_tool_match env) results)
  /\ (forall result,
        allowed_server env names result = true <-> names_allowed_server env names result)
  /\ (forall result,
        (forall text, metadata (result_embedding result) = JStr text ->
                      JSON_parse env text = None) ->
        allowed_server env names result = false
        /\ serverName (to_tool_match env result)
           = fst (fst (parse_text_content (text_content (result_embedding result))))
        /\ toolName (to_tool_match env result)
           = snd (fst (parse_text_content (text_content (result_embedding result))))
        /\ match_similarity (to_tool_match env result) = similarity result).
Proof.
  intros names results Henabled Haccepted.
  pose proof (shouldUseDatabase_enabled EVectorEmbeddings w Henabled) as Huse.
  split; [|split; [|split]].
  - rewrite (searchToolsByVector_enabled _ _ _ _ _ _ _ Huse). cbn [fst].
    rewrite Haccepted. subst names results. reflexivity.
  - rewrite (searchToolsByVector_enabled _ _ _ _ _ _ _ Huse). cbn [fst].
    rewrite Haccepted. reflexivity.
  - intros result. apply allowed_server_spec.
  - intros result Hmeta. unfold allowed_server, to_tool_match, structured_match.
    destruct (metadata (result_embedding result)) as [| | | |text| |];
      try (destruct (parse_text_content _) as [[? ?] ?]; repeat split; reflexivity).
    rewrite (Hmeta text eq_refl).
    destruct (Js.truthy (JStr text));
      destruct (parse_text_content _) as [[? ?] ?]; repeat split; reflexivity.
Qed.

Lemma server_filter_witness :
  allowed_server Sample.env ["weather"]
    {| result_embedding := Sample.row "weather:getForecast" [1%R] (JObj []);
       similarity := 1%R |} = false
  /\ toolName (to_tool_match Sample.env
       {| result_embedding := Sample.row "weather:getForecast" [1%R] (JObj []);
          similarity := 1%R |}) = JStr "weather_getForecast".
Proof.
  assert (Henabled : database_enabled Sample.world).
  { exists {| db_enabled := true; migrationCompleted := true |}. split; reflexivity. }
  destruct (server_filter_needs_parsable_metadata Sample.env "weather forecast" 5
              (1 / 10)%R "weather" [] Sample.world Henabled eq_refl)
    as (_ & _ & _ & H).
  destruct (H {| result_embedding := Sample.row "weather:getForecast" [1%R] (JObj []);
                 similarity := 1%R |}) as (Hdropped & _ & Hname & _).
  - intros text Htext. discriminate Htext.
  - split; [exact Hdropped|]. rewrite Hname. vm_compute. reflexivity.
Defined.

(** ** Dual-backend adapters *)

(** C4. With database routing on, if the database-backed repository
    throws in [findUserByUsername] (respectively in [getServersInfo]), the
    adapter's result is exactly what the file-backed implementation returns
    for the same arguments, run in the state the failed call left; the
    exception of the database is not the adapter's outcome unless the file
    implementation raises it itself. *)
Theorem adapters_fall_back_to_file (env : Env)
    (findUserByUsernameFile : string -> Eff (option IUser))
    (getServersInfoFile : Eff (list ServerInfo))
    (username_ : string) (w : World) :
  database_enabled w ->
  (forall e w1,
     findByUsername env username_ w = (Thrown e, w1) ->
     findUserByUsername env findUserByUsernameFile username_ w
     = findUserByUsernameFile username_ w1)
  /\ (forall e w1,
        findAll env w = (Thrown e, w1) ->
        getServersInfo env getServersInfoFile w = getServersInfoFile w1).
Proof.
  intros Henabled. split; intros e w1 Hthrown.
  - unfold findUserByUsername. unfold bind at 1.
    rewrite (shouldUseDatabase_enabled _ _ Henabled).
    unfold try_catch, bind. rewrite Hthrown. reflexivity.
  - unfold getServersInfo. unfold bind at 1.
    rewrite (shouldUseDatabase_enabled _ _ Henabled).
    unfold try_catch, bind. rewrite Hthrown. reflexivity.
Qed.

Lemma adapters_fall_back_witness :
  fst (findUserByUsername Sample.env_down
         (fun name_ => ret (Some {| username := name_; password := "hash";
                                    isAdmin := true |}))
         "admin" Sample.world)
  = Returned (Some {| username := "admin"; password := "hash"; isAdmin := true |}).
Proof.
  assert (Henabled : database_enabled Sample.world).
  { exists {| db_enabled := true; migrationCompleted := true |}. split; reflexivity. }
  rewrite (proj1 (adapters_fall_back_to_file Sample.env_down
                    (fun name_ => ret (Some {| username := name_; password := "hash";
                                               isAdmin := true |}))
                    (ret []) "admin" Sample.world Henabled)
             (Error "query failed") (after_sending (FindUser "admin") Sample.world)
             eq_refl).
  reflexivity.
Defined.

(** ** The search controller *)

Lemma limitNum_range (limit : qsval) : (1 <= limitNum limit <= 100)%Z.
Proof. unfold limitNum. lia. Qed.

Lemma Qmax_0_nonneg (x : Q) : (0 <= Qmax x 0)%Q.
Proof. apply Q.le_max_r. Qed.

Lemma thresholdNum_finite (threshold : qsval) :
  exists q, thresholdNum threshold = JsNumber.Finite q /\ (0 <= q)%Q /\ (q <= 1)%Q.
Proof.
  unfold thresholdNum.
  destruct (JsNumber.or_default _ _) as [|[|]|x] eqn:Hdefault.
  - unfold JsNumber.or_default in Hdefault.
    destruct (JsNumber.parseFloat _) as [|[|]|y]; try discriminate.
    destruct (Qeq_bool y 0); discriminate.
  - cbn. exists 0%Q. repeat split; [apply Qle_refl | discriminate].
  - cbn. exists 1%Q. repeat split; [discriminate | apply Qle_refl].
  - cbn. exists (Qmin (Qmax x 0) 1). split; [reflexivity|]. split.
    + apply Q.min_glb; [apply Qmax_0_nonneg | discriminate].
    + apply Q.le_min_r.
Qed.

Lemma append_cons (c : ascii) (s1 s2 : string) :
  String c s1 ++ s2 = String c (s1 ++ s2).
Proof. reflexivity. Qed.

Lemma span_all (p : ascii -> bool) (a b : string) :
  all_chars p a = true ->
  match b with
  | EmptyString => True
  | String c _ => p c = false
  end ->
  JsString.span p (a ++ b) = (a, b).
Proof.
  intros Ha Hb. induction a as [|c rest IH].
  - change ("" ++ b) with b.
    destruct b as [|c rest]; [reflexivity|]. cbn [JsString.span]. now rewrite Hb.
  - rewrite append_cons. cbn [all_chars] in Ha. apply andb_true_iff in Ha as [Hc Hrest].
    cbn [JsString.span]. rewrite Hc, (IH Hrest). reflexivity.
Qed.






(** ** Further facts *)

(** The provider never throws and does not touch the state: it resolves
    to the service's vector when a key is set and the request succeeds,
    and to the offline vectorizer's otherwise. *)
Lemma generateEmbedding_never_throws (env : Env) (text : string) (w : World) :
  generateEmbedding env text w = (Returned (provided_embedding env text), w)
  /\ (provided_embedding env text = generateFallbackEmbedding text
      \/ apiKey env = true
         /\ exists truncatedText,
              embeddings_create env truncatedText = Some (provided_embedding env text)).
Proof.
  split; [apply generateEmbedding_total|].
  unfold provided_embedding. destruct (apiKey env); [|now left].
  destruct (embeddings_create env _) as [embedding_|] eqn:Hcreate; [|now left].
  right. split; [reflexivity|]. eexists. exact Hcreate.
Qed.

(** The first revision of the ingestion loop stops at the first tool that
    fails: the tools after it are not processed. *)
Lemma first_revision_batch_stops_at_failure :
  let batch :=
    FirstRevision.saveToolsAsVectorEmbeddings Sample.batch_env "weather"
      [Sample.forecast; Sample.alerts; Sample.radar] Sample.world in
  fst batch = Returned tt
  /\ map content_id (vector_embeddings (snd batch)) = ["weather:getForecast"].
Proof. cbv zeta. split; vm_compute; reflexivity. Qed.

(** ** Checks of the model on concrete inputs *)

Example split_whitespace_keeps_empty_ends :
  JsString.split_whitespace " get  weather " = [""; "get"; "weather"; ""].
Proof. reflexivity. Qed.

Example bag_of_words_counts :
  map Qred (firstn 9 (bag_of_words "Get weather"))
  = [0; 0; 1; 0; 0; 0; 0; 0; 1]%Q.
Proof. vm_compute. reflexivity. Qed.

Example content_type_filter_selects_tools :
  content_type_selected (Some ["tool"]) (Sample.row "weather:getForecast" [] JNull) = true
  /\ content_type_selected (Some ["note"]) (Sample.row "weather:getForecast" [] JNull) = false
  /\ content_type_selected (Some []) (Sample.row "weather:getForecast" [] JNull) = true.
Proof. repeat split. Qed.

Example parse_text_content_convention :
  parse_text_content "weather_getForecast Get weather forecast  "
  = (JStr "weather", JStr "weather_getForecast", JStr "Get weather forecast")
  /\ parse_text_content "getForecast Get weather"
     = (JStr "unknown", JStr "getForecast", JStr "Get weather").
Proof. split; vm_compute; reflexivity. Qed.

Example structured_metadata_is_read :
  allowed_server Sample.env ["weather"]
    {| result_embedding := Sample.row "weather:getForecast" [] (JStr Sample.weather_json);
       similarity := 1%R |} = true
  /\ toolName (to_tool_match Sample.env
       {| result_embedding := Sample.row "weather:getForecast" [] (JStr Sample.weather_json);
          similarity := 1%R |}) = JStr "getForecast".
Proof. split; vm_compute; reflexivity. Qed.

Example limit_and_threshold_values :
  map limitNum [QAbsent; QString "-3"; QString "1000"; QString "55"; QString "many"]
  = [10; 1; 100; 55; 10]%Z
  /\ map thresholdNum [QAbsent; QString "1000"; QString "0.55"; QString "high"]
     = [JsNumber.Finite (7 # 10); JsNumber.Finite 1; JsNumber.Finite (11 # 20);
        JsNumber.Finite (7 # 10)].
Proof. split; vm_compute; reflexivity. Qed.

(** * Further properties *)

(** ** Database routing switched off *)

Lemma shouldUseDatabase_disabled (entityType : EntityType) (w : World) :
  database_disabled w ->
  shouldUseDatabase entityType w = (Returned false, settings_read w).
Proof.
  unfold database_disabled, settings_read, shouldUseDatabase, isEnabledFor, bind,
    getConfig, ret.
  destruct (databaseConfig w) as [c|]; [intros ->|]; reflexivity.
Qed.

Lemma shouldUseDatabase_cases (entityType : EntityType) (w : World) :
  (database_enabled w /\ shouldUseDatabase entityType w = (Returned true, w))
  \/ (database_disabled w
      /\ shouldUseDatabase entityType w = (Returned false, settings_read w)).
Proof.
  destruct (databaseConfig w) as [c|] eqn:Hc.
  - destruct (db_enabled c) eqn:Henabled.
    + left. assert (H : database_enabled w) by (exists c; auto).
      split; [exact H | now apply shouldUseDatabase_enabled].
    + right. assert (H : database_disabled w)
        by (unfold database_disabled; now rewrite Hc).
      split; [exact H | now apply shouldUseDatabase_disabled].
  - right. assert (H : database_disabled w)
      by (unfold database_disabled; now rewrite Hc).
    split; [exact H | now apply shouldUseDatabase_disabled].
Qed.

(** With database routing off (the flag is false, or the settings have no
    database section yet) the vector service is inert: ingestion, search,
    listing and rebuild return at once with the empty answer, and the two
    adapters run the file-backed implementation.  No statement reaches the
    database and no row changes; the only effect is that a missing
    database section is written with its defaults. *)
Theorem routing_off_is_inert (env : Env)
    (findUserByUsernameFile : string -> Eff (option IUser))
    (getServersInfoFile : Eff (list ServerInfo)) (w : World) :
  database_disabled w ->
  (forall serverName_ tools_,
     saveToolsAsVectorEmbeddings env serverName_ tools_ w
     = (Returned tt, settings_read w))
  /\ saveAllServerToolsAsVectorEmbeddings env getServersInfoFile w
     = (Returned tt, settings_read w)
  /\ (forall query_ limit threshold serverNames,
        searchToolsByVector env query_ limit threshold serverNames w
        = (Returned [], settings_read w))
  /\ (forall serverNames,
        getAllVectorizedTools env serverNames w = (Returned [], settings_read w))
  /\ (forall username_,
        findUserByUsername env findUserByUsernameFile username_ w
        = findUserByUsernameFile username_ (settings_read w))
  /\ getServersInfo env getServersInfoFile w = getServersInfoFile (settings_read w)
  /\ issued (settings_read w) = issued w
  /\ vector_embeddings (settings_read w) = vector_embeddings w
  /\ database_disabled (settings_read w).
Proof.
  intros Hoff.
  pose proof (fun entityType => shouldUseDatabase_disabled entityType w Hoff) as Huse.
  repeat split; intros;
    try (unfold saveToolsAsVectorEmbeddings, saveAllServerToolsAsVectorEmbeddings,
           searchToolsByVector, getAllVectorizedTools, findUserByUsername,
           getServersInfo;
         unfold bind at 1; rewrite Huse; reflexivity).
  - unfold settings_read. destruct (databaseConfig w); reflexivity.
  - unfold settings_read. destruct (databaseConfig w); reflexivity.
  - unfold database_disabled, settings_read in *.
    destruct (databaseConfig w) as [c|] eqn:Hc; [now rewrite Hc | reflexivity].
Qed.

Lemma routing_off_is_inert_witness :
  fst (searchToolsByVector Sample.env "weather" 10 (1 / 2)%R None
         (set_databaseConfig None Sample.world))
  = Returned []
  /\ databaseConfig
       (snd (searchToolsByVector Sample.env "weather" 10 (1 / 2)%R None
               (set_databaseConfig None Sample.world)))
     = Some default_databaseConfig.
Proof.
  assert (Hoff : database_disabled (set_databaseConfig None Sample.world))
    by exact I.
  destruct (routing_off_is_inert Sample.env (fun _ => ret None) (ret [])
              (set_databaseConfig None Sample.world) Hoff)
    as (_ & _ & Hsearch & _).
  rewrite Hsearch. split; reflexivity.
Defined.

(** ** Rebuilding the embeddings *)

Lemma saveTools_returns (env : Env) (serverName_ : string) (tools_ : list ToolInfo)
    (w : World) :
  fst (saveToolsAsVectorEmbeddings env serverName_ tools_ w) = Returned tt.
Proof.
  destruct (shouldUseDatabase_cases EVectorEmbeddings w) as [[Hon _]|[_ Hoff]].
  - now rewrite (saveTools_enabled _ _ _ _ Hon).
  - unfold saveToolsAsVectorEmbeddings. unfold bind at 1. now rewrite Hoff.
Qed.

Lemma save_each_server_returns (env : Env) (servers : list ServerInfo) (w : World) :
  fst (save_each_server env servers w) = Returned tt.
Proof.
  revert w. induction servers as [|server rest IH]; intros w; [reflexivity|].
  cbn [save_each_server]. unfold bind.
  pose proof (saveTools_returns env (name server) (tools server) w) as Hret.
  destruct (saveToolsAsVectorEmbeddings env (name server) (tools server) w)
    as [[[]|e] w1]; cbn [fst] in Hret; [apply IH | discriminate].
Qed.

Lemma saveAll_returns (env : Env) (getServersInfoFile : Eff (list ServerInfo))
    (w : World) :
  fst (saveAllServerToolsAsVectorEmbeddings env getServersInfoFile w) = Returned tt.
Proof.
  unfold saveAllServerToolsAsVectorEmbeddings. unfold bind at 1.
  destruct (shouldUseDatabase_cases EVectorEmbeddings w) as [[_ ->]|[_ ->]];
    cbn [negb]; [|reflexivity].
  unfold try_catch, bind.
  destruct (getServersInfo env getServersInfoFile w) as [[servers|e] w1];
    [|reflexivity].
  pose proof (save_each_server_returns env
                (List.filter is_active_with_tools servers) w1) as Hret.
  destruct (save_each_server env _ w1) as [[[]|e] w2]; cbn [fst] in Hret;
    [reflexivity | discriminate].
Qed.

(** The listing read from the database, when routing is on and the
    engine answers. *)
Lemma getServersInfo_database (env : Env) (getServersInfoFile : Eff (list ServerInfo))
    (w : World) :
  database_enabled w ->
  rejects env FindServerConfigs = false ->
  getServersInfo env getServersInfoFile w
  = (Returned (map (to_ServerInfo (now w)) (server_configs w)),
     after_sending FindServerConfigs w).
Proof.
  intros Hon Haccepted. unfold getServersInfo. unfold bind at 1.
  rewrite (shouldUseDatabase_enabled _ _ Hon).
  unfold try_catch, bind, findAll, bind, gets, ret.
  rewrite (query_accepted _ _ _ Haccepted). reflexivity.
Qed.

Lemma no_database_server_is_active (time : Z) (configs : list Entities.ServerConfig) :
  List.filter is_active_with_tools (map (to_ServerInfo time) configs) = [].
Proof. induction configs as [|config rest IH]; [reflexivity | exact IH]. Qed.

(** [POST /rebuild] cannot fail: [saveAllServerToolsAsVectorEmbeddings]
    never throws, whatever the engine, the provider and the file-backed
    listing do, so the controller always answers with the success message
    and its 500 answer is never sent -- also when no tool was embedded. *)
Theorem rebuildEmbeddings_always_reports_success (env : Env)
    (getServersInfoFile : Eff (list ServerInfo)) (w : World) :
  fst (saveAllServerToolsAsVectorEmbeddings env getServersInfoFile w) = Returned tt
  /\ fst (rebuildEmbeddings env getServersInfoFile w)
     = Returned (Rebuilt "Vector embeddings rebuilt successfully").
Proof.
  split; [apply saveAll_returns|].
  unfold rebuildEmbeddings, try_catch, bind, ret.
  pose proof (saveAll_returns env getServersInfoFile w) as Hret.
  destruct (saveAllServerToolsAsVectorEmbeddings env getServersInfoFile w)
    as [[[]|e] w1]; cbn [fst] in Hret; [reflexivity | discriminate].
Qed.

(** With database routing on and the server listing answered by the
    database, a rebuild embeds nothing: every server built from a stored
    configuration is reported [disconnected] with no tools, so none is
    active.  The listing query is the only statement sent, the table of
    embeddings is left as it was, and the controller still reports
    success. *)
Theorem rebuild_with_database_listing_embeds_nothing (env : Env)
    (getServersInfoFile : Eff (list ServerInfo)) (w : World) :
  database_enabled w ->
  rejects env FindServerConfigs = false ->
  saveAllServerToolsAsVectorEmbeddings env getServersInfoFile w
  = (Returned tt, after_sending FindServerConfigs w)
  /\ rebuildEmbeddings env getServersInfoFile w
     = (Returned (Rebuilt "Vector embeddings rebuilt successfully"),
        after_sending FindServerConfigs w)
  /\ vector_embeddings (after_sending FindServerConfigs w) = vector_embeddings w
  /\ sent_by (saveAllServerToolsAsVectorEmbeddings env getServersInfoFile) w
     = [FindServerConfigs].
Proof.
  intros Hon Haccepted.
  assert (Hall : saveAllServerToolsAsVectorEmbeddings env getServersInfoFile w
                 = (Returned tt, after_sending FindServerConfigs w)).
  { unfold saveAllServerToolsAsVectorEmbeddings. unfold bind at 1.
    rewrite (shouldUseDatabase_enabled _ _ Hon). cbn [negb].
    unfold try_catch, bind.
    rewrite (getServersInfo_database _ _ _ Hon Haccepted).
    rewrite no_database_server_is_active. reflexivity. }
  split; [exact Hall|]. split; [|split].
  - unfold rebuildEmbeddings, try_catch, bind. rewrite Hall. reflexivity.
  - reflexivity.
  - unfold sent_by. rewrite Hall. cbn [snd after_sending set_issued issued].
    apply drop_length_app.
Qed.

Lemma rebuild_with_database_listing_witness :
  sent_by (saveAllServerToolsAsVectorEmbeddings Sample.env
             (ret [Scenario.connected_weather]))
          Scenario.world_with_configs
  = [FindServerConfigs]
  /\ vector_embeddings
       (snd (saveAllServerToolsAsVectorEmbeddings Sample.env
               (ret [Scenario.connected_weather]) Scenario.world_with_configs))
     = [].
Proof.
  assert (Hon : database_enabled Scenario.world_with_configs).
  { exists {| db_enabled := true; migrationCompleted := true |}. split; reflexivity. }
  destruct (rebuild_with_database_listing_embeds_nothing Sample.env
              (ret [Scenario.connected_weather]) Scenario.world_with_configs Hon eq_refl)
    as (Hall & _ & Hrows & Hsent).
  split; [exact Hsent|]. rewrite Hall. reflexivity.
Defined.

Lemma find_to_ServerInfo (time : Z) (requested : string)
    (configs : list Entities.ServerConfig) :
  find (fun s => String.eqb (name s) requested) (map (to_ServerInfo time) configs)
  = option_map (to_ServerInfo time)
      (find (fun c => String.eqb (Entities.name c) requested) configs).
Proof.
  induction configs as [|config rest IH]; [reflexivity|].
  cbn [map find to_ServerInfo name].
  destruct (String.eqb (Entities.name config) requested); [reflexivity | exact IH].
Qed.

(** [POST /rebuild/:serverName] always answers, and each answer tells
    what was found.  A success answer is sent only for a listed server
    that is connected, enabled and has tools, and its [toolsCount] is the
    number of tools of the listing -- not the number of rows written: the
    batch behind it swallows its own failures.  A refusal carries 400, 404
    or 500, and 500 only when the server listing itself threw. *)
Theorem rebuildServerEmbeddings_answers (env : Env)
    (getServersInfoFile : Eff (list ServerInfo)) (serverName_ : option string)
    (w : World) :
  exists response,
    fst (rebuildServerEmbeddings env getServersInfoFile serverName_ w)
    = Returned response
    /\ match response with
       | ServerRebuilt _ requested count =>
           serverName_ = Some requested
           /\ exists servers w1 server,
                getServersInfo env getServersInfoFile w = (Returned servers, w1)
                /\ find (fun s => String.eqb (name s) requested) servers = Some server
                /\ status server = "connected"
                /\ enabled server = true
                /\ count = length (tools server)
                /\ (0 < count)%nat
       | Refused code _ =>
           code = 400%nat \/ code = 404%nat
           \/ code = 500%nat
              /\ exists e w1, getServersInfo env getServersInfoFile w = (Thrown e, w1)
       | _ => False
       end.
Proof.
  unfold rebuildServerEmbeddings, try_catch.
  destruct serverName_ as [requested|]; [|eexists; split; [reflexivity | cbn; auto]].
  destruct (String.eqb requested ""); [eexists; split; [reflexivity | cbn; auto]|].
  unfold bind at 1.
  destruct (getServersInfo env getServersInfoFile w) as [[servers|e] w1] eqn:Hlist.
  2:{ eexists. split; [reflexivity|]. cbn. right. right. split; [reflexivity|]. eauto. }
  destruct (find (fun s => String.eqb (name s) requested) servers) as [server|] eqn:Hfind;
    [|eexists; split; [reflexivity | cbn; auto]].
  destruct (String.eqb (status server) "connected") eqn:Hstatus; cbn [negb orb];
    [|eexists; split; [reflexivity | cbn; auto]].
  destruct (enabled server) eqn:Henabled; cbn [negb];
    [|eexists; split; [reflexivity | cbn; auto]].
  destruct (length (tools server)) as [|n] eqn:Htools; cbn [Nat.eqb];
    [eexists; split; [reflexivity | cbn; auto]|].
  unfold bind.
  pose proof (saveTools_returns env requested (tools server) w1) as Hret.
  destruct (saveToolsAsVectorEmbeddings env requested (tools server) w1)
    as [[[]|e] w2]; cbn [fst] in Hret; [|discriminate].
  eexists. split; [reflexivity|]. cbn. split; [reflexivity|].
  exists servers, w1, server. apply String.eqb_eq in Hstatus.
  repeat split; auto. lia.
Qed.

(** With database routing on and the listing answered by the database,
    the rebuild of a single server cannot succeed: a stored server is
    listed as [disconnected], so the answer is 400 "not active or enabled"
    for a stored name and 404 for any other, and nothing is embedded. *)
Theorem rebuildServerEmbeddings_refused_with_database_listing (env : Env)
    (getServersInfoFile : Eff (list ServerInfo)) (requested : string) (w : World) :
  database_enabled w ->
  rejects env FindServerConfigs = false ->
  requested <> "" ->
  rebuildServerEmbeddings env getServersInfoFile (Some requested) w
  = (Returned
       (if existsb (fun c => String.eqb (Entities.name c) requested) (server_configs w)
        then Refused 400 ("Server '" ++ requested ++ "' is not active or enabled")
        else Refused 404 ("Server '" ++ requested ++ "' not found")),
     after_sending FindServerConfigs w)
  /\ vector_embeddings (after_sending FindServerConfigs w) = vector_embeddings w.
Proof.
  intros Hon Haccepted Hname. split; [|reflexivity].
  unfold rebuildServerEmbeddings, try_catch.
  apply String.eqb_neq in Hname. rewrite Hname.
  unfold bind at 1. rewrite (getServersInfo_database _ _ _ Hon Haccepted).
  rewrite find_to_ServerInfo.
  induction (server_configs w) as [|config rest IH]; [reflexivity|].
  cbn [find existsb].
  destruct (String.eqb (Entities.name config) requested); [reflexivity | exact IH].
Qed.

Lemma rebuildServerEmbeddings_refused_witness :
  fst (rebuildServerEmbeddings Sample.env (ret [Scenario.connected_weather])
         (Some "weather") Scenario.world_with_configs)
  = Returned (Refused 400 "Server 'weather' is not active or enabled")
  /\ fst (rebuildServerEmbeddings Sample.env (ret [Scenario.connected_weather])
            (Some "maps") Scenario.world_with_configs)
     = Returned (Refused 404 "Server 'maps' not found").
Proof.
  assert (Hon : database_enabled Scenario.world_with_configs).
  { exists {| db_enabled := true; migrationCompleted := true |}. split; reflexivity. }
  split.
  - rewrite (proj1 (rebuildServerEmbeddings_refused_with_database_listing Sample.env
                      (ret [Scenario.connected_weather]) "weather"
                      Scenario.world_with_configs Hon eq_refl ltac:(discriminate))).
    reflexivity.
  - rewrite (proj1 (rebuildServerEmbeddings_refused_with_database_listing Sample.env
                      (ret [Scenario.connected_weather]) "maps"
                      Scenario.world_with_configs Hon eq_refl ltac:(discriminate))).
    reflexivity.
Defined.

(** ** Listing the vectorized tools *)

(** The probe of the column width returns in every case. *)
Lemma dimensionsToUse_outcome (env : Env) (w : World) :
  dimensionsToUse env w
  = (Returned
       (if rejects env SelectTypmod then DEFAULT_DIMENSIONS env
        else if (0 <? current_dimensions (option_list (atttypmod w)))%Z
             then Z.to_nat (current_dimensions (option_list (atttypmod w)))
             else DEFAULT_DIMENSIONS env),
     after_sending SelectTypmod w).
Proof.
  unfold dimensionsToUse, try_catch, bind, select_typmod, bind, gets, ret.
  destruct (rejects env SelectTypmod) eqn:Hprobe.
  - rewrite (query_rejected _ _ _ Hprobe). reflexivity.
  - rewrite (query_accepted _ _ _ Hprobe). reflexivity.
Qed.

(** What [getAllVectorizedTools] does once the routing flag was read as on. *)
Lemma getAllVectorizedTools_enabled (env : Env) (serverNames : option (list string))
    (w : World) :
  database_enabled w ->
  exists width,
    fst (dimensionsToUse env w) = Returned width
    /\ let statement :=
         SelectSimilar (replicate width 0%R) 1000 (-1)%R (Some ["tool"]) in
       getAllVectorizedTools env serverNames w
       = (Returned
            (if rejects env statement then []
             else map (to_listed_tool env)
                    (filter_by_servers env serverNames
                       (search_results env
                          (similar_rows (replicate width 0%R) 1000 (-1)%R
                             (Some ["tool"]) (vector_embeddings w))))),
          after_sending statement (after_sending SelectTypmod w)).
Proof.
  intros Hon. eexists. split; [rewrite dimensionsToUse_outcome; reflexivity|].
  intros statement. unfold getAllVectorizedTools. unfold bind at 1.
  rewrite (shouldUseDatabase_enabled _ _ Hon). cbn [negb].
  unfold try_catch. unfold bind at 1. rewrite dimensionsToUse_outcome.
  unfold bind. rewrite searchSimilar_outcome. fold statement.
  destruct (rejects env statement); reflexivity.
Qed.

Lemma length_filter_by_servers (env : Env) (serverNames : option (list string))
    (results : list SearchResult) :
  (length (filter_by_servers env serverNames results) <= length results)%nat.
Proof.
  unfold filter_by_servers. destruct serverNames as [[|first_name others]|];
    [lia | apply length_filter_le | lia].
Qed.

Lemma length_similar_rows (query_ : list R) (limit : nat) (threshold : R)
    (contentTypes : option (list string)) (table : list VectorEmbedding) :
  (length (similar_rows query_ limit threshold contentTypes table) <= limit)%nat.
Proof. unfold similar_rows. apply firstn_le_length. Qed.

Lemma getAllVectorizedTools_outcome (env : Env) (serverNames : option (list string))
    (w : World) :
  exists tools_ w1,
    getAllVectorizedTools env serverNames w = (Returned tools_, w1)
    /\ (length tools_ <= 1000)%nat
    /\ vector_embeddings w1 = vector_embeddings w
    /\ Forall (fun s => schema_changing s = false) (drop (length (issued w)) (issued w1)).
Proof.
  destruct (shouldUseDatabase_cases EVectorEmbeddings w) as [[Hon _]|[Hoff Huse]].
  - destruct (getAllVectorizedTools_enabled env serverNames w Hon)
      as (width & _ & Hrun).
    cbv zeta in Hrun. rewrite Hrun. eexists. eexists. split; [reflexivity|].
    split; [|split].
    + destruct (rejects env _); [cbn; lia|].
      rewrite length_map.
      etransitivity; [apply length_filter_by_servers|].
      unfold search_results. rewrite length_map. apply length_similar_rows.
    + reflexivity.
    + cbn [after_sending set_issued issued]. rewrite <- app_assoc.
      rewrite drop_length_app. repeat constructor.
  - unfold getAllVectorizedTools. unfold bind at 1. rewrite Huse. cbn [negb].
    eexists. eexists. split; [reflexivity|]. split; [cbn; lia|].
    unfold settings_read. destruct (databaseConfig w);
      (split; [reflexivity|]); cbn [set_databaseConfig issued];
      rewrite drop_all; constructor.
Qed.

(** [getAllVectorizedTools] never throws: in every state and for every
    engine and parser it returns a list, of at most 1000 entries.  A
    refused width probe is absorbed, a refused similarity query gives the
    empty list.  It only reads: the rows of the table are as before and no
    schema-changing statement is sent. *)
Theorem getAllVectorizedTools_never_throws (env : Env)
    (serverNames : option (list string)) (w : World) :
  let run := getAllVectorizedTools env serverNames w in
  exists tools_,
    fst run = Returned tools_
    /\ (length tools_ <= 1000)%nat
    /\ vector_embeddings (snd run) = vector_embeddings w
    /\ Forall (fun s => schema_changing s = false)
         (sent_by (getAllVectorizedTools env serverNames) w)
    /\ (forall width,
          let statement :=
            SelectSimilar (replicate width 0%R) 1000 (-1)%R (Some ["tool"]) in
          In statement (sent_by (getAllVectorizedTools env serverNames) w) ->
          rejects env statement = true ->
          tools_ = []).
Proof.
  intros run.
  destruct (getAllVectorizedTools_outcome env serverNames w)
    as (tools_ & w1 & Hrun & Hlen & Hrows & Hsent).
  unfold sent_by, run. rewrite Hrun. exists tools_. cbn [fst snd].
  split; [reflexivity|]. split; [exact Hlen|]. split; [exact Hrows|].
  split; [exact Hsent|].
  intros width Hin Hrefused.
  destruct (shouldUseDatabase_cases EVectorEmbeddings w) as [[Hon _]|[Hoff Huse]].
  - destruct (getAllVectorizedTools_enabled env serverNames w Hon)
      as (width0 & _ & Hrun0).
    cbv zeta in Hrun0. rewrite Hrun in Hrun0. injection Hrun0 as Htools Hstate.
    rewrite Hstate in Hin. cbn [after_sending set_issued issued] in Hin.
    rewrite <- app_assoc, drop_length_app in Hin.
    destruct Hin as [Hprobe|[Hquery|[]]]; [discriminate Hprobe|].
    rewrite Hquery, Hrefused in Htools. exact Htools.
  - unfold getAllVectorizedTools in Hrun. unfold bind at 1 in Hrun.
    rewrite Huse in Hrun. cbn [negb] in Hrun. injection Hrun as <- _. reflexivity.
Qed.

(** [GET /tools] always answers with a listing: its 500 answer is never
    sent.  The listing carries the list the service returned, [total] is
    its length, at most 1000, and [servers] echoes the names read from the
    request. *)
Theorem getAllTools_always_lists (env : Env) (servers : qsval) (w : World) :
  exists tools_ w1,
    getAllVectorizedTools env (serverNames_of servers) w = (Returned tools_, w1)
    /\ getAllTools env servers w
       = (Returned (ToolsListed tools_ (length tools_) (serverNames_of servers)), w1)
    /\ (length tools_ <= 1000)%nat.
Proof.
  destruct (getAllVectorizedTools_outcome env (serverNames_of servers) w)
    as (tools_ & w1 & Hrun & Hlen & _).
  exists tools_, w1. split; [exact Hrun|]. split; [|exact Hlen].
  unfold getAllTools, try_catch, bind. rewrite Hrun. reflexivity.
Qed.

(** The statements of a listing, with database routing on: the width
    probe, then one similarity query with a zero vector, limit 1000 and
    threshold -1 over the content type [tool].  The width of the zero
    vector is the model's default when the probe is refused, when the
    column has no width yet or when the catalog value is 4 or less;
    otherwise it is the catalog value minus 4. *)
Theorem getAllVectorizedTools_statements (env : Env)
    (serverNames : option (list string)) (w : World) :
  database_enabled w ->
  exists width,
    sent_by (getAllVectorizedTools env serverNames) w
    = [SelectTypmod; SelectSimilar (replicate width 0%R) 1000 (-1)%R (Some ["tool"])]
    /\ (rejects env SelectTypmod = true -> width = DEFAULT_DIMENSIONS env)
    /\ (atttypmod w = None -> width = DEFAULT_DIMENSIONS env)
    /\ (forall t, atttypmod w = Some t -> (t <= 4)%Z -> width = DEFAULT_DIMENSIONS env)
    /\ (forall t, rejects env SelectTypmod = false -> atttypmod w = Some t ->
          (4 < t)%Z -> Z.of_nat width = (t - 4)%Z).
Proof.
  intros Hon.
  destruct (getAllVectorizedTools_enabled env serverNames w Hon)
    as (width & Hwidth & Hrun).
  cbv zeta in Hrun. exists width. split.
  { unfold sent_by. rewrite Hrun. cbn [snd after_sending set_issued issued].
    rewrite <- app_assoc. apply drop_length_app. }
  rewrite dimensionsToUse_outcome in Hwidth. cbn [fst] in Hwidth.
  injection Hwidth as Hwidth.
  repeat split.
  - intros Hprobe. rewrite Hprobe in Hwidth. now subst.
  - intros Hnone. rewrite Hnone in Hwidth. cbn in Hwidth.
    destruct (rejects env SelectTypmod); now subst.
  - intros t Ht Hsmall. rewrite Ht in Hwidth. unfold current_dimensions in Hwidth.
    change (option_list (Some t)) with [t] in Hwidth.
    cbv beta iota in Hwidth. revert Hwidth.
    destruct (rejects env SelectTypmod); [now intros <-|].
    destruct (Z.eqb_spec t 0); [now intros <-|].
    destruct (Z.ltb_spec 0 t); [|now intros <-].
    destruct (Z.ltb_spec 0 (t - 4)); [lia | now intros <-].
  - intros t Hprobe Ht Hlarge. rewrite Hprobe, Ht in Hwidth.
    unfold current_dimensions in Hwidth.
    change (option_list (Some t)) with [t] in Hwidth.
    cbv beta iota in Hwidth. revert Hwidth.
    destruct (Z.eqb_spec t 0); [lia|].
    destruct (Z.ltb_spec 0 t); [|lia].
    destruct (Z.ltb_spec 0 (t - 4)); [|lia]. intros <-. cbv iota. lia.
Qed.

Lemma getAllVectorizedTools_statements_witness :
  sent_by (getAllVectorizedTools Sample.env_down None) Sample.world
  = [SelectTypmod;
     SelectSimilar (replicate FALLBACK_DIMENSIONS 0%R) 1000 (-1)%R (Some ["tool"])].
Proof.
  assert (Hon : database_enabled Sample.world).
  { exists {| db_enabled := true; migrationCompleted := true |}. split; reflexivity. }
  destruct (getAllVectorizedTools_statements Sample.env_down None Sample.world Hon)
    as (width & Hsent & Hprobe & _).
  rewrite Hsent, (Hprobe eq_refl). reflexivity.
Defined.

Lemma get_after_get (field1 field2 : string) (document found : jsval) :
  Js.get field1 document = Some found -> exists v, Js.get field2 document = Some v.
Proof. destruct document; cbn; intros H; try discriminate; eauto. Qed.

(** With server names given, every listed tool names one of them: the
    entries come only from rows whose metadata parses to a document with a
    requested [serverName], and each carries the fields of that document.
    The placeholder entry [unknown] is never listed under a filter. *)
Theorem getAllVectorizedTools_server_filter (env : Env) (first_name : string)
    (other_names : list string) (w : World) :
  let names := first_name :: other_names in
  exists tools_,
    fst (getAllVectorizedTools env (Some names) w) = Returned tools_
    /\ Forall (fun listed =>
         exists row text document name_,
           In row (vector_embeddings w)
           /\ content_type row = "tool"
           /\ raw_metadata env (metadata row) = JStr text
           /\ JSON_parse env text = Some document
           /\ Js.get "serverName" document = Some (JStr name_)
           /\ In name_ names
           /\ Listed.serverName listed = JStr name_
           /\ Js.get "toolName" document = Some (Listed.toolName listed)
           /\ Js.get "description" document = Some (Listed.description listed)
           /\ Js.get "inputSchema" document = Some (Listed.inputSchema listed))
         tools_.
Proof.
  intros names.
  destruct (shouldUseDatabase_cases EVectorEmbeddings w) as [[Hon _]|[Hoff Huse]].
  2:{ unfold getAllVectorizedTools. unfold bind at 1. rewrite Huse.
      exists []. split; [reflexivity | constructor]. }
  destruct (getAllVectorizedTools_enabled env (Some names) w Hon)
    as (width & _ & Hrun).
  cbv zeta in Hrun. rewrite Hrun. cbn [fst]. eexists. split; [reflexivity|].
  destruct (rejects env _); [constructor|].
  apply List.Forall_forall. intros listed Hin.
  apply in_map_iff in Hin as (result & <- & Hin).
  unfold filter_by_servers, names in Hin. apply filter_In in Hin as [Hin Hallowed].
  apply allowed_server_spec in Hallowed
    as (text & document & name_ & Hmeta & Hparse & Hget & Hname).
  unfold search_results in Hin. apply in_map_iff in Hin as (raw & <- & Hraw).
  apply in_similar_rows_inv in Hraw as (Hrow & _ & _ & Htype).
  cbn [result_embedding mapRawToEntity metadata] in Hmeta.
  destruct (get_after_get "serverName" "toolName" _ _ Hget) as [toolName_ HtoolName].
  destruct (get_after_get "serverName" "description" _ _ Hget) as [description_ Hdesc].
  destruct (get_after_get "serverName" "inputSchema" _ _ Hget) as [schema_ Hschema].
  exists (result_embedding raw), text, document, name_.
  unfold to_listed_tool. cbn [result_embedding mapRawToEntity metadata].
  rewrite Hmeta, Hparse, Hget, HtoolName, Hdesc, Hschema.
  cbn [content_type_selected] in Htype. unfold JsString.includes in Htype.
  cbn [existsb orb] in Htype. rewrite orb_false_r in Htype.
  apply String.eqb_eq in Htype.
  repeat split; auto.
Qed.

(** ** The offline vector has length one *)

Lemma split_ws_from_nonempty (cur : string) (in_ws : bool) (s : string) :
  JsString.split_ws_from cur in_ws s <> [].
Proof.
  revert cur in_ws. induction s as [|c rest IH]; intros cur in_ws; cbn.
  - discriminate.
  - destruct (JsString.is_whitespace c); [destruct in_ws|]; try apply IH.
    discriminate.
Qed.

Lemma add_at_nonneg (i : nat) (d : Q) (vector : list Q) :
  (0 <= d)%Q ->
  Forall (fun q => (0 <= q)%Q) vector ->
  Forall (fun q => (0 <= q)%Q) (add_at i d vector).
Proof.
  intros Hd Hall. revert i.
  induction Hall as [|q rest Hq Hrest IH]; intros [|i]; cbn;
    constructor; auto.
  - change 0%Q with (0 + 0)%Q. now apply Qplus_le_compat.
  - apply IH.
Qed.

Lemma add_at_positive (i : nat) (d : Q) (vector : list Q) :
  (0 < d)%Q ->
  (i < length vector)%nat ->
  Forall (fun q => (0 <= q)%Q) vector ->
  Exists (fun q => (0 < q)%Q) (add_at i d vector).
Proof.
  intros Hd Hi Hall. revert i Hi.
  induction Hall as [|q rest Hq Hrest IH]; intros [|i] Hi; cbn in *; try lia.
  - apply Exists_cons_hd.
    apply Qlt_le_trans with (y := (0 + d)%Q); [now rewrite Qplus_0_l|].
    apply Qplus_le_compat; [exact Hq | apply Qle_refl].
  - apply Exists_cons_tl. apply IH. lia.
Qed.

Lemma counted_nonneg (vector : list Q) (word : string) :
  Forall (fun q => (0 <= q)%Q) vector ->
  Forall (fun q => (0 <= q)%Q)
    (match JsString.indexOf word vocabulary with
     | Some index =>
         if (index <? length vector)%nat then add_at index 1 vector else vector
     | None => vector
     end).
Proof.
  intros Hall. destruct (JsString.indexOf word vocabulary) as [index|]; [|exact Hall].
  destruct (index <? length vector)%nat; [|exact Hall].
  apply add_at_nonneg; [discriminate | exact Hall].
Qed.

Lemma count_word_nonneg (vector : list Q) (word : string) :
  Forall (fun q => (0 <= q)%Q) vector ->
  Forall (fun q => (0 <= q)%Q) (count_word vector word).
Proof.
  intros Hall. unfold count_word.
  apply add_at_nonneg; [discriminate | now apply counted_nonneg].
Qed.

Lemma count_word_positive (vector : list Q) (word : string) :
  (0 < length vector)%nat ->
  Forall (fun q => (0 <= q)%Q) vector ->
  Exists (fun q => (0 < q)%Q) (count_word vector word).
Proof.
  intros Hlen Hall. unfold count_word.
  set (counted := match JsString.indexOf word vocabulary with
                  | Some index =>
                      if (index <? length vector)%nat then add_at index 1 vector
                      else vector
                  | None => vector
                  end).
  assert (Hcounted : length counted = length vector).
  { unfold counted. destruct (JsString.indexOf word vocabulary) as [index|];
      [|reflexivity].
    destruct (index <? length vector)%nat; [apply length_add_at | reflexivity]. }
  apply add_at_positive.
  - reflexivity.
  - apply hash_slot_in_range. lia.
  - now apply counted_nonneg.
Qed.

Lemma fold_count_word_nonneg (words : list string) (vector : list Q) :
  Forall (fun q => (0 <= q)%Q) vector ->
  Forall (fun q => (0 <= q)%Q) (fold_left count_word words vector).
Proof.
  revert vector. induction words as [|word rest IH]; intros vector Hall; cbn.
  - exact Hall.
  - apply IH. now apply count_word_nonneg.
Qed.

Lemma replicate_zero_nonneg (n : nat) : Forall (fun q => (0 <= q)%Q) (replicate n 0%Q).
Proof. induction n; cbn; constructor; [discriminate | assumption]. Qed.

(** Every text leaves a mark: the last word read adds 1/10 at its hash
    slot, and nothing is ever subtracted. *)
Lemma bag_of_words_positive (text : string) :
  Forall (fun q => (0 <= q)%Q) (bag_of_words text)
  /\ Exists (fun q => (0 < q)%Q) (bag_of_words text).
Proof.
  unfold bag_of_words. split.
  - apply fold_count_word_nonneg, replicate_zero_nonneg.
  - destruct (exists_last
                (split_ws_from_nonempty EmptyString false (JsString.toLowerCase text)))
      as (words & word & Hwords).
    unfold JsString.split_whitespace. rewrite Hwords, fold_left_app. cbn [fold_left].
    apply count_word_positive.
    + rewrite length_fold_count_word, length_replicate. unfold FALLBACK_DIMENSIONS. lia.
    + apply fold_count_word_nonneg, replicate_zero_nonneg.
Qed.

Lemma sum_of_squares_from (vector : list R) (sum : R) :
  fold_left (fun sum val => (sum + val * val)%R) vector sum
  = (sum + sum_of_squares vector)%R.
Proof.
  unfold sum_of_squares. revert sum.
  induction vector as [|val rest IH]; intros sum; cbn.
  - lra.
  - rewrite IH, (IH (0 + val * val)%R). lra.
Qed.

Lemma sum_of_squares_cons (val : R) (rest : list R) :
  sum_of_squares (val :: rest) = (val * val + sum_of_squares rest)%R.
Proof.
  unfold sum_of_squares at 1. cbn [fold_left]. rewrite sum_of_squares_from. lra.
Qed.

Lemma sum_of_squares_nonneg (vector : list R) : (0 <= sum_of_squares vector)%R.
Proof.
  induction vector as [|val rest IH]; [unfold sum_of_squares; cbn; lra|].
  rewrite sum_of_squares_cons. pose proof (Rle_0_sqr val) as Hsq.
  unfold Rsqr in Hsq. lra.
Qed.

Lemma sum_of_squares_positive (vector : list R) :
  Exists (fun val => (0 < val)%R) vector -> (0 < sum_of_squares vector)%R.
Proof.
  induction 1 as [val rest Hval|val rest _ IH]; rewrite sum_of_squares_cons.
  - pose proof (sum_of_squares_nonneg rest).
    pose proof (Rmult_lt_0_compat val val Hval Hval). lra.
  - pose proof (Rle_0_sqr val) as Hsq. unfold Rsqr in Hsq. lra.
Qed.

Lemma sum_of_squares_scaled (vector : list R) (magnitude : R) :
  magnitude <> 0%R ->
  sum_of_squares (map (fun val => (val / magnitude)%R) vector)
  = (sum_of_squares vector / (magnitude * magnitude))%R.
Proof.
  intros Hm. induction vector as [|val rest IH]; cbn [map].
  - unfold sum_of_squares. cbn. field. exact Hm.
  - rewrite !sum_of_squares_cons, IH. field. exact Hm.
Qed.

Lemma dot_self (vector : list R) : dot vector vector = sum_of_squares vector.
Proof.
  induction vector as [|val rest IH]; [reflexivity|].
  cbn [dot]. rewrite sum_of_squares_cons, IH. reflexivity.
Qed.

Lemma magnitude_positive (text : string) :
  (0 < sum_of_squares (map Q2R (bag_of_words text)))%R.
Proof.
  destruct (bag_of_words_positive text) as [_ Hpos].
  apply sum_of_squares_positive. apply List.Exists_exists in Hpos as (q & Hin & Hq).
  apply List.Exists_exists. exists (Q2R q). split; [now apply in_map|].
  rewrite <- RMicromega.Q2R_0. now apply Qreals.Qlt_Rlt.
Qed.

Lemma sum_of_squares_fallback (text : string) :
  sum_of_squares (generateFallbackEmbedding text) = 1%R.
Proof.
  unfold generateFallbackEmbedding, normalize.
  pose proof (magnitude_positive text) as Hsum.
  pose proof (sqrt_lt_R0 _ Hsum) as Hmagnitude.
  destruct (Rlt_dec 0 (sqrt (sum_of_squares (map Q2R (bag_of_words text)))))
    as [_|Hzero]; [|contradiction].
  rewrite sum_of_squares_scaled by lra.
  rewrite sqrt_sqrt by lra. field. lra.
Qed.

Lemma similarity_to_itself (vector : list R) :
  sum_of_squares vector = 1%R -> (1 - cosine_distance vector vector)%R = 1%R.
Proof.
  intros Hunit. unfold cosine_distance, norm.
  rewrite dot_self, Hunit, sqrt_1. field.
Qed.

(** Over the reals (rounding is not modelled) the offline vectorizer
    returns a vector of Euclidean length one for every text, the empty
    text included: each word, also the empty word
    an empty text splits into, adds 1/10 at its hash slot, so the
    magnitude is positive and the branch that would return the vector
    unscaled is never taken.  Hence the vector is never the zero vector,
    and its cosine similarity to itself is 1. *)
Theorem fallback_embedding_unit_length (text : string) :
  sum_of_squares (generateFallbackEmbedding text) = 1%R
  /\ norm (generateFallbackEmbedding text) = 1%R
  /\ generateFallbackEmbedding text
     = map (fun val => (val / sqrt (sum_of_squares (map Q2R (bag_of_words text))))%R)
         (map Q2R (bag_of_words text))
  /\ generateFallbackEmbedding text <> replicate FALLBACK_DIMENSIONS 0%R
  /\ (1 - cosine_distance (generateFallbackEmbedding text)
            (generateFallbackEmbedding text))%R = 1%R.
Proof.
  pose proof (sum_of_squares_fallback text) as Hunit.
  split; [exact Hunit|]. split; [|split; [|split]].
  - unfold norm. rewrite dot_self, Hunit. apply sqrt_1.
  - unfold generateFallbackEmbedding, normalize.
    destruct (Rlt_dec _ _) as [_|Hzero]; [reflexivity|].
    exfalso. apply Hzero. apply sqrt_lt_R0, magnitude_positive.
  - intros Hzero. rewrite Hzero in Hunit.
    assert (Hnull : forall n, sum_of_squares (replicate n 0%R) = 0%R).
    { induction n as [|n IH]; [reflexivity|].
      cbn [replicate]. rewrite sum_of_squares_cons, IH. lra. }
    rewrite Hnull in Hunit. lra.
  - now apply similarity_to_itself.
Qed.

(** ** The first revision of the service *)

Lemma first_revision_ingest_each_app (env : Env) (serverName_ : string)
    (before after : list ToolInfo) (w : World) :
  FirstRevision.ingest_each env serverName_ (before ++ after) w
  = match FirstRevision.ingest_each env serverName_ before w with
    | (Returned _, w1) => FirstRevision.ingest_each env serverName_ after w1
    | (Thrown e, w1) => (Thrown e, w1)
    end.
Proof.
  revert w. induction before as [|tool rest IH]; intros w; [reflexivity|].
  cbn [app FirstRevision.ingest_each]. unfold bind.
  destruct (FirstRevision.ingest_tool env serverName_ tool w) as [[[]|e] w1];
    [apply IH | reflexivity].
Qed.

(** A tool whose ingestion throws leaves the rows as they were. *)
Lemma first_revision_failed_tool_stores_nothing (env : Env) (serverName_ : string)
    (tool : ToolInfo) (w : World) (e : exn) :
  fst (FirstRevision.ingest_tool env serverName_ tool w) = Thrown e ->
  vector_embeddings (snd (FirstRevision.ingest_tool env serverName_ tool w))
  = vector_embeddings w.
Proof.
  unfold FirstRevision.ingest_tool, saveEmbedding, findByContentIdentity, save,
    bind, gets, ret, query.
  destruct (rejects env (FindOne _ _)); [reflexivity|].
  cbn [apply_stmt set_issued vector_embeddings issued fst snd].
  match goal with |- context [rejects env ?s] => destruct (rejects env s) end;
    [reflexivity | discriminate].
Qed.

(** In the first revision the loop over the tools has no [try] of its
    own.  With database routing on, if the tools before one are ingested
    and that one throws, the batch call still returns, but it ends there:
    the final state is the state the failure left, whatever tools follow,
    so none of them is looked at, and the rows are those the tools before
    stored. *)
Theorem first_revision_failure_ends_batch (env : Env) (serverName_ : string)
    (before after : list ToolInfo) (tool : ToolInfo) (w : World) (e : exn) :
  let reached := FirstRevision.ingest_each env serverName_ before w in
  let failed := FirstRevision.ingest_tool env serverName_ tool (snd reached) in
  database_enabled w ->
  fst reached = Returned tt ->
  fst failed = Thrown e ->
  FirstRevision.saveToolsAsVectorEmbeddings env serverName_ (before ++ tool :: after) w
  = (Returned tt, snd failed)
  /\ vector_embeddings (snd failed) = vector_embeddings (snd reached)
  /\ sent_by (FirstRevision.saveToolsAsVectorEmbeddings env serverName_
                (before ++ tool :: after)) w
     = sent_by (FirstRevision.saveToolsAsVectorEmbeddings env serverName_
                  (before ++ [tool])) w.
Proof.
  intros reached failed Hon Hreached Hfailed.
  assert (Hbatch : forall rest,
            FirstRevision.saveToolsAsVectorEmbeddings env serverName_
              (before ++ tool :: rest) w = (Returned tt, snd failed)).
  { intros rest. unfold FirstRevision.saveToolsAsVectorEmbeddings. unfold bind at 1.
    rewrite (shouldUseDatabase_enabled _ _ Hon). cbn [negb].
    unfold try_catch. rewrite first_revision_ingest_each_app.
    fold reached. destruct reached as [[[]|e0] w1]; cbn [fst] in Hreached;
      [|discriminate].
    cbn [FirstRevision.ingest_each]. unfold bind.
    cbn [snd] in failed. fold failed.
    destruct failed as [[[]|e1] w2]; cbn [fst] in Hfailed; [discriminate|].
    reflexivity. }
  split; [apply Hbatch|]. split.
  - apply (first_revision_failed_tool_stores_nothing _ _ _ _ _ Hfailed).
  - unfold sent_by. now rewrite !Hbatch.
Qed.

Lemma first_revision_failure_witness :
  let batch :=
    FirstRevision.saveToolsAsVectorEmbeddings Sample.batch_env "weather"
      ([Sample.forecast] ++ Sample.alerts :: [Sample.radar]) Sample.world in
  fst batch = Returned tt
  /\ map content_id (vector_embeddings (snd batch)) = ["weather:getForecast"].
Proof.
  assert (Hon : database_enabled Sample.world).
  { exists {| db_enabled := true; migrationCompleted := true |}. split; reflexivity. }
  assert (Hreached : fst (FirstRevision.ingest_each Sample.batch_env "weather"
                            [Sample.forecast] Sample.world) = Returned tt)
    by (vm_compute; reflexivity).
  assert (Hfailed : fst (FirstRevision.ingest_tool Sample.batch_env "weather"
                           Sample.alerts
                           (snd (FirstRevision.ingest_each Sample.batch_env "weather"
                                   [Sample.forecast] Sample.world)))
                    = Thrown (Error "query failed"))
    by (vm_compute; reflexivity).
  destruct (first_revision_failure_ends_batch Sample.batch_env "weather"
              [Sample.forecast] [Sample.radar] Sample.alerts Sample.world
              (Error "query failed") Hon Hreached Hfailed)
    as (Hbatch & Hrows & _).
  cbv zeta. rewrite Hbatch. split; [reflexivity|].
  cbn [snd]. rewrite Hrows. vm_compute. reflexivity.
Defined.

Lemma filter_throwing_throws {A} (callback : A -> option bool) (l : list A) (x : A) :
  In x l -> callback x = None -> filter_throwing callback l = None.
Proof.
  induction l as [|y rest IH]; intros Hin Hx; [destruct Hin|].
  cbn [filter_throwing]. destruct Hin as [->|Hin].
  - now rewrite Hx.
  - destruct (callback y); [|reflexivity]. now rewrite (IH Hin Hx).
Qed.

Lemma map_throwing_throws {A B} (callback : A -> option B) (l : list A) (x : A) :
  In x l -> callback x = None -> map_throwing callback l = None.
Proof.
  induction l as [|y rest IH]; intros Hin Hx; [destruct Hin|].
  cbn [map_throwing]. destruct Hin as [->|Hin].
  - now rewrite Hx.
  - destruct (callback y); [|reflexivity]. now rewrite (IH Hin Hx).
Qed.

Lemma map_throwing_returns {A B} (callback : A -> option B) (l : list A) :
  Forall (fun x => callback x <> None) l ->
  exists ys, map_throwing callback l = Some ys /\ length ys = length l.
Proof.
  induction 1 as [|x rest Hx _ (ys & Hys & Hlen)]; cbn [map_throwing].
  - now exists [].
  - destruct (callback x) as [y|]; [|contradiction].
    rewrite Hys. exists (y :: ys). cbn. auto.
Qed.

(** In the first revision a single stored tool without metadata hides
    every match.  With database routing on, if one of the rows the
    similarity query returns has a metadata that is [null] or [undefined],
    reading its [serverName] throws, no [try] surrounds the single result,
    and the search returns the empty list -- with or without server
    names, and whatever the other rows are. *)
Theorem first_revision_search_emptied_by_missing_metadata (env : Env)
    (query_ : string) (limit : nat) (threshold : R)
    (serverNames : option (list string)) (w : World) (result : SearchResult) :
  database_enabled w ->
  In result
     (search_results env
        (similar_rows (generateFallbackEmbedding query_) limit threshold
           (Some ["tool"]) (vector_embeddings w))) ->
  Js.get "serverName" (metadata (result_embedding result)) = None ->
  fst (FirstRevisionSearch.searchToolsByVector env query_ limit threshold
         serverNames w)
  = Returned [].
Proof.
  intros Hon Hin Hmissing.
  unfold FirstRevisionSearch.searchToolsByVector. unfold bind at 1.
  rewrite (shouldUseDatabase_enabled _ _ Hon). cbn [negb].
  unfold try_catch. unfold bind at 1.
  unfold searchByText, FirstRevisionSearch.generateEmbedding, ret at 1.
  rewrite searchSimilar_outcome.
  destruct (rejects env _); [reflexivity|].
  assert (Hmap : forall l, In result l ->
            map_throwing FirstRevisionSearch.to_tool_match l = None).
  { intros l Hl. apply (map_throwing_throws _ _ result Hl).
    unfold FirstRevisionSearch.to_tool_match. now rewrite Hmissing. }
  destruct serverNames as [[|first_name others]|]; unfold bind, or_type_error, ret.
  - now rewrite (Hmap _ Hin).
  - rewrite (filter_throwing_throws _ _ result Hin); [reflexivity|].
    unfold FirstRevisionSearch.names_server. now rewrite Hmissing.
  - now rewrite (Hmap _ Hin).
Qed.

Lemma first_revision_search_witness :
  fst (FirstRevisionSearch.searchToolsByVector Sample.env "weather" 10 (1 / 2)%R None
         (Sample.world_with
            [Scenario.bare_row "weather";
             Sample.row "weather:getForecast" (generateFallbackEmbedding "weather")
               Sample.weather_document]))
  = Returned [].
Proof.
  assert (Hon : database_enabled
                  (Sample.world_with
                     [Scenario.bare_row "weather";
                      Sample.row "weather:getForecast"
                        (generateFallbackEmbedding "weather")
                        Sample.weather_document])).
  { exists {| db_enabled := true; migrationCompleted := true |}. split; reflexivity. }
  apply (first_revision_search_emptied_by_missing_metadata Sample.env "weather" 10
           (1 / 2)%R None _
           {| result_embedding := mapRawToEntity Sample.env (Scenario.bare_row "weather");
              similarity := similarity (score (generateFallbackEmbedding "weather")
                                          (Scenario.bare_row "weather")) |} Hon).
  - unfold search_results.
    apply (in_map (fun row => {| result_embedding :=
                                   mapRawToEntity Sample.env (result_embedding row);
                                 similarity := similarity row |})
             _ (score (generateFallbackEmbedding "weather")
                  (Scenario.bare_row "weather"))).
    apply similar_rows_complete.
    + now left.
    + cbn. lia.
    + cbn [score similarity Scenario.bare_row embedding].
      rewrite (similarity_to_itself _ (sum_of_squares_fallback "weather")). lra.
    + reflexivity.
  - reflexivity.
Defined.

(** ** The reconciler and the encoding of the catalog *)

(** The reconciler reads the catalog value as the width plus 4.  Against
    a catalog that reports the width itself, a column that already has
    the needed width is never found in agreement: every call drops the
    index, alters the column and creates the index again, and leaves the
    catalog value as it found it -- so the next call starts from the same
    situation. *)
Theorem reconciler_migrates_again_under_plain_typmod (env : Env)
    (dimensionsNeeded : Z) (w : World) :
  (forall n, typmod_of env n = n) ->
  (forall s, rejects env s = false) ->
  isInitialized w = true ->
  atttypmod w = Some dimensionsNeeded ->
  (0 < dimensionsNeeded)%Z ->
  let run := checkDatabaseVectorDimensions env dimensionsNeeded w in
  fst run = Returned tt
  /\ sent_by (checkDatabaseVectorDimensions env dimensionsNeeded) w
     = [SelectTypmod; DropIndex; AlterWidth dimensionsNeeded; CreateIndex ivfflat]
  /\ isInitialized (snd run) = true
  /\ atttypmod (snd run) = Some dimensionsNeeded
  /\ vector_index (snd run) = Some ivfflat
  /\ vector_embeddings (snd run) = vector_embeddings w.
Proof.
  intros Hplain Haccepts Hinit Hwidth Hpositive run.
  assert (Hrun : run
                 = (Returned tt,
                    apply_stmt env (CreateIndex ivfflat)
                      (after_sending (CreateIndex ivfflat)
                         (apply_stmt env (AlterWidth dimensionsNeeded)
                            (after_sending (AlterWidth dimensionsNeeded)
                               (apply_stmt env DropIndex
                                  (after_sending DropIndex
                                     (after_sending SelectTypmod w)))))))).
  { unfold run, checkDatabaseVectorDimensions, select_typmod, try_catch, bind,
      gets, ret.
    rewrite Hinit. cbn [negb]. rewrite (query_accepted _ _ _ (Haccepts _)).
    cbn [apply_stmt after_sending set_issued atttypmod]. rewrite Hwidth.
    change (option_list (Some dimensionsNeeded)) with [dimensionsNeeded].
    unfold current_dimensions.
    destruct (Z.eqb_spec dimensionsNeeded 0) as [|_]; [lia|].
    destruct (Z.ltb_spec 0 dimensionsNeeded) as [_|]; [|lia].
    destruct (Z.eqb_spec (dimensionsNeeded - 4) 0) as [_|_]; cbn [orb negb].
    - rewrite !(query_accepted _ _ _ (Haccepts _)). reflexivity.
    - destruct (Z.eqb_spec (dimensionsNeeded - 4) dimensionsNeeded) as [|_]; [lia|].
      cbn [negb]. rewrite !(query_accepted _ _ _ (Haccepts _)). reflexivity. }
  unfold sent_by. fold run. rewrite Hrun. cbn [fst snd].
  cbn [apply_stmt after_sending set_issued set_atttypmod set_vector_index
         issued atttypmod vector_index isInitialized vector_embeddings].
  rewrite Hplain, Hinit.
  repeat split.
  rewrite <- !app_assoc. apply drop_length_app.
Qed.

Lemma reconciler_migrates_again_witness :
  sent_by (checkDatabaseVectorDimensions Sample.env_plain_typmod 100)
    (set_atttypmod (Some 100%Z) Sample.world)
  = [SelectTypmod; DropIndex; AlterWidth 100; CreateIndex ivfflat]
  /\ atttypmod (snd (checkDatabaseVectorDimensions Sample.env_plain_typmod 100
                       (set_atttypmod (Some 100%Z) Sample.world)))
     = Some 100%Z.
Proof.
  destruct (reconciler_migrates_again_under_plain_typmod Sample.env_plain_typmod 100
              (set_atttypmod (Some 100%Z) Sample.world)
              (fun n => eq_refl) (fun s => eq_refl) eq_refl eq_refl ltac:(lia))
    as (_ & Hsent & _ & Hwidth & _).
  split; [exact Hsent | exact Hwidth].
Defined.

(** ** The width of a model *)

(** [getDimensionsForModel] answers 1024, 1536 or 100, and 100 exactly
    for the two model names [fallback] and [simple-hash].  The offline
    vectorizer always produces 100 components, so its width agrees with the
    width derived from the model name for those two names only: under any
    other name, the default one included, the vectors stored without an
    embedding service are narrower than the default width. *)
Theorem offline_width_is_the_model_width_only_for_fallback_models (model_ text : string) :
  In (getDimensionsForModel model_)
     [BGE_DIMENSIONS; EMBEDDING_DIMENSIONS; FALLBACK_DIMENSIONS]
  /\ (getDimensionsForModel model_ = FALLBACK_DIMENSIONS
      <-> model_ = "fallback" \/ model_ = "simple-hash")
  /\ (length (generateFallbackEmbedding text) = getDimensionsForModel model_
      <-> model_ = "fallback" \/ model_ = "simple-hash")
  /\ getDimensionsForModel "text-embedding-3-small" = EMBEDDING_DIMENSIONS.
Proof.
  assert (Hiff : getDimensionsForModel model_ = FALLBACK_DIMENSIONS
                 <-> model_ = "fallback" \/ model_ = "simple-hash").
  { split.
    - unfold getDimensionsForModel.
      destruct (string_includes "bge-m3" model_); [discriminate|].
      destruct (string_includes "text-embedding-3" model_); [discriminate|].
      destruct (String.eqb_spec model_ "fallback") as [->|_]; [now left|].
      destruct (String.eqb_spec model_ "simple-hash") as [->|_]; [now right|].
      discriminate.
    - intros [->| ->]; reflexivity. }
  split; [|split; [exact Hiff|split; [|reflexivity]]].
  - unfold getDimensionsForModel.
    destruct (string_includes "bge-m3" model_); [now left|].
    destruct (string_includes "text-embedding-3" model_); [right; now left|].
    destruct (_ || _); [right; right; now left | right; now left].
  - rewrite length_generateFallbackEmbedding. rewrite <- Hiff.
    split; intros H; now rewrite H.
Qed.

(** ** The server names of a request *)

Lemma append_nil_r (s : string) : s ++ "" = s.
Proof.
  induction s as [|c rest IH]; [reflexivity|].
  rewrite append_cons. f_equal. exact IH.
Qed.

Lemma append_assoc (s1 s2 s3 : string) : s1 ++ (s2 ++ s3) = (s1 ++ s2) ++ s3.
Proof.
  induction s1 as [|c rest IH]; [reflexivity|].
  rewrite !append_cons. f_equal. exact IH.
Qed.

Lemma rev_string_app (acc s : string) :
  JsString.rev_string acc s = JsString.rev_string EmptyString s ++ acc.
Proof.
  revert acc. induction s as [|c rest IH]; intros acc; cbn [JsString.rev_string].
  - reflexivity.
  - rewrite IH, (IH (String c EmptyString)).
    rewrite <- append_assoc. reflexivity.
Qed.

Lemma rev_string_append (s1 s2 : string) :
  JsString.rev_string EmptyString (s1 ++ s2)
  = JsString.rev_string EmptyString s2 ++ JsString.rev_string EmptyString s1.
Proof.
  induction s1 as [|c rest IH].
  - change ("" ++ s2) with s2. cbn [JsString.rev_string]. now rewrite append_nil_r.
  - rewrite append_cons. cbn [JsString.rev_string].
    rewrite rev_string_app, IH, (rev_string_app (String c EmptyString) rest).
    now rewrite append_assoc.
Qed.

Lemma rev_string_involutive (s : string) :
  JsString.rev_string EmptyString (JsString.rev_string EmptyString s) = s.
Proof.
  induction s as [|c rest IH]; [reflexivity|].
  cbn [JsString.rev_string]. rewrite (rev_string_app (String c EmptyString) rest).
  rewrite rev_string_append, IH. reflexivity.
Qed.

(** A string that is empty or starts with a code unit that is not
    whitespace. *)
Lemma trim_start_fixed (s : string) :
  match s with
  | EmptyString => True
  | String c _ => JsString.is_whitespace c = false
  end ->
  JsString.trim_start s = s.
Proof.
  destruct s as [|c rest]; [reflexivity|]. intros Hc.
  unfold JsString.trim_start. cbn [JsString.span]. now rewrite Hc.
Qed.

Lemma trim_start_starts_clean (s : string) :
  match JsString.trim_start s with
  | EmptyString => True
  | String c _ => JsString.is_whitespace c = false
  end.
Proof.
  unfold JsString.trim_start. induction s as [|c rest IH]; [exact I|].
  cbn [JsString.span]. destruct (JsString.is_whitespace c) eqn:Hc.
  - destruct (JsString.span JsString.is_whitespace rest). exact IH.
  - cbn. exact Hc.
Qed.

Lemma trim_start_idempotent (s : string) :
  JsString.trim_start (JsString.trim_start s) = JsString.trim_start s.
Proof. apply trim_start_fixed, trim_start_starts_clean. Qed.

Lemma trim_start_keeps_last (s : string) (c : ascii) :
  JsString.is_whitespace c = false ->
  exists kept,
    JsString.trim_start (s ++ String c EmptyString) = kept ++ String c EmptyString.
Proof.
  intros Hc. unfold JsString.trim_start. induction s as [|d rest IH].
  - exists EmptyString. change ("" ++ String c "") with (String c "").
    cbn [JsString.span]. now rewrite Hc.
  - rewrite append_cons. cbn [JsString.span].
    destruct (JsString.is_whitespace d).
    + destruct (JsString.span JsString.is_whitespace (rest ++ String c EmptyString)).
      exact IH.
    + exists (String d rest). reflexivity.
Qed.

Lemma trim_end_starts_clean (s : string) :
  match s with
  | EmptyString => True
  | String c _ => JsString.is_whitespace c = false
  end ->
  match JsString.trim_end s with
  | EmptyString => True
  | String c _ => JsString.is_whitespace c = false
  end.
Proof.
  destruct s as [|c rest]; [intros _; exact I|]. intros Hc.
  unfold JsString.trim_end. cbn [JsString.rev_string].
  rewrite (rev_string_app (String c EmptyString) rest).
  destruct (trim_start_keeps_last (JsString.rev_string EmptyString rest) c Hc)
    as [kept ->].
  rewrite rev_string_append. cbn. exact Hc.
Qed.

Lemma trim_end_idempotent (s : string) :
  JsString.trim_end (JsString.trim_end s) = JsString.trim_end s.
Proof.
  unfold JsString.trim_end.
  now rewrite rev_string_involutive, trim_start_idempotent.
Qed.

Lemma trim_idempotent (s : string) : JsString.trim (JsString.trim s) = JsString.trim s.
Proof.
  unfold JsString.trim.
  rewrite (trim_start_fixed (JsString.trim_end (JsString.trim_start s))).
  - apply trim_end_idempotent.
  - apply trim_end_starts_clean, trim_start_starts_clean.
Qed.

(** The server names the controller hands to the service are never empty
    and carry no whitespace at either end; a parameter that is absent,
    empty or not text gives no list.  A list may be empty -- every part of
    the parameter was blank -- and then the service does not filter. *)
Theorem serverNames_are_trimmed_and_nonempty (env : Env) (servers : qsval) :
  match serverNames_of servers with
  | Some names =>
      (servers <> QAbsent /\ servers <> QObject /\ servers <> QString "")
      /\ Forall (fun name_ => name_ <> "" /\ trimmed name_) names
      /\ (names = [] ->
          forall results, filter_by_servers env (Some names) results = results)
  | None =>
      servers = QAbsent \/ servers = QObject \/ servers = QString ""
  end.
Proof.
  assert (Hnames : forall parts,
            Forall (fun name_ => name_ <> "" /\ trimmed name_)
              (List.filter (fun s => negb (String.eqb s ""))
                 (map JsString.trim parts))).
  { intros parts. apply List.Forall_forall. intros name_ Hin.
    apply filter_In in Hin as [Hin Hnonempty].
    apply in_map_iff in Hin as (part & <- & _). split.
    - intros Hempty. rewrite Hempty in Hnonempty. discriminate.
    - apply trim_idempotent. }
  unfold serverNames_of. destruct servers as [|s|items|]; auto.
  - destruct (String.eqb_spec s "") as [->|Hs]; [auto|].
    split; [|split].
    + repeat split; try discriminate. intros [= ->]. contradiction.
    + apply Hnames.
    + intros -> results. reflexivity.
  - split; [|split].
    + repeat split; discriminate.
    + apply Hnames.
    + intros -> results. reflexivity.
Qed.

(** ** Reading a tool back from its text *)

Lemma concat_space_head (first : string) (rest : list string) :
  exists tail,
    String.concat " " (first :: rest) = first ++ tail
    /\ match tail with
       | EmptyString => True
       | String c _ => c = " "%char
       end.
Proof.
  destruct rest as [|second rest].
  - exists EmptyString. cbn. now rewrite append_nil_r.
  - exists (" " ++ String.concat " " (second :: rest)). split; reflexivity.
Qed.

(** The text embedded for a tool starts with the tool's name. *)
Lemma searchable_text_head (tool : ToolInfo) :
  tool_name tool <> "" ->
  exists tail,
    searchable_text tool = tool_name tool ++ tail
    /\ match tail with
       | EmptyString => True
       | String c _ => c = " "%char
       end.
Proof.
  intros Hname. unfold searchable_text. cbn [app List.filter].
  apply String.eqb_neq in Hname. rewrite Hname. cbn [negb].
  apply concat_space_head.
Qed.

(** When the metadata of a result gives no structured reading, the tool
    is read back from the embedded text.  For a row whose text is the one
    ingestion builds, the tool name read back is the tool's own name,
    provided the name is not empty and holds no whitespace.  The server
    name is not recovered: it is guessed from the part of the tool name
    before its first underscore, and is [unknown] for a name without
    underscore, whatever server the tool was stored under. *)
Theorem tool_name_is_read_back_from_text (env : Env) (tool : ToolInfo)
    (result : SearchResult) :
  tool_name tool <> "" ->
  no_whitespace (tool_name tool) = true ->
  text_content (result_embedding result) = searchable_text tool ->
  structured_match env result = None ->
  let found := to_tool_match env result in
  toolName found = JStr (tool_name tool)
  /\ searchableText found = searchable_text tool
  /\ match_similarity found = similarity result
  /\ inputSchema found = JObj []
  /\ (no_underscore (tool_name tool) = true -> serverName found = JStr "unknown").
Proof.
  intros Hname Hclean Htext Hnone found.
  destruct (searchable_text_head tool Hname) as (tail & Hhead & Htail).
  assert (Hspan : JsString.span (fun c => negb (JsString.is_whitespace c))
                    (searchable_text tool) = (tool_name tool, tail)).
  { rewrite Hhead. apply span_all; [exact Hclean|].
    destruct tail as [|c rest]; [exact I|]. now subst c. }
  unfold found, to_tool_match. rewrite Hnone, Htext.
  unfold parse_text_content. rewrite Hspan.
  destruct (JsString.span (fun c => negb (Ascii.eqb c "_"%char)) (tool_name tool))
    as [prefix after_prefix] eqn:Hprefix.
  cbn [toolName searchableText match_similarity inputSchema serverName].
  repeat split.
  intros Hplain.
  pose proof (span_all (fun c => negb (Ascii.eqb c "_"%char)) (tool_name tool)
                EmptyString Hplain I) as Hall.
  rewrite append_nil_r, Hprefix in Hall. injection Hall as -> ->.
  destruct (tool_name tool); reflexivity.
Qed.

Lemma tool_name_is_read_back_witness :
  toolName (to_tool_match Sample.env
              {| result_embedding :=
                   Sample.row "weather:getForecast" [] JNull;
                 similarity := 1%R |})
  = JStr "weather_getForecast".
Proof.
  exact (proj1 (tool_name_is_read_back_from_text Sample.env
                  {| tool_name := "weather_getForecast";
                     tool_description := Some "Get weather forecast";
                     tool_inputSchema := JNull |}
                  {| result_embedding := Sample.row "weather:getForecast" [] JNull;
                     similarity := 1%R |}
                  ltac:(discriminate) eq_refl eq_refl eq_refl)).
Defined.

(** ** The matches of a search *)

Lemma strongly_sorted_filter {A} (R : A -> A -> Prop) (f : A -> bool) (l : list A) :
  StronglySorted R l -> StronglySorted R (List.filter f l).
Proof.
  induction 1 as [|x l Hsorted IH Hx]; cbn [List.filter]; [constructor|].
  destruct (f x); [|exact IH].
  constructor; [exact IH|].
  rewrite List.Forall_forall in *. intros y Hy.
  apply filter_In in Hy as [Hy _]. now apply Hx.
Qed.

Lemma strongly_sorted_map {A B} (R : A -> A -> Prop) (R' : B -> B -> Prop)
    (g : A -> B) (l : list A) :
  (forall a b, R a b -> R' (g a) (g b)) ->
  StronglySorted R l -> StronglySorted R' (map g l).
Proof.
  intros Hg. induction 1 as [|x l Hsorted IH Hx]; cbn [map]; constructor.
  - exact IH.
  - rewrite List.Forall_forall in *. intros y Hy.
    apply in_map_iff in Hy as (z & <- & Hz). now apply Hg, Hx.
Qed.

Lemma similar_rows_sorted (query_ : list R) (limit : nat) (threshold : R)
    (contentTypes : option (list string)) (table : list VectorEmbedding) :
  StronglySorted by_similarity_desc
    (similar_rows query_ limit threshold contentTypes table).
Proof. apply firstn_strongly_sorted, order_by_similarity_desc_sorted. Qed.

(** A match carries the similarity and the text of the result it was
    read from, whichever way it was read. *)
Lemma to_tool_match_keeps (env : Env) (result : SearchResult) :
  match_similarity (to_tool_match env result) = similarity result
  /\ searchableText (to_tool_match env result) = text_content (result_embedding result).
Proof.
  unfold to_tool_match.
  destruct (structured_match env result) as [found|] eqn:Hfound.
  - unfold structured_match in Hfound.
    destruct (metadata (result_embedding result)) as [| | | |text| |];
      try discriminate.
    destruct (Js.truthy (JStr text)); [|discriminate].
    destruct (JSON_parse env text) as [document|]; [|discriminate].
    destruct (Js.get "serverName" document) as [serverName_|]; [|discriminate].
    destruct (Js.get "toolName" document) as [toolName_|]; [|discriminate].
    destruct (Js.get "description" document) as [description_|]; [|discriminate].
    destruct (Js.get "inputSchema" document) as [inputSchema_|]; [|discriminate].
    destruct (Js.truthy serverName_ && Js.truthy toolName_); [|discriminate].
    injection Hfound as <-. split; reflexivity.
  - destruct (parse_text_content _) as [[serverName_ toolName_] description_].
    split; reflexivity.
Qed.

Lemma filter_by_servers_incl (env : Env) (serverNames : option (list string))
    (results : list SearchResult) (result : SearchResult) :
  In result (filter_by_servers env serverNames results) -> In result results.
Proof.
  unfold filter_by_servers. destruct serverNames as [[|first_name others]|]; auto.
  intros Hin. now apply filter_In in Hin.
Qed.

Lemma filter_by_servers_sorted (env : Env) (serverNames : option (list string))
    (results : list SearchResult) :
  StronglySorted by_similarity_desc results ->
  StronglySorted by_similarity_desc (filter_by_servers env serverNames results).
Proof.
  unfold filter_by_servers. destruct serverNames as [[|first_name others]|]; auto.
  apply strongly_sorted_filter.
Qed.

(** The matches [searchToolsByVector] returns are ranked: at most [limit]
    of them, in descending order of similarity, each strictly above the
    threshold, and each read from a stored row of content type [tool]
    whose text it carries and whose similarity to the embedded query it
    reports.  The server filter and the reading of the metadata neither
    reorder nor add matches. *)
Theorem searchToolsByVector_results_ranked (env : Env) (query_ : string)
    (limit : nat) (threshold : R) (serverNames : option (list string)) (w : World) :
  exists matches,
    fst (searchToolsByVector env query_ limit threshold serverNames w)
    = Returned matches
    /\ (length matches <= limit)%nat
    /\ StronglySorted by_match_similarity_desc matches
    /\ Forall (fun found =>
         (match_similarity found > threshold)%R
         /\ exists row,
              In row (vector_embeddings w)
              /\ content_type row = "tool"
              /\ searchableText found = text_content row
              /\ match_similarity found
                 = (1 - cosine_distance (embedding row)
                          (provided_embedding env query_))%R)
         matches.
Proof.
  destruct (shouldUseDatabase_cases EVectorEmbeddings w) as [[Hon Huse]|[Hoff Huse]].
  2:{ exists []. split.
      - apply searchToolsByVector_disabled. now rewrite Huse.
      - split; [cbn; lia|]. split; constructor. }
  rewrite (searchToolsByVector_enabled _ _ _ _ _ _ _ Huse). cbn [fst].
  eexists. split; [reflexivity|].
  destruct (rejects env _).
  { split; [cbn; lia|]. split; constructor. }
  set (rows := similar_rows (provided_embedding env query_) limit threshold
                 (Some ["tool"]) (vector_embeddings w)).
  split; [|split].
  - rewrite length_map. etransitivity; [apply length_filter_by_servers|].
    unfold search_results. rewrite length_map. apply length_similar_rows.
  - apply (strongly_sorted_map by_similarity_desc).
    + intros a b Hab. unfold by_match_similarity_desc, by_similarity_desc in *.
      now rewrite (proj1 (to_tool_match_keeps env a)),
        (proj1 (to_tool_match_keeps env b)).
    + apply filter_by_servers_sorted.
      apply (strongly_sorted_map by_similarity_desc); [auto|].
      apply similar_rows_sorted.
  - apply List.Forall_forall. intros found Hin.
    apply in_map_iff in Hin as (result & <- & Hin).
    apply filter_by_servers_incl in Hin.
    unfold search_results in Hin. apply in_map_iff in Hin as (raw & <- & Hraw).
    apply in_similar_rows_inv in Hraw as (Hrow & Hscore & Hgt & Htype).
    destruct (to_tool_match_keeps env
                {| result_embedding := mapRawToEntity env (result_embedding raw);
                   similarity := similarity raw |}) as [-> ->].
    cbn [similarity result_embedding mapRawToEntity text_content].
    split; [exact Hgt|]. exists (result_embedding raw).
    cbn [content_type_selected] in Htype. unfold JsString.includes in Htype.
    cbn [existsb orb] in Htype. rewrite orb_false_r in Htype.
    apply String.eqb_eq in Htype.
    repeat split; auto. rewrite Hscore at 1. reflexivity.
Qed.

(** ** From ingestion to search *)






(** ** Removing the embeddings of a server *)

(** [removeServerToolEmbeddings] removes nothing: it returns without
    sending a statement, and every tool of the server that was stored is
    still stored afterwards. *)
Theorem removeServerToolEmbeddings_removes_nothing (serverName_ : string) (w : World) :
  let run := removeServerToolEmbeddings serverName_ w in
  fst run = Returned tt
  /\ vector_embeddings (snd run) = vector_embeddings w
  /\ issued (snd run) = issued w
  /\ forall tool, tool_stored serverName_ tool w -> tool_stored serverName_ tool (snd run).
Proof.
  intros run.
  assert (Hrun : run = (Returned tt, w) \/ run = (Returned tt, settings_read w)).
  { unfold run, removeServerToolEmbeddings, bind.
    destruct (shouldUseDatabase_cases EVectorEmbeddings w) as [[_ ->]|[_ ->]];
      [left | right]; reflexivity. }
  assert (Hrows : vector_embeddings (settings_read w) = vector_embeddings w
                  /\ issued (settings_read w) = issued w).
  { unfold settings_read. destruct (databaseConfig w); split; reflexivity. }
  destruct Hrows as [Hrows Hissued].
  destruct Hrun as [-> | ->]; cbn [fst snd]; repeat split; auto.
  intros tool (row & Hin & Hid). exists row. rewrite Hrows. auto.
Qed.

(** ** Initialising the database module *)

(** [initializeDbModule] never throws: a failing connection or a throwing
    migration gives [false].  With the database disabled nothing is run.
    The answer [true] means that the database is enabled, that the
    connection was made, and that the migration, if it was still due,
    reported success; once the migration is marked completed it is not
    run again. *)
Theorem initializeDbModule_never_throws (initializeDatabase : Eff unit)
    (migrateToDatabase : Eff MigrationResult) (w : World) :
  let run := initializeDbModule initializeDatabase migrateToDatabase w in
  exists ready,
    fst run = Returned ready
    /\ (database_disabled w -> run = (Returned false, settings_read w))
    /\ (ready = true ->
        exists c w1,
          databaseConfig w = Some c /\ db_enabled c = true
          /\ initializeDatabase w = (Returned tt, w1)
          /\ (migrationCompleted c = true /\ snd run = w1
              \/ migrationCompleted c = false
                 /\ exists users_ groups_ serverConfigs_ marketServers_,
                      fst (migrateToDatabase w1)
                      = Returned (Migrated users_ groups_ serverConfigs_ marketServers_)))
    /\ (forall e w1, initializeDatabase w = (Thrown e, w1) ->
        database_enabled w -> run = (Returned false, w1)).
Proof.
  intros run.
  assert (Hoff : database_disabled w -> run = (Returned false, settings_read w)).
  { unfold run, initializeDbModule, bind, getConfig, database_disabled, settings_read.
    destruct (databaseConfig w) as [c|]; [intros ->|]; reflexivity. }
  destruct (databaseConfig w) as [c|] eqn:Hc.
  2:{ assert (Hdisabled : database_disabled w)
        by (unfold database_disabled; now rewrite Hc).
      exists false. rewrite (Hoff Hdisabled). cbn [fst].
      split; [reflexivity|]. split; [auto|]. split; [discriminate|].
      intros e w1 _ (c & Hsome & _). congruence. }
  destruct (db_enabled c) eqn:Henabled.
  2:{ assert (Hdisabled : database_disabled w)
        by (unfold database_disabled; now rewrite Hc).
      exists false. rewrite (Hoff Hdisabled). cbn [fst].
      split; [reflexivity|]. split; [auto|]. split; [discriminate|].
      intros e w1 _ (c' & Hsome & Hon). congruence. }
  assert (Hnot : ~ database_disabled w).
  { unfold database_disabled. rewrite Hc. congruence. }
  assert (Hrun : run
                 = match initializeDatabase w with
                   | (Returned _, w1) =>
                       if migrationCompleted c then (Returned true, w1)
                       else match migrateToDatabase w1 with
                            | (Returned (Migrated _ _ _ _), w2) => (Returned true, w2)
                            | (Returned (MigrationFailed _), w2) => (Returned false, w2)
                            | (Thrown _, w2) => (Returned false, w2)
                            end
                   | (Thrown _, w1) => (Returned false, w1)
                   end).
  { unfold run, initializeDbModule, getConfig. unfold bind at 1.
    rewrite Hc, Henabled. cbn [negb andb]. unfold try_catch, bind, ret.
    destruct (initializeDatabase w) as [[[]|e] w1]; [|reflexivity].
    destruct (migrationCompleted c); cbn [negb]; [reflexivity|].
    destruct (migrateToDatabase w1) as [[[message|n1 n2 n3 n4]|e] w2]; reflexivity. }
  rewrite Hrun. clear Hrun Hoff run.
  destruct (initializeDatabase w) as [[[]|e] w1] eqn:Hinit.
  2:{ exists false. split; [reflexivity|]. split; [contradiction|].
      split; [discriminate|]. intros e' w' [= <- <-] _. reflexivity. }
  destruct (migrationCompleted c) eqn:Hcompleted.
  { exists true. split; [reflexivity|]. split; [contradiction|].
    split; [|discriminate]. intros _. exists c, w1. auto 10. }
  destruct (migrateToDatabase w1) as [[[message|n1 n2 n3 n4]|e] w2] eqn:Hmigrate.
  - exists false. split; [reflexivity|]. split; [contradiction|].
    split; discriminate.
  - exists true. split; [reflexivity|]. split; [contradiction|].
    split; [|discriminate]. intros _. exists c, w1.
    split; [reflexivity|]. split; [exact Henabled|]. split; [reflexivity|].
    right. split; [exact Hcompleted|]. exists n1, n2, n3, n4.
    now rewrite Hmigrate.
  - exists false. split; [reflexivity|]. split; [contradiction|].
    split; discriminate.
Qed.

(** ** The answers of the search endpoint *)

Lemma searchToolsByVector_ranked (env : Env) (query_ : string)
    (limit : nat) (threshold : R) (serverNames : option (list string)) (w : World) :
  exists matches w1,
    searchToolsByVector env query_ limit threshold serverNames w
    = (Returned matches, w1)
    /\ (length matches <= limit)%nat
    /\ StronglySorted by_match_similarity_desc matches
    /\ Forall (fun found => (match_similarity found > threshold)%R) matches.
Proof.
  destruct (shouldUseDatabase_cases EVectorEmbeddings w) as [[Hon Huse]|[Hoff Huse]].
  2:{ exists [], (settings_read w). split.
      - unfold searchToolsByVector. unfold bind at 1. now rewrite Huse.
      - split; [cbn; lia|]. split; constructor. }
  rewrite (searchToolsByVector_enabled _ _ _ _ _ _ _ Huse).
  eexists. eexists. split; [reflexivity|].
  destruct (rejects env _).
  { split; [cbn; lia|]. split; constructor. }
  split; [|split].
  - rewrite length_map. etransitivity; [apply length_filter_by_servers|].
    unfold search_results. rewrite length_map. apply length_similar_rows.
  - apply (strongly_sorted_map by_similarity_desc).
    + intros a b Hab. unfold by_match_similarity_desc, by_similarity_desc in *.
      now rewrite (proj1 (to_tool_match_keeps env a)),
        (proj1 (to_tool_match_keeps env b)).
    + apply filter_by_servers_sorted.
      apply (strongly_sorted_map by_similarity_desc); [auto|].
      apply similar_rows_sorted.
  - apply List.Forall_forall. intros found Hin.
    apply in_map_iff in Hin as (result & <- & Hin).
    apply filter_by_servers_incl in Hin.
    unfold search_results in Hin. apply in_map_iff in Hin as (raw & <- & Hraw).
    apply in_similar_rows_inv in Hraw as (_ & _ & Hgt & _).
    rewrite (proj1 (to_tool_match_keeps env _)). exact Hgt.
Qed.

(** [GET /search] never answers 500.  A refusal is the 400 of a missing
    query; a success carries at most [limit] matches, [limit] itself
    at most 100 and [total] their number, in descending order of
    similarity, each with a similarity strictly above the threshold of
    the answer and therefore strictly positive: a tool that is orthogonal
    or opposite to the query is never returned, whatever threshold was
    asked for. *)
Theorem searchTools_answer_bounds (env : Env) (req : SearchRequest) (w : World) :
  match fst (searchTools env req w) with
  | Returned (Success _ results total limit threshold _) =>
      total = length results
      /\ (Z.of_nat total <= limit <= 100)%Z
      /\ StronglySorted by_match_similarity_desc results
      /\ Forall (fun found =>
           (match_similarity found > JsNumber.to_R threshold)%R
           /\ (0 < match_similarity found)%R) results
  | Returned (Failure code _) => code = 400%nat
  | Thrown _ => False
  end.
Proof.
  unfold searchTools, try_catch.
  destruct (q_query req) as [|query_|items|]; try reflexivity.
  destruct (String.eqb query_ ""); [reflexivity|].
  unfold bind, ret.
  destruct (searchToolsByVector_ranked env query_ (Z.to_nat (limitNum (q_limit req)))
              (JsNumber.to_R (thresholdNum (q_threshold req)))
              (serverNames_of (q_servers req)) w)
    as (matches & w1 & -> & Hlen & Hsorted & Hall).
  cbn [fst]. pose proof (limitNum_range (q_limit req)) as Hrange.
  split; [reflexivity|]. split; [lia|]. split; [exact Hsorted|].
  revert Hall. apply List.Forall_impl. intros found Hgt. split; [exact Hgt|].
  destruct (thresholdNum_finite (q_threshold req)) as (q & Hq & Hlow & _).
  rewrite Hq in Hgt. cbn [JsNumber.to_R] in Hgt.
  apply Qreals.Qle_Rle in Hlow. rewrite RMicromega.Q2R_0 in Hlow. lra.
Qed.

(** ** The column and the embedding *)

Lemma saveEmbedding_keeps_schema (env : Env) (contentType contentId textContent : string)
    (embedding_ : list R) (metadata_ : jsval) (model_ : string)
    (w w' : World) (saved : VectorEmbedding) :
  saveEmbedding env contentType contentId textContent embedding_ metadata_ model_ w
    = (Returned saved, w') ->
  atttypmod w' = atttypmod w /\ vector_index w' = vector_index w.
Proof.
  unfold saveEmbedding, findByContentIdentity, save, bind, gets, ret, query.
  destruct (rejects env (FindOne contentType contentId)); [discriminate|].
  cbn [apply_stmt set_issued vector_embeddings issued fst snd].
  match goal with |- context [rejects env ?s] => destruct (rejects env s) end;
    [discriminate|].
  intros [= _ <-]. split; reflexivity.
Qed.

(** What a reconciler that returned has done on a connected database:
    nothing but the catalog query when the width it decoded was the needed
    one, and otherwise the index drop, the column change and the index
    creation. *)
Lemma reconciler_returned (env : Env) (dimensionsNeeded : Z) (w w1 : World) :
  isInitialized w = true ->
  checkDatabaseVectorDimensions env dimensionsNeeded w = (Returned tt, w1) ->
  (current_dimensions (option_list (atttypmod w)) = dimensionsNeeded
   /\ dimensionsNeeded <> 0%Z
   /\ atttypmod w1 = atttypmod w /\ vector_index w1 = vector_index w)
  \/ ((current_dimensions (option_list (atttypmod w)) <> dimensionsNeeded
       \/ dimensionsNeeded = 0%Z)
      /\ atttypmod w1 = Some (typmod_of env dimensionsNeeded)
      /\ vector_index w1 = Some ivfflat).
Proof.
  intros Hinit.
  unfold checkDatabaseVectorDimensions, select_typmod, try_catch, bind, gets, ret, throw.
  rewrite Hinit. cbn [negb].
  destruct (rejects env SelectTypmod) eqn:Hselect.
  { rewrite (query_rejected _ _ _ Hselect). discriminate. }
  rewrite (query_accepted _ _ _ Hselect).
  cbn [apply_stmt after_sending set_issued atttypmod].
  set (current := current_dimensions (option_list (atttypmod w))).
  assert (Hmigrate :
            (current <> dimensionsNeeded \/ dimensionsNeeded = 0%Z) ->
            (let '(o, w') :=
               (let '(o, w') := query env DropIndex (after_sending SelectTypmod w) in
                match o with
                | Returned _ =>
                    let '(o0, w'0) := query env (AlterWidth dimensionsNeeded) w' in
                    match o0 with
                    | Returned _ => query env (CreateIndex ivfflat) w'0
                    | Thrown e => (Thrown e, w'0)
                    end
                | Thrown e => (Thrown e, w')
                end) in
             match o with
             | Returned a => (Returned a, w')
             | Thrown e =>
                 (Thrown (Error ("Vector dimension check failed: "
                                 ++ match e with Error message => message end)), w')
             end) = (Returned tt, w1) ->
            (current = dimensionsNeeded /\ dimensionsNeeded <> 0%Z
             /\ atttypmod w1 = atttypmod w /\ vector_index w1 = vector_index w)
            \/ ((current <> dimensionsNeeded \/ dimensionsNeeded = 0%Z)
                /\ atttypmod w1 = Some (typmod_of env dimensionsNeeded)
                /\ vector_index w1 = Some ivfflat)).
  { intros Hdiffer.
    destruct (rejects env DropIndex) eqn:Hdrop;
      [rewrite (query_rejected _ _ _ Hdrop); discriminate|].
    rewrite (query_accepted _ _ _ Hdrop).
    destruct (rejects env (AlterWidth dimensionsNeeded)) eqn:Halter;
      [rewrite (query_rejected _ _ _ Halter); discriminate|].
    rewrite (query_accepted _ _ _ Halter).
    destruct (rejects env (CreateIndex ivfflat)) eqn:Hcreate;
      [rewrite (query_rejected _ _ _ Hcreate); discriminate|].
    rewrite (query_accepted _ _ _ Hcreate).
    intros [= <-]. right. split; [exact Hdiffer|]. split; reflexivity. }
  destruct (Z.eqb_spec current 0) as [Hzero|Hnonzero]; cbn [orb].
  - apply Hmigrate.
    destruct (Z.eq_dec dimensionsNeeded 0%Z) as [->|Hneeded]; [now right|].
    left. congruence.
  - destruct (Z.eqb_spec current dimensionsNeeded) as [Hsame|Hdiff]; cbn [negb].
    + intros [= <-]. left. split; [exact Hsame|].
      split; [congruence|]. split; reflexivity.
    + apply Hmigrate. now left.
Qed.

(** What the ingestion of one tool leaves behind, on any engine.  With
    database routing on and a connected database, whenever the ingestion
    returns, the table holds the tool's row with the embedding and its
    length as [dimensions]; and the column was either left alone -- only
    when the width decoded from the catalog was already that length -- or
    declared anew as [vector(length)], with an IVFFlat index.  On an
    engine whose catalog reports the width itself, the catalog value
    afterwards is therefore the length of the vector, unless it was that
    length plus 4 before; and the reconciler will decode it as the length
    minus 4 at the next tool. *)
Theorem ingestion_declares_the_vector_width (env : Env) (serverName_ : string)
    (tool : ToolInfo) (w w' : World) :
  let vector := provided_embedding env (searchable_text tool) in
  let width := Z.of_nat (length vector) in
  database_enabled w ->
  isInitialized w = true ->
  ingest_tool env serverName_ tool w = (Returned tt, w') ->
  (exists row,
     In row (vector_embeddings w')
     /\ same_identity "tool" (serverName_ ++ ":" ++ tool_name tool) row = true
     /\ embedding row = vector
     /\ dimensions row = length vector)
  /\ ((current_dimensions (option_list (atttypmod w)) = width
       /\ atttypmod w' = atttypmod w /\ vector_index w' = vector_index w)
      \/ ((current_dimensions (option_list (atttypmod w)) <> width \/ width = 0%Z)
          /\ atttypmod w' = Some (typmod_of env width)
          /\ vector_index w' = Some ivfflat))
  /\ ((forall n, typmod_of env n = n) ->
      (0 < width)%Z ->
      atttypmod w <> Some (width + 4)%Z ->
      atttypmod w' = Some width
      /\ current_dimensions (option_list (atttypmod w')) = (width - 4)%Z).
Proof.
  intros vector width Hon Hinit Hrun.
  unfold ingest_tool in Hrun.
  apply bind_returned in Hrun as (embedding_ & w1 & Hprovided & Hrun).
  rewrite generateEmbedding_total in Hprovided. fold vector in Hprovided.
  injection Hprovided as <- <-.
  apply bind_returned in Hrun as (use & w2 & Huse & Hrun).
  rewrite (shouldUseDatabase_enabled _ _ Hon) in Huse. injection Huse as <- <-.
  apply bind_returned in Hrun as ([] & w3 & Hcheck & Hrun).
  apply bind_returned in Hrun as (saved & w4 & Hsave & Hrun).
  unfold ret in Hrun. injection Hrun as <-.
  destruct (saveEmbedding_keeps_schema _ _ _ _ _ _ _ _ _ _ Hsave) as [Htypmod Hindex].
  apply saveEmbedding_inv in Hsave as [Hsaved Hrows].
  apply (reconciler_returned _ _ _ _ Hinit) in Hcheck. fold width in Hcheck.
  rewrite <- Htypmod, <- Hindex in Hcheck.
  split; [|split].
  - exists saved. rewrite Hrows. split; [now left|]. subst saved.
    unfold same_identity. cbn. now rewrite !String.eqb_refl.
  - destruct Hcheck as [(Hsame & _ & Hkept)|Hnew]; [left | right]; auto.
  - intros Hplain Hpositive Hbefore.
    assert (Hdecoded : current_dimensions [width] = (width - 4)%Z).
    { unfold current_dimensions.
      destruct (Z.eqb_spec width 0); [lia|].
      destruct (Z.ltb_spec 0 width); [reflexivity | lia]. }
    destruct Hcheck as [(Hsame & _ & Hkept & _)|(_ & Hnew & _)].
    + exfalso. apply Hbefore.
      destruct (atttypmod w) as [t|]; cbn in Hsame; [|lia].
      revert Hsame. unfold current_dimensions.
      change (option_list (Some t)) with [t]. cbv beta iota.
      destruct (Z.eqb_spec t 0); [lia|].
      destruct (Z.ltb_spec 0 t); [|lia].
      intros Hsame. f_equal. lia.
    + rewrite Hnew, Hplain. split; [reflexivity|]. exact Hdecoded.
Qed.

Lemma ingestion_declares_the_vector_width_witness :
  atttypmod (snd (ingest_tool Sample.env "weather" Sample.forecast Sample.world))
  = Some 100%Z
  /\ current_dimensions
       (option_list
          (atttypmod (snd (ingest_tool Sample.env "weather" Sample.forecast
                             Sample.world))))
     = 96%Z.
Proof.
  assert (Hon : database_enabled Sample.world).
  { exists {| db_enabled := true; migrationCompleted := true |}. split; reflexivity. }
  assert (Hreturns : fst (ingest_tool_offline_steps Sample.env "weather" Sample.forecast
                            Sample.world) = Returned tt)
    by (vm_compute; reflexivity).
  rewrite <- (ingest_tool_offline Sample.env "weather" Sample.forecast Sample.world
                eq_refl Hon) in Hreturns.
  assert (Hlength : length (provided_embedding Sample.env
                              (searchable_text Sample.forecast)) = 100%nat).
  { change (provided_embedding Sample.env (searchable_text Sample.forecast))
      with (generateFallbackEmbedding (searchable_text Sample.forecast)).
    apply length_generateFallbackEmbedding. }
  destruct (ingest_tool Sample.env "weather" Sample.forecast Sample.world)
    as [outcome_ w'] eqn:Hrun.
  cbn [fst] in Hreturns. subst outcome_. cbn [snd].
  destruct (ingestion_declares_the_vector_width Sample.env "weather" Sample.forecast
              Sample.world w' Hon eq_refl Hrun) as (_ & _ & Hplain).
  rewrite Hlength in Hplain.
  destruct (Hplain (fun n => eq_refl) ltac:(lia) ltac:(discriminate))
    as [Hcolumn Hdecoded].
  rewrite Hdecoded, Hcolumn. split; reflexivity.
Defined.

(** ** The adapters on the database path *)

(** With database routing on and the engine answering, the adapters
    answer from the database alone: [findUserByUsername] returns the
    stored user of that name, and nothing when there is none -- a user
    known to the file-backed store only is not found -- and
    [getServersInfo] lists the stored configurations, each as a
    disconnected server without tools.  The file-backed implementation
    is not consulted. *)
Theorem adapters_answer_from_database (env : Env)
    (findUserByUsernameFile : string -> Eff (option IUser))
    (getServersInfoFile : Eff (list ServerInfo))
    (username_ : string) (w : World) :
  database_enabled w ->
  (rejects env (FindUser username_) = false ->
   findUserByUsername env findUserByUsernameFile username_ w
   = (Returned
        (option_map (to_IUser)
           (find (fun u => String.eqb (Entities.username u) username_) (users w))),
      after_sending (FindUser username_) w))
  /\ (rejects env FindServerConfigs = false ->
      getServersInfo env getServersInfoFile w
      = (Returned (map (to_ServerInfo (now w)) (server_configs w)),
         after_sending FindServerConfigs w)
      /\ Forall (fun server => status server = "disconnected" /\ tools server = [])
           (map (to_ServerInfo (now w)) (server_configs w))).
Proof.
  intros Hon. split; intros Haccepted.
  - unfold findUserByUsername. unfold bind at 1.
    rewrite (shouldUseDatabase_enabled _ _ Hon).
    unfold try_catch, bind, findByUsername, bind, gets, ret.
    rewrite (query_accepted _ _ _ Haccepted).
    cbn [apply_stmt after_sending set_issued users].
    destruct (find _ (users w)); reflexivity.
  - split; [now apply getServersInfo_database|].
    apply List.Forall_forall. intros server Hin.
    apply in_map_iff in Hin as (config & <- & _). split; reflexivity.
Qed.

Lemma adapters_answer_from_database_witness :
  fst (findUserByUsername Sample.env
         (fun name_ => ret (Some {| username := name_; password := "hash";
                                    isAdmin := true |}))
         "admin" Sample.world)
  = Returned None.
Proof.
  assert (Hon : database_enabled Sample.world).
  { exists {| db_enabled := true; migrationCompleted := true |}. split; reflexivity. }
  rewrite (proj1 (adapters_answer_from_database Sample.env
                    (fun name_ => ret (Some {| username := name_; password := "hash";
                                               isAdmin := true |}))
                    (ret []) "admin" Sample.world Hon) eq_refl).
  reflexivity.
Defined.

(** ** Further checks of the model on concrete inputs *)

Example getDimensionsForModel_values :
  map getDimensionsForModel
    ["BAAI/bge-m3"; "text-embedding-3-large"; "fallback"; "simple-hash";
     "text-embedding-ada-002"; "bge-m3-text-embedding-3"; "Fallback"]
  = [1024; 1536; 100; 100; 1536; 1024; 1536]%nat.
Proof. reflexivity. Qed.

Example serverNames_of_values :
  map serverNames_of
    [QAbsent; QString ""; QString " weather , maps,,"; QString " , ";
     QArray ["weather "; ""; " maps"]; QObject]
  = [None; None; Some ["weather"; "maps"]; Some []; Some ["weather"; "maps"]; None].
Proof. vm_compute. reflexivity. Qed.

Example to_listed_tool_values :
  to_listed_tool Sample.env
    {| result_embedding := Sample.row "weather:getForecast" [] (JStr Sample.weather_json);
       similarity := 1%R |}
  = {| Listed.serverName := JStr "weather"; Listed.toolName := JStr "getForecast";
       Listed.description := JUndefined; Listed.inputSchema := JUndefined |}
  /\ to_listed_tool Sample.env
       {| result_embedding := Sample.row "weather:getForecast" [] (JStr "{");
          similarity := 1%R |}
     = unknown_tool
  /\ to_listed_tool Sample.env
       {| result_embedding := Sample.row "weather:getForecast" [] Sample.weather_document;
          similarity := 1%R |}
     = unknown_tool.
Proof. repeat split; vm_compute; reflexivity. Qed.

Example parseFloat_values :
  map JsNumber.parseFloat ["0.5abc"; " -.25e1"; "abc"; "1e-400"; "-1e-400"; "1e400"; "-1e400"]
  = [JsNumber.Finite (1 # 2); JsNumber.Finite (- (5 # 2)); JsNumber.NaN;
     JsNumber.Finite 0; JsNumber.Finite 0;
     JsNumber.Infinity false; JsNumber.Infinity true]
  /\ map thresholdNum [QString "1e-400"; QString "1e400"; QString "-1e400"]
     = [JsNumber.Finite (7 # 10); JsNumber.Finite 1; JsNumber.Finite 0].
Proof. split; vm_compute; reflexivity. Qed.

Example metadata_text_values :
  Sample.metadata_text Sample.weather_document = JStr Sample.weather_json
  /\ Sample.metadata_text JNull = JNull
  /\ Sample.metadata_text JUndefined = JNull
  /\ Sample.stringify
       (JObj [("a", JArr [JNum (-3); JBool true; JUndefined; JNull]);
              ("b", JUndefined);
              ("c", JStr (String (ascii_of_nat 10) "x"))])
     = Some ("{" ++ Sample.quoted "a" ++ ":[-3,true,null,null],"
             ++ Sample.quoted "c" ++ ":"
             ++ Sample.quoted (String (ascii_of_nat 92) "nx") ++ "}")
  /\ Js.get "serverName"
       (metadata (mapRawToEntity Sample.env
                    (Sample.row "weather:getForecast" [] Sample.weather_document)))
     = Some JUndefined.
Proof. repeat split; vm_compute; reflexivity. Qed.

Example rebuildServerEmbeddings_values :
  fst (rebuildServerEmbeddings Sample.env_down (ret [Scenario.connected_weather])
         (Some "weather") Scenario.world_with_configs)
  = Returned (ServerRebuilt "Vector embeddings rebuilt for server 'weather'" "weather" 3)
  /\ fst (rebuildServerEmbeddings Sample.env_down (ret [Scenario.connected_weather])
            None Scenario.world_with_configs)
     = Returned (Refused 400 "Server name is required")
  /\ fst (rebuildServerEmbeddings Sample.env_down (throw (Error "settings unreadable"))
            (Some "weather") Scenario.world_with_configs)
     = Returned (Refused 500 "Failed to rebuild server vector embeddings").
Proof. repeat split; vm_compute; reflexivity. Qed.
